(** * Icon generator: the serverless handler with deterministic seeding,
      retry and partial success, and the two basic handlers

    Shallow embedding of the three request handlers of the repository:

    - the Netlify function with [generateSeed], [retryWithBackoff],
      [validateInput] and the loop with partial success (top level);
    - the plain Netlify function [netlify/functions/generate-icons.js] and
      the Express route [app.post('/api/generate-icons')], which fan out
      with [Promise.all] (module [Basic]).

    Strings are sequences of UTF-16 code units.  Request fields are the
    values [JSON.parse] can build, with integer valued numbers.  The
    handlers are modelled from the destructured request fields on.  Console
    output is not modelled: no result depends on it.

    The embedding comes first, then the vocabulary of the statements, then
    the facts. *)

From Stdlib Require Import String Ascii DecimalString.
From Stdlib Require Import ZArith List Bool Lia Permutation Sorted.
Import ListNotations.
Open Scope Z_scope.

(* ------------------------------------------------------------------ *)
(** ** Strings *)

(** A JavaScript string: its UTF-16 code units. *)
Definition jsstring := list Z.

(** The code units of an ASCII literal of the source. *)
Definition lit (s : string) : jsstring :=
  map (fun a => Z.of_nat (nat_of_ascii a)) (list_ascii_of_string s).

Definition jsstring_eqb (a b : jsstring) : bool :=
  if list_eq_dec Z.eq_dec a b then true else false.

(** [Number.prototype.toString] at an integer: sign and decimal digits.
    This is the text of the runtime for integers below 2^53 in magnitude,
    which a double holds exactly; beyond them the runtime writes the
    shortest digits that read back as the same double, and exponent notation
    from 10^21 on. *)
Definition Number_toString (z : Z) : jsstring :=
  lit (NilEmpty.string_of_int (Z.to_int z)).

(** ECMAScript WhiteSpace and LineTerminator code units, what
    [String.prototype.trim] strips. *)
Definition is_whitespace (c : Z) : bool :=
  (c =? 9) || (c =? 10) || (c =? 11) || (c =? 12) || (c =? 13) || (c =? 32)
  || (c =? 160) || (c =? 5760) || ((8192 <=? c) && (c <=? 8202))
  || (c =? 8232) || (c =? 8233) || (c =? 8239) || (c =? 8287)
  || (c =? 12288) || (c =? 65279).

Fixpoint trimStart (s : jsstring) : jsstring :=
  match s with
  | c :: rest => if is_whitespace c then trimStart rest else s
  | [] => []
  end.

Definition trimEnd (s : jsstring) : jsstring := rev (trimStart (rev s)).

(** [s.trim()] *)
Definition trim (s : jsstring) : jsstring := trimEnd (trimStart s).

(** [s.startsWith(sub)] on code units. *)
Fixpoint starts_with (sub s : jsstring) : bool :=
  match sub, s with
  | [], _ => true
  | _ :: _, [] => false
  | a :: sub', b :: s' => (a =? b) && starts_with sub' s'
  end.

(** [s.includes(sub)] *)
Fixpoint includes (s sub : jsstring) : bool :=
  starts_with sub s ||
  match s with
  | [] => false
  | _ :: s' => includes s' sub
  end.

(* ------------------------------------------------------------------ *)
(** ** Exceptions and completion *)

(** The error objects the code meets; both carry [message]. *)
Inductive exn : Type :=
| Error (msg : jsstring)
| TypeError (msg : jsstring).

Definition message (e : exn) : jsstring :=
  match e with Error m => m | TypeError m => m end.

(** Normal or abrupt completion of an expression or call. *)
Inductive outcome (A : Type) : Type :=
| Return (a : A)
| Throw (e : exn).
Arguments Return {A} a.
Arguments Throw {A} e.

Definition obind {A B} (m : outcome A) (k : A -> outcome B) : outcome B :=
  match m with
  | Return a => k a
  | Throw e => Throw e
  end.

Declare Scope outcome_scope.
Delimit Scope outcome_scope with outcome.
Notation "'let?' x ':=' m 'in' k" := (obind m (fun x => k))
  (at level 10, x name, m at level 100, k at level 200) : outcome_scope.
Open Scope outcome_scope.

(* ------------------------------------------------------------------ *)
(** ** Values built by [JSON.parse], and [undefined] for an absent field *)

#[warnings="-register-all"]
Inductive jsval : Type :=
| JUndefined
| JNull
| JBool (b : bool)
| JNum (z : Z)
| JStr (s : jsstring)
| JArr (elems : list jsval)
| JObj (props : list (jsstring * jsval)).

(** ToBoolean *)
Definition truthy (v : jsval) : bool :=
  match v with
  | JUndefined | JNull => false
  | JBool b => b
  | JNum z => negb (z =? 0)
  | JStr s => match s with [] => false | _ => true end
  | JArr _ | JObj _ => true
  end.

Fixpoint own_property (k : jsstring) (props : list (jsstring * jsval))
  : option jsval :=
  match props with
  | [] => None
  | (k', v) :: rest => if jsstring_eqb k k' then Some v else own_property k rest
  end.

(** V8's message for a failed OrdinaryToPrimitive. *)
Definition cannot_convert : exn :=
  TypeError (lit "Cannot convert object to primitive value").

(** ToString, also ToPropertyKey on these values.  An array goes through
    [Array.prototype.toString], that is [join(",")], where [null] and
    [undefined] elements give the empty string.  A parsed object has
    [Object.prototype] as prototype and only data properties that are not
    callable: OrdinaryToPrimitive reaches [Object.prototype.toString] unless
    an own [toString] property shadows it, and then neither [toString] nor
    [valueOf] yields a primitive and a TypeError is thrown. *)
Fixpoint ToString (v : jsval) : outcome jsstring :=
  match v with
  | JUndefined => Return (lit "undefined")
  | JNull => Return (lit "null")
  | JBool true => Return (lit "true")
  | JBool false => Return (lit "false")
  | JNum z => Return (Number_toString z)
  | JStr s => Return s
  | JArr elems =>
      (fix join_comma (l : list jsval) : outcome jsstring :=
         match l with
         | [] => Return []
         | x :: rest =>
             let? sx := match x with
                        | JUndefined | JNull => Return []
                        | _ => ToString x
                        end in
             match rest with
             | [] => Return sx
             | _ :: _ => let? sr := join_comma rest in
                         Return (sx ++ lit "," ++ sr)
             end
         end) elems
  | JObj props =>
      match own_property (lit "toString") props with
      | Some _ => Throw cannot_convert
      | None => Return (lit "[object Object]")
      end
  end.

(** The string an array element contributes to [join]. *)
Definition join_element (x : jsval) : outcome jsstring :=
  match x with
  | JUndefined | JNull => Return []
  | _ => ToString x
  end.

(** [Array.prototype.join] with separator [sep]. *)
Fixpoint Array_join (sep : jsstring) (l : list jsval) : outcome jsstring :=
  match l with
  | [] => Return []
  | x :: rest =>
      let? sx := join_element x in
      match rest with
      | [] => Return sx
      | _ :: _ => let? sr := Array_join sep rest in
                  Return (sx ++ sep ++ sr)
      end
  end.

(* ------------------------------------------------------------------ *)
(** ** 32-bit integer operators *)

(** ToInt32 *)
Definition ToInt32 (z : Z) : Z :=
  let m := z mod 2 ^ 32 in
  if 2 ^ 31 <=? m then m - 2 ^ 32 else m.

(** [a << n] *)
Definition js_shl (a n : Z) : Z :=
  ToInt32 (Z.shiftl (ToInt32 a) (n mod 32)).

(** [a & b] *)
Definition js_and (a b : Z) : Z :=
  ToInt32 (Z.land (ToInt32 a) (ToInt32 b)).

(* ------------------------------------------------------------------ *)
(** ** Constants *)

Definition MAX_RETRIES : nat := 2.
Definition RETRY_DELAY_MS : Z := 1000.

Definition ICON_VARIATIONS : list jsstring :=
  [ lit "variation 1, primary subject";
    lit "variation 2, alternative angle";
    lit "variation 3, different composition";
    lit "variation 4, unique perspective" ].

(** The own properties of [STYLE_PROMPTS]; property keys are strings. *)
Definition STYLE_PROMPTS : list (jsstring * jsstring) :=
  [ (lit "1", lit "simple flat icon design, minimal, clean lines, solid colors, professional icon style");
    (lit "2", lit "pastel colors, soft gradients, gentle rounded shapes, cute aesthetic, dreamy icon style");
    (lit "3", lit "bubble style, glossy, shiny reflections, translucent, playful, vibrant icon style");
    (lit "4", lit "neon style, glowing edges, dark background, cyberpunk aesthetic, luminous icon style");
    (lit "5", lit "3D rendered, isometric view, depth and shadows, modern professional icon style") ].

(* ------------------------------------------------------------------ *)
(** ** generateSeed *)

(** One turn of the loop: [hash = ((hash << 5) - hash) + char;
    hash = hash & hash]. *)
Definition seed_step (hash char : Z) : Z :=
  let hash := (js_shl hash 5 - hash) + char in
  js_and hash hash.

(** The loop over [str.charCodeAt(i)], [i] from [0] to [str.length - 1]. *)
Definition seed_loop (str : jsstring) : Z := fold_left seed_step str 0.

(** [generateSeed(prompt, style)] at a string [prompt]; the template
    literal converts [style] with ToString. *)
Definition generateSeed (prompt : jsstring) (style : jsval) : outcome Z :=
  let? s := ToString style in
  let str := prompt ++ lit "-" ++ s in
  Return (Z.abs (seed_loop str)).

(* ------------------------------------------------------------------ *)
(** ** Property reads and comparisons on request values *)

Definition isArray (v : jsval) : bool :=
  match v with JArr _ => true | _ => false end.

(** [v.length].  Strings and arrays have it, a parsed object has it only as
    an own property, numbers and booleans give [undefined], and reading it
    from [null] or [undefined] throws. *)
Definition get_length (v : jsval) : outcome jsval :=
  match v with
  | JStr s => Return (JNum (Z.of_nat (length s)))
  | JArr elems => Return (JNum (Z.of_nat (length elems)))
  | JObj props =>
      match own_property (lit "length") props with
      | Some x => Return x
      | None => Return JUndefined
      end
  | JNum _ | JBool _ => Return JUndefined
  | JUndefined | JNull =>
      Throw (TypeError (lit "Cannot read properties of undefined (reading 'length')"))
  end.

(** Names [Object.prototype] defines in Node; every object literal of the
    source inherits them, and each of the inherited values is truthy. *)
Definition Object_prototype_names : list jsstring :=
  [ lit "constructor"; lit "__defineGetter__"; lit "__defineSetter__";
    lit "hasOwnProperty"; lit "__lookupGetter__"; lit "__lookupSetter__";
    lit "isPrototypeOf"; lit "propertyIsEnumerable"; lit "toString";
    lit "valueOf"; lit "__proto__"; lit "toLocaleString" ].

(** What [STYLE_PROMPTS[key]] finds. *)
Inductive member : Type :=
| Own (descriptor : jsstring)
| Inherited (name : jsstring)
| Missing.

Definition member_truthy (m : member) : bool :=
  match m with
  | Own d => match d with [] => false | _ => true end
  | Inherited _ => true
  | Missing => false
  end.

Fixpoint assoc (k : jsstring) (table : list (jsstring * jsstring))
  : option jsstring :=
  match table with
  | [] => None
  | (k', d) :: rest => if jsstring_eqb k k' then Some d else assoc k rest
  end.

(** [STYLE_PROMPTS[style]]: the key is ToPropertyKey of [style]; own
    properties first, then the prototype. *)
Definition STYLE_PROMPTS_get (style : jsval) : outcome member :=
  let? key := ToString style in
  match assoc key STYLE_PROMPTS with
  | Some d => Return (Own d)
  | None =>
      if existsb (jsstring_eqb key) Object_prototype_names
      then Return (Inherited key)
      else Return Missing
  end.

(* ------------------------------------------------------------------ *)
(** ** validateInput *)

Section Runtime.

(** A function of the JavaScript runtime that the code reaches only on
    malformed requests: whether the number a string converts to exceeds an
    integer, [ToNumber(s) > n]. *)
Variable StringToNumber_gt : jsstring -> Z -> bool.

(** [v > n] at an integer literal [n]: ToPrimitive, then ToNumber. *)
Definition js_gt (v : jsval) (n : Z) : outcome bool :=
  match v with
  | JUndefined => Return false
  | JNull => Return (n <? 0)
  | JBool b => Return (n <? (if b then 1 else 0))
  | JNum z => Return (n <? z)
  | JStr s => Return (StringToNumber_gt s n)
  | JArr _ | JObj _ =>
      let? s := ToString v in Return (StringToNumber_gt s n)
  end.

(** [v && v.length > n] as a condition. *)
Definition truthy_and_longer (v : jsval) (n : Z) : outcome bool :=
  if truthy v
  then let? len := get_length v in js_gt len n
  else Return false.

(** [!prompt || typeof prompt !== 'string' || prompt.trim().length === 0] *)
Definition prompt_missing (prompt : jsval) : bool :=
  negb (truthy prompt)
  || match prompt with
     | JStr s => (length (trim s) =? 0)%nat
     | _ => true
     end.

(** [!style || !STYLE_PROMPTS[style]] *)
Definition style_invalid (style : jsval) : outcome bool :=
  if negb (truthy style) then Return true
  else let? m := STYLE_PROMPTS_get style in Return (negb (member_truthy m)).

(** [if (c) { errors.push(msg); }] *)
Definition push_if (c : bool) (msg : string) (errors : list jsstring)
  : list jsstring :=
  if c then errors ++ [lit msg] else errors.

(** [validateInput(prompt, style, brandColors)]: the five rules in the order
    of the source; a conversion that throws ends the call. *)
Definition validateInput (prompt style brandColors : jsval)
  : outcome (list jsstring) :=
  let errors := [] in
  let errors :=
    push_if (prompt_missing prompt)
      "Prompt is required and must be a non-empty string" errors in
  let? too_long := truthy_and_longer prompt 200 in
  let errors :=
    push_if too_long "Prompt must be less than 200 characters" errors in
  let? bad_style := style_invalid style in
  let errors := push_if bad_style "Invalid style selection" errors in
  let errors :=
    push_if (truthy brandColors && negb (isArray brandColors))
      "Brand colors must be an array" errors in
  let? too_many := truthy_and_longer brandColors 5 in
  let errors :=
    push_if too_many "Maximum 5 brand colors allowed" errors in
  Return errors.

End Runtime.

(* ------------------------------------------------------------------ *)
(** ** Effects: the image service and the timer *)

(** What the handler does to the outside, in the order it happens: a call
    [replicate.run(model, {input: {prompt, ..., seed}})] and a timer
    [setTimeout(resolve, ms)] that the code awaits. *)
Inductive event : Type :=
| EvCall (prompt : jsstring) (seed : Z)
| EvSleep (ms : Z).

(** The world is the history of events so far. *)
Definition World : Type := list event.

(** An awaited computation: it reads the history, extends it, and completes
    normally or abruptly. *)
Definition M (A : Type) : Type := World -> outcome A * World.

Definition ret {A} (a : A) : M A := fun w => (Return a, w).

Definition bind {A B} (m : M A) (k : A -> M B) : M B :=
  fun w =>
    match m w with
    | (Return a, w') => k a w'
    | (Throw e, w') => (Throw e, w')
    end.

Definition lift {A} (o : outcome A) : M A := fun w => (o, w).

(** [try { m } catch (error) { h error }] *)
Definition try_catch {A} (m : M A) (h : exn -> M A) : M A :=
  fun w =>
    match m w with
    | (Return a, w') => (Return a, w')
    | (Throw e, w') => h e w'
    end.

Declare Scope M_scope.
Delimit Scope M_scope with M.
Notation "x <- m ;; k" := (bind m (fun x => k))
  (at level 61, m at next level, right associativity) : M_scope.

(** [await new Promise(resolve => setTimeout(resolve, ms))] *)
Definition sleep (ms : Z) : M unit :=
  fun w => (Return tt, w ++ [EvSleep ms]).

(** A fallible operation on the outside: its answer may depend on all that
    happened before, this call included. *)
Definition invoke {A} (answer : World -> outcome A) (prompt : jsstring)
  (seed : Z) : M A :=
  fun w => let w' := w ++ [EvCall prompt seed] in (answer w', w').

(* ------------------------------------------------------------------ *)
(** ** retryWithBackoff *)

(** The loop [for (attempt = 0; attempt <= maxRetries; attempt++)] entered at
    [attempt], with [remaining = maxRetries - attempt]. *)
Fixpoint retry_from {A} (fn : M A) (remaining attempt : nat) : M A :=
  fun w =>
    match fn w with
    | (Return a, w1) => (Return a, w1)
    | (Throw error, w1) =>
        match remaining with
        | O => (Throw error, w1)
        | S remaining' =>
            let delay := RETRY_DELAY_MS * 2 ^ Z.of_nat attempt in
            match sleep delay w1 with
            | (_, w2) => retry_from fn remaining' (S attempt) w2
            end
        end
    end.

Definition retryWithBackoff {A} (fn : M A) (maxRetries : nat) : M A :=
  retry_from fn maxRetries 0.

(* ------------------------------------------------------------------ *)
(** ** The handler with retry and partial success *)

(** What [replicate.run] resolves to: one file output or an array of them,
    each given by the URL that [String] makes of it. *)
Inductive output : Type :=
| OutArray (items : list jsstring)
| OutSingle (item : jsstring).

(** [Array.isArray(output) ? String(output[0]) : String(output)] *)
Definition image_url (o : output) : jsstring :=
  match o with
  | OutArray (first :: _) => first
  | OutArray [] => lit "undefined"
  | OutSingle item => item
  end.

(** An entry of [results] and an entry of [errors]. *)
Record icon_result : Type :=
  { r_index : Z; r_url : jsstring; r_prompt : jsstring; r_seed : Z }.

Record icon_error : Type := { e_index : Z; e_error : jsstring }.

Record response : Type := { statusCode : Z; body : jsval }.

(** [JSON.stringify], up to the text: the document that the text denotes.
    A property whose value is [undefined] is left out, an [undefined] array
    element becomes [null]. *)
Fixpoint JSON_stringify (v : jsval) : jsval :=
  match v with
  | JArr elems =>
      JArr (map (fun x => match x with
                          | JUndefined => JNull
                          | _ => JSON_stringify x
                          end) elems)
  | JObj props =>
      JObj ((fix each (l : list (jsstring * jsval)) :=
               match l with
               | [] => []
               | (k, x) :: rest =>
                   match x with
                   | JUndefined => each rest
                   | _ => (k, JSON_stringify x) :: each rest
                   end
               end) props)
  | _ => v
  end.

(** [results.sort((a, b) => a.index - b.index)]; the sort is stable. *)
Fixpoint insert_by_index (r : icon_result) (l : list icon_result)
  : list icon_result :=
  match l with
  | [] => [r]
  | x :: l' =>
      if r_index r <=? r_index x then r :: l else x :: insert_by_index r l'
  end.

Definition sort_by_index (l : list icon_result) : list icon_result :=
  fold_right insert_by_index [] l.

Definition icon_json (r : icon_result) : jsval :=
  JObj [ (lit "url", JStr (r_url r));
         (lit "prompt", JStr (r_prompt r));
         (lit "seed", JNum (r_seed r)) ].

Definition error_json (e : icon_error) : jsval :=
  JObj [ (lit "index", JNum (e_index e)); (lit "error", JStr (e_error e)) ].

(** The end of the [try] block: partial success from two icons on, an
    exception otherwise. *)
Definition batch_response (results : list icon_result)
  (errors : list icon_error) : outcome response :=
  if (2 <=? length results)%nat then
    Return
      {| statusCode := 200;
         body :=
           JSON_stringify
             (JObj [ (lit "success", JBool true);
                     (lit "icons",
                      JArr (map icon_json (sort_by_index results)));
                     (lit "partial", JBool (length results <? 4)%nat);
                     (lit "errors",
                      if (0 <? length errors)%nat
                      then JArr (map error_json errors)
                      else JUndefined) ]) |}
  else
    Throw (Error (lit "Failed to generate sufficient icons. Only "
                  ++ Number_toString (Z.of_nat (length results))
                  ++ lit "/4 succeeded.")).

(** The outer [catch (error)]. *)
Definition error_response (error : exn) : response :=
  let errorMessage := lit "Failed to generate icons" in
  let statusCode := 500 in
  let '(errorMessage, statusCode) :=
    if includes (message error) (lit "API key")
    then (lit "API configuration error", 503)
    else if includes (message error) (lit "timeout")
    then (lit "Request timeout - please try again", 504)
    else if includes (message error) (lit "rate limit")
    then (lit "Rate limit exceeded - please wait a moment", 429)
    else (errorMessage, statusCode) in
  {| statusCode := statusCode;
     body := JSON_stringify
               (JObj [ (lit "error", JStr errorMessage);
                       (lit "details", JStr (message error)) ]) |}.

(** [prompt.trim()]: only a string has the method. *)
Definition String_trim (prompt : jsval) : outcome jsstring :=
  match prompt with
  | JStr s => Return (trim s)
  | _ => Throw (TypeError (lit "prompt.trim is not a function"))
  end.

(** [brandColors.join(sep)]: only an array has the method. *)
Definition join_method (brandColors : jsval) (sep : jsstring)
  : outcome jsstring :=
  match brandColors with
  | JArr elems => Array_join sep elems
  | _ => Throw (TypeError (lit "brandColors.join is not a function"))
  end.

Definition prompt_suffix : jsstring :=
  lit ", 512x512, icon design, white background, centered, high quality".

Section Handler.

Variable StringToNumber_gt : jsstring -> Z -> bool.

(** The text a template literal makes of a member inherited from
    [Object.prototype], by its name; the runtime decides it. *)
Variable inherited_text : jsstring -> jsstring.

(** The answer of the image service to the call that ends a history. *)
Variable replicate_run : World -> outcome output.

(** The text a template literal makes of [styleDescription]. *)
Definition member_text (m : member) : jsstring :=
  match m with
  | Own d => d
  | Inherited name => inherited_text name
  | Missing => lit "undefined"
  end.

(** [brandColors && brandColors.length > 0 ? `, using these exact colors:
    ${brandColors.join(', ')}, maintain color consistency` : ''] *)
Definition color_instruction (brandColors : jsval) : outcome jsstring :=
  let? nonempty := truthy_and_longer StringToNumber_gt brandColors 0 in
  if nonempty
  then let? joined := join_method brandColors (lit ", ") in
       Return (lit ", using these exact colors: " ++ joined
               ++ lit ", maintain color consistency")
  else Return [].

(** The template literal of [fullPrompt]. *)
Definition full_prompt (prompt : jsval) (variation : jsstring)
  (styleDescription : member) (colorInstruction : jsstring)
  : outcome jsstring :=
  let? p := ToString prompt in
  Return (p ++ lit " icon, " ++ variation ++ lit ", "
          ++ member_text styleDescription ++ colorInstruction
          ++ prompt_suffix).

Section Batch.

Variables (prompt : jsval) (styleDescription : member)
  (colorInstruction : jsstring) (baseSeed : Z).

(** The [try] block of one turn of the loop, up to the entry it pushes to
    [results]. *)
Definition generate_icon (index : Z) (variation : jsstring)
  : M icon_result :=
  let iconSeed := baseSeed + index in
  (fullPrompt <-
     lift (full_prompt prompt variation styleDescription colorInstruction) ;;
   output <-
     retryWithBackoff (invoke replicate_run fullPrompt iconSeed) MAX_RETRIES ;;
   let imageUrl := image_url output in
   ret {| r_index := index; r_url := imageUrl;
          r_prompt := fullPrompt; r_seed := iconSeed |})%M.

(** The loop [for (index = 0; index < ICON_VARIATIONS.length; index++)]
    entered at [index], with the variations still to do: each turn pushes to
    [results], or in its [catch] to [errors]. *)
Fixpoint generate_icons (variations : list jsstring) (index : Z)
  (results : list icon_result) (errors : list icon_error)
  : M (list icon_result * list icon_error) :=
  match variations with
  | [] => ret (results, errors)
  | variation :: rest =>
      (pushed <-
         try_catch
           (r <- generate_icon index variation ;;
            ret (results ++ [r], errors))
           (fun error =>
              ret (results,
                   errors ++ [{| e_index := index;
                                 e_error := message error |}])) ;;
       generate_icons rest (index + 1) (fst pushed) (snd pushed))%M
  end.

End Batch.

(** The [try] block of the handler, from the destructured request on. *)
Definition handler_try (prompt style brandColors : jsval) : M response :=
  (validationErrors <-
     lift (validateInput StringToNumber_gt prompt style brandColors) ;;
   if (0 <? length validationErrors)%nat then
     ret {| statusCode := 400;
            body := JSON_stringify
                      (JObj [ (lit "error", JStr (lit "Validation failed"));
                              (lit "details",
                               JArr (map JStr validationErrors)) ]) |}
   else
     styleDescription <- lift (STYLE_PROMPTS_get style) ;;
     trimmed <- lift (String_trim prompt) ;;
     baseSeed <- lift (generateSeed trimmed style) ;;
     colorInstruction <- lift (color_instruction brandColors) ;;
     collected <-
       generate_icons prompt styleDescription colorInstruction baseSeed
         ICON_VARIATIONS 0 [] [] ;;
     lift (batch_response (fst collected) (snd collected)))%M.

(** The POST branch of [exports.handler], after [JSON.parse] and the
    destructuring of its result. *)
Definition handler (prompt style brandColors : jsval) : M response :=
  try_catch (handler_try prompt style brandColors)
    (fun error => ret (error_response error)).

End Handler.

(* ------------------------------------------------------------------ *)
(** ** The basic handlers: [Promise.all] over four single calls

    The handler of [netlify/functions/generate-icons.js] and the route
    [app.post('/api/generate-icons')] of the Express server: no seed, no
    retry, no validation beyond truthiness and the style lookup. *)

Module Basic.

(** A promise, by how it settles and when; time orders the settlements of
    one batch. *)
Record promise (A : Type) : Type :=
  { settles : outcome A; at_time : nat }.
Arguments settles {A} _.
Arguments at_time {A} _.

(** The earliest rejection among promises, the first in the list among
    those of one time. *)
Fixpoint first_rejection {A} (ps : list (promise A)) : option (nat * exn) :=
  match ps with
  | [] => None
  | p :: rest =>
      match settles p, first_rejection rest with
      | Throw e, Some (t, e') =>
          if (at_time p <=? t)%nat then Some (at_time p, e) else Some (t, e')
      | Throw e, None => Some (at_time p, e)
      | Return _, later => later
      end
  end.

Fixpoint fulfilled {A} (ps : list (promise A)) : list A :=
  match ps with
  | [] => []
  | p :: rest =>
      match settles p with
      | Return a => a :: fulfilled rest
      | Throw _ => fulfilled rest
      end
  end.

(** [await Promise.all(ps)]: the values in the order of [ps] when all are
    fulfilled, the reason of the first rejection otherwise. *)
Definition Promise_all {A} (ps : list (promise A)) : outcome (list A) :=
  match first_rejection ps with
  | Some (_, e) => Throw e
  | None => Return (fulfilled ps)
  end.

(** An entry of [results]: no seed here. *)
Record icon_result : Type :=
  { r_index : Z; r_url : jsstring; r_prompt : jsstring }.

Definition icon_json (r : icon_result) : jsval :=
  JObj [ (lit "url", JStr (r_url r)); (lit "prompt", JStr (r_prompt r)) ].

Fixpoint insert_by_index (r : icon_result) (l : list icon_result)
  : list icon_result :=
  match l with
  | [] => [r]
  | x :: l' =>
      if r_index r <=? r_index x then r :: l else x :: insert_by_index r l'
  end.

Definition sort_by_index (l : list icon_result) : list icon_result :=
  fold_right insert_by_index [] l.

Definition prompt_suffix : jsstring :=
  lit ", 512x512, icon design, white background, centered".

Section Handlers.

Variable inherited_text : jsstring -> jsstring.

(** How the image service settles the call launched for the variation at
    [index] with the given prompt. *)
Variable replicate_run : Z -> jsstring -> promise output.

(** [brandColors ? `, using color palette: ${brandColors.join(', ')}` : ''] *)
Definition color_instruction (brandColors : jsval) : outcome jsstring :=
  if truthy brandColors
  then let? joined := join_method brandColors (lit ", ") in
       Return (lit ", using color palette: " ++ joined)
  else Return [].

Definition full_prompt (prompt : jsval) (variation : jsstring)
  (styleDescription : member) (colorInstruction : jsstring)
  : outcome jsstring :=
  let? p := ToString prompt in
  Return (p ++ lit " icon, " ++ variation ++ lit ", "
          ++ member_text inherited_text styleDescription ++ colorInstruction
          ++ prompt_suffix).

(** The async callback given to [ICON_VARIATIONS.map]: an exception before
    the call rejects the promise at once, otherwise the promise settles
    with the call. *)
Definition generate (prompt : jsval) (styleDescription : member)
  (colorInstruction : jsstring) (variation : jsstring) (index : Z)
  : promise icon_result :=
  match full_prompt prompt variation styleDescription colorInstruction with
  | Throw e => {| settles := Throw e; at_time := 0 |}
  | Return fullPrompt =>
      let call := replicate_run index fullPrompt in
      {| settles :=
           let? output := settles call in
           Return {| r_index := index; r_url := image_url output;
                     r_prompt := fullPrompt |};
         at_time := at_time call |}
  end.

Fixpoint map_indexed {A B} (f : A -> Z -> B) (l : list A) (index : Z)
  : list B :=
  match l with
  | [] => []
  | x :: rest => f x index :: map_indexed f rest (index + 1)
  end.

(** [const promises = ICON_VARIATIONS.map(async (variation, index) => ...)] *)
Definition promises (prompt : jsval) (styleDescription : member)
  (colorInstruction : jsstring) : list (promise icon_result) :=
  map_indexed (generate prompt styleDescription colorInstruction)
    ICON_VARIATIONS 0.

Definition respond (status : Z) (doc : jsval) : response :=
  {| statusCode := status; body := JSON_stringify doc |}.

Definition failure_response (error : exn) : response :=
  respond 500 (JObj [ (lit "error", JStr (lit "Failed to generate icons"));
                      (lit "details", JStr (message error)) ]).

(** The [try] block both handlers share line by line. *)
Definition generate_try (prompt style brandColors : jsval)
  : outcome response :=
  if negb (truthy prompt) || negb (truthy style) then
    Return (respond 400
              (JObj [(lit "error", JStr (lit "Prompt and style are required"))]))
  else
    let? styleDescription := STYLE_PROMPTS_get style in
    if negb (member_truthy styleDescription) then
      Return (respond 400
                (JObj [(lit "error", JStr (lit "Invalid style selection"))]))
    else
      let? colorInstruction := color_instruction brandColors in
      let? results :=
        Promise_all (promises prompt styleDescription colorInstruction) in
      let results := sort_by_index results in
      Return (respond 200
                (JObj [ (lit "success", JBool true);
                        (lit "icons", JArr (map icon_json results)) ])).

(** The POST branch of the Netlify handler. *)
Definition netlify_handler (prompt style brandColors : jsval) : response :=
  match generate_try prompt style brandColors with
  | Return r => r
  | Throw error => failure_response error
  end.

(** The Express route: [res.status(...).json(...)] sends what the Netlify
    handler returns. *)
Definition express_route (prompt style brandColors : jsval) : response :=
  match generate_try prompt style brandColors with
  | Return r => r
  | Throw error => failure_response error
  end.

End Handlers.

End Basic.

(* ------------------------------------------------------------------ *)
(** ** [exports.handler]: the method, the body and the CORS headers *)

(** The [headers] object every response carries. *)
Definition headers : list (jsstring * jsstring) :=
  [ (lit "Access-Control-Allow-Origin", lit "*");
    (lit "Access-Control-Allow-Headers", lit "Content-Type");
    (lit "Access-Control-Allow-Methods", lit "POST, OPTIONS") ].

(** The event of a function call, as far as the handlers read it.  The
    body is read by [JSON.parse] alone, so it is given by what
    [JSON.parse(event.body)] makes of it: a value, or the exception of a text
    that is not JSON. *)
Record lambda_event : Type :=
  { ev_httpMethod : jsval; ev_body : outcome jsval }.

(** What the function returns: [{ statusCode, headers, body }], where the
    body is the empty text ([None]) or the text of a document. *)
Record reply : Type :=
  { reply_status : Z;
    reply_headers : list (jsstring * jsstring);
    reply_body : option jsval }.

(** [v === s] at a string literal [s]. *)
Definition strict_equals (v : jsval) (s : jsstring) : bool :=
  match v with
  | JStr t => jsstring_eqb t s
  | _ => false
  end.

(** [v.name] for a name that no prototype defines: an own property of a
    parsed object, [undefined] on every other value that has properties. *)
Definition get_field (v : jsval) (name : jsstring) : jsval :=
  match v with
  | JObj props =>
      match own_property name props with
      | Some x => x
      | None => JUndefined
      end
  | _ => JUndefined
  end.

(** [const { prompt, style, brandColors } = v]: [null] and [undefined]
    cannot be destructured (V8's message). *)
Definition destructure_request (v : jsval) : outcome (jsval * jsval * jsval) :=
  match v with
  | JUndefined | JNull =>
      Throw (TypeError (lit "Cannot destructure property 'prompt' of 'JSON.parse(...)' as it is null."))
  | _ =>
      Return (get_field v (lit "prompt"), get_field v (lit "style"),
              get_field v (lit "brandColors"))
  end.

Definition with_headers (r : response) : reply :=
  {| reply_status := statusCode r;
     reply_headers := headers;
     reply_body := Some (body r) |}.

Definition method_not_allowed : reply :=
  {| reply_status := 405;
     reply_headers := headers;
     reply_body :=
       Some (JSON_stringify
               (JObj [(lit "error", JStr (lit "Method not allowed"))])) |}.

Definition preflight : reply :=
  {| reply_status := 200; reply_headers := headers; reply_body := None |}.

Section Exports.

Variable StringToNumber_gt : jsstring -> Z -> bool.
Variable inherited_text : jsstring -> jsstring.
Variable replicate_run : World -> outcome output.

(** [exports.handler = async (event, context) => ...], the handler with
    retry and partial success, whole. *)
Definition exports_handler (e : lambda_event) : M reply :=
  if strict_equals (ev_httpMethod e) (lit "OPTIONS") then ret preflight
  else if negb (strict_equals (ev_httpMethod e) (lit "POST")) then
    ret method_not_allowed
  else
    (r <- try_catch
            (fields <- lift (obind (ev_body e) destructure_request) ;;
             handler_try StringToNumber_gt inherited_text replicate_run
               (fst (fst fields)) (snd (fst fields)) (snd fields))
            (fun error => ret (error_response error)) ;;
     ret (with_headers r))%M.

End Exports.

Module BasicExports.

(** [exports.handler] of the basic Netlify function, whole; it awaits the
    image service inside [Promise.all] only. *)
Definition exports_handler (inherited_text : jsstring -> jsstring)
  (replicate_run : Z -> jsstring -> Basic.promise output)
  (e : lambda_event) : reply :=
  if strict_equals (ev_httpMethod e) (lit "OPTIONS") then preflight
  else if negb (strict_equals (ev_httpMethod e) (lit "POST")) then
    method_not_allowed
  else
    with_headers
      match
        (let? fields := obind (ev_body e) destructure_request in
         Basic.generate_try inherited_text replicate_run
           (fst (fst fields)) (snd (fst fields)) (snd fields))
      with
      | Return r => r
      | Throw error => Basic.failure_response error
      end.

End BasicExports.

(* ------------------------------------------------------------------ *)
(** ** The test file [generate-icons.test.js]: its framework, its copies of
       the helpers, its tests *)

Module Test.

(** [v1 !== v2] is the negation of this.  Two arrays or objects of the
    model stand for two objects, which are never strictly equal. *)
Definition strict_equal (a b : jsval) : bool :=
  match a, b with
  | JUndefined, JUndefined => true
  | JNull, JNull => true
  | JBool x, JBool y => Bool.eqb x y
  | JNum x, JNum y => x =? y
  | JStr x, JStr y => jsstring_eqb x y
  | _, _ => false
  end.

(** The table inside the copy of [validateInput]. *)
Definition STYLE_PROMPTS : list (jsstring * jsstring) :=
  [ (lit "1", lit "simple flat icon design");
    (lit "2", lit "pastel colors");
    (lit "3", lit "bubble style");
    (lit "4", lit "neon style");
    (lit "5", lit "3D rendered") ].

Definition STYLE_PROMPTS_get (style : jsval) : outcome member :=
  let? key := ToString style in
  match assoc key STYLE_PROMPTS with
  | Some d => Return (Own d)
  | None =>
      if existsb (jsstring_eqb key) Object_prototype_names
      then Return (Inherited key)
      else Return Missing
  end.

(** The copy of [generateSeed]. *)
Definition generateSeed (prompt : jsstring) (style : jsval) : outcome Z :=
  let? s := ToString style in
  let str := prompt ++ lit "-" ++ s in
  Return (Z.abs (fold_left seed_step str 0)).

Section Framework.

Variable StringToNumber_gt : jsstring -> Z -> bool.

(** The text [JSON.stringify] makes of a value that has one. *)
Variable JSON_text : jsval -> jsstring.

Definition style_invalid (style : jsval) : outcome bool :=
  if negb (truthy style) then Return true
  else let? m := STYLE_PROMPTS_get style in Return (negb (member_truthy m)).

(** The copy of [validateInput]. *)
Definition validateInput (prompt style brandColors : jsval)
  : outcome (list jsstring) :=
  let errors := [] in
  let errors :=
    push_if (prompt_missing prompt)
      "Prompt is required and must be a non-empty string" errors in
  let? too_long := truthy_and_longer StringToNumber_gt prompt 200 in
  let errors :=
    push_if too_long "Prompt must be less than 200 characters" errors in
  let? bad_style := style_invalid style in
  let errors := push_if bad_style "Invalid style selection" errors in
  let errors :=
    push_if (truthy brandColors && negb (isArray brandColors))
      "Brand colors must be an array" errors in
  let? too_many := truthy_and_longer StringToNumber_gt brandColors 5 in
  let errors :=
    push_if too_many "Maximum 5 brand colors allowed" errors in
  Return errors.

(** [JSON.stringify(v)]: [undefined] has no text. *)
Definition stringify (v : jsval) : jsval :=
  match v with
  | JUndefined => JUndefined
  | _ => JStr (JSON_text v)
  end.

Definition newline : jsstring := [10].

(** [assertEquals(actual, expected, message)] *)
Definition assertEquals (actual expected : jsval) (message : jsstring)
  : outcome unit :=
  if negb (strict_equal actual expected) then
    let? e := ToString expected in
    let? a := ToString actual in
    Throw (Error (message ++ newline ++ lit "Expected: " ++ e
                  ++ newline ++ lit "Actual: " ++ a))
  else Return tt.

(** [assertArrayEquals(actual, expected, message)] *)
Definition assertArrayEquals (actual expected : jsval) (message : jsstring)
  : outcome unit :=
  if negb (strict_equal (stringify actual) (stringify expected)) then
    let? e := ToString (stringify expected) in
    let? a := ToString (stringify actual) in
    Throw (Error (message ++ newline ++ lit "Expected: " ++ e
                  ++ newline ++ lit "Actual: " ++ a))
  else Return tt.

(** [assertTrue(value, message)] *)
Definition assertTrue (value : jsval) (message : jsstring) : outcome unit :=
  if negb (truthy value) then Throw (Error message) else Return tt.

(** [errors.some(e => e.includes(sub))] *)
Definition some_includes (errors : list jsstring) (sub : string) : jsval :=
  JBool (existsb (fun e => includes e (lit sub)) errors).

(** [errors[0].includes(sub)] *)
Definition first_includes (errors : list jsstring) (sub : string)
  : outcome jsval :=
  match errors with
  | e :: _ => Return (JBool (includes e (lit sub)))
  | [] => Throw (TypeError (lit "Cannot read properties of undefined (reading 'includes')"))
  end.

Definition length_positive (errors : list jsstring) : jsval :=
  JBool (0 <? length errors)%nat.

(** The registered tests, in the order of the calls of [test(name, fn)]. *)
Definition tests : list (jsstring * (unit -> outcome unit)) :=
  [ (lit "generateSeed: Same prompt and style should produce same seed",
     fun _ =>
       let? seed1 := generateSeed (lit "coffee") (JNum 1) in
       let? seed2 := generateSeed (lit "coffee") (JNum 1) in
       assertEquals (JNum seed1) (JNum seed2)
         (lit "Seeds should be identical for same inputs"));
    (lit "generateSeed: Different prompts should produce different seeds",
     fun _ =>
       let? seed1 := generateSeed (lit "coffee") (JNum 1) in
       let? seed2 := generateSeed (lit "tea") (JNum 1) in
       assertTrue (JBool (negb (strict_equal (JNum seed1) (JNum seed2))))
         (lit "Seeds should be different for different prompts"));
    (lit "generateSeed: Different styles should produce different seeds",
     fun _ =>
       let? seed1 := generateSeed (lit "coffee") (JNum 1) in
       let? seed2 := generateSeed (lit "coffee") (JNum 2) in
       assertTrue (JBool (negb (strict_equal (JNum seed1) (JNum seed2))))
         (lit "Seeds should be different for different styles"));
    (lit "generateSeed: Should always return positive number",
     fun _ =>
       let? seed := generateSeed (lit "test") (JNum 1) in
       assertTrue (JBool (0 <=? seed)) (lit "Seed should be non-negative"));
    (lit "validateInput: Should accept valid input",
     fun _ =>
       let? errors := validateInput (JStr (lit "coffee")) (JNum 1)
                        (JArr [JStr (lit "#FF5733")]) in
       assertArrayEquals (JArr (map JStr errors)) (JArr [])
         (lit "Valid input should have no errors"));
    (lit "validateInput: Should reject empty prompt",
     fun _ =>
       let? errors := validateInput (JStr []) (JNum 1) (JArr []) in
       let? _ := assertTrue (length_positive errors)
                   (lit "Empty prompt should produce errors") in
       let? required := first_includes errors "required" in
       assertTrue required (lit "Error should mention prompt is required"));
    (lit "validateInput: Should reject long prompts",
     fun _ =>
       let longPrompt := repeat 97 201 in
       let? errors := validateInput (JStr longPrompt) (JNum 1) (JArr []) in
       assertTrue (some_includes errors "200 characters")
         (lit "Should reject prompts over 200 characters"));
    (lit "validateInput: Should reject invalid style",
     fun _ =>
       let? errors := validateInput (JStr (lit "coffee")) (JNum 99)
                        (JArr []) in
       assertTrue (some_includes errors "Invalid style")
         (lit "Should reject invalid style"));
    (lit "validateInput: Should reject non-array brandColors",
     fun _ =>
       let? errors := validateInput (JStr (lit "coffee")) (JNum 1)
                        (JStr (lit "not-an-array")) in
       assertTrue (some_includes errors "must be an array")
         (lit "Should reject non-array brandColors"));
    (lit "validateInput: Should reject too many brand colors",
     fun _ =>
       let? errors :=
         validateInput (JStr (lit "coffee")) (JNum 1)
           (JArr (map (fun c => JStr (lit c))
                    ["#FF5733"; "#C70039"; "#900C3F"; "#581845"; "#DAF7A6";
                     "#FFC300"]%string)) in
       assertTrue (some_includes errors "Maximum 5")
         (lit "Should reject more than 5 colors"));
    (lit "validateInput: Should accept null brandColors",
     fun _ =>
       let? errors := validateInput (JStr (lit "coffee")) (JNum 1) JNull in
       assertTrue
         (JBool (negb (existsb (fun e => includes e (lit "color")) errors)))
         (lit "Should accept null brandColors")) ].

End Framework.

(** The loop of [runTests] over the registered tests, with the counters
    [passedTests] and [failedTests]. *)
Fixpoint run_each (tests : list (jsstring * (unit -> outcome unit)))
  (passedTests failedTests : nat) : nat * nat :=
  match tests with
  | [] => (passedTests, failedTests)
  | (_, fn) :: rest =>
      match fn tt with
      | Return _ => run_each rest (S passedTests) failedTests
      | Throw _ => run_each rest passedTests (S failedTests)
      end
  end.

(** [runTests()]: the two counters at the end and the exit code, [Some 1]
    for [process.exit(1)], [None] when the process ends by itself. *)
Definition runTests (tests : list (jsstring * (unit -> outcome unit)))
  : nat * nat * option Z :=
  let '(passedTests, failedTests) := run_each tests 0 0 in
  (passedTests, failedTests,
   if (0 <? failedTests)%nat then Some 1 else None).

End Test.

(* ------------------------------------------------------------------ *)
(** ** The client [App.tsx]: its state, its handlers, its controls *)

Module Client.

(** An entry of [STYLES]. *)
Record style_preset : Type :=
  { id : Z; name : jsstring; description : jsstring }.

Definition STYLES : list style_preset :=
  [ {| id := 1; name := lit "Flat & Minimal";
       description := lit "Clean lines, solid colors, professional" |};
    {| id := 2; name := lit "Pastel Dreams";
       description := lit "Soft gradients, gentle rounded shapes" |};
    {| id := 3; name := lit "Bubble Style";
       description := lit "Glossy, shiny reflections, playful" |};
    {| id := 4; name := lit "Neon Glow";
       description := lit "Glowing edges, cyberpunk aesthetic" |};
    {| id := 5; name := lit "3D Isometric";
       description := lit "Depth and shadows, modern professional" |} ].

(** An index of the [brandColors] array holds a string, [undefined], or
    nothing at all (a hole). *)
Inductive slot : Type :=
| Color (value : jsstring)
| Undefined
| Hole.

(** The state variables of [App] that the form reads and writes. *)
Record state : Type :=
  { st_prompt : jsstring;
    st_selectedStyle : Z;
    st_brandColors : list slot;
    st_icons : jsval;
    st_loading : bool;
    st_error : jsstring }.

(** The values given to [useState]. *)
Definition initial : state :=
  {| st_prompt := [];
     st_selectedStyle := 1;
     st_brandColors := [Color []; Color []; Color []];
     st_icons := JArr [];
     st_loading := false;
     st_error := [] |}.

Definition setPrompt (value : jsstring) (st : state) : state :=
  {| st_prompt := value;
     st_selectedStyle := st_selectedStyle st;
     st_brandColors := st_brandColors st;
     st_icons := st_icons st;
     st_loading := st_loading st;
     st_error := st_error st |}.

Definition setSelectedStyle (value : Z) (st : state) : state :=
  {| st_prompt := st_prompt st;
     st_selectedStyle := value;
     st_brandColors := st_brandColors st;
     st_icons := st_icons st;
     st_loading := st_loading st;
     st_error := st_error st |}.

Definition setBrandColors (value : list slot) (st : state) : state :=
  {| st_prompt := st_prompt st;
     st_selectedStyle := st_selectedStyle st;
     st_brandColors := value;
     st_icons := st_icons st;
     st_loading := st_loading st;
     st_error := st_error st |}.

Definition setIcons (value : jsval) (st : state) : state :=
  {| st_prompt := st_prompt st;
     st_selectedStyle := st_selectedStyle st;
     st_brandColors := st_brandColors st;
     st_icons := value;
     st_loading := st_loading st;
     st_error := st_error st |}.

Definition setLoading (value : bool) (st : state) : state :=
  {| st_prompt := st_prompt st;
     st_selectedStyle := st_selectedStyle st;
     st_brandColors := st_brandColors st;
     st_icons := st_icons st;
     st_loading := value;
     st_error := st_error st |}.

Definition setError (value : jsstring) (st : state) : state :=
  {| st_prompt := st_prompt st;
     st_selectedStyle := st_selectedStyle st;
     st_brandColors := st_brandColors st;
     st_icons := st_icons st;
     st_loading := st_loading st;
     st_error := value |}.

(** [[...a]]: the iterator reads a hole as [undefined]. *)
Definition spread (a : list slot) : list slot :=
  map (fun x => match x with Hole => Undefined | _ => x end) a.

(** [a[index] = value]: past the end the array grows, with holes between. *)
Fixpoint assign (a : list slot) (index : nat) (value : jsstring)
  : list slot :=
  match a, index with
  | _ :: rest, O => Color value :: rest
  | [], O => [Color value]
  | x :: rest, S i => x :: assign rest i value
  | [], S i => Hole :: assign [] i value
  end.

(** [handleColorChange(index, value)], at an array index. *)
Definition handleColorChange (index : nat) (value : jsstring) (st : state)
  : state :=
  let newColors := spread (st_brandColors st) in
  let newColors := assign newColors index value in
  setBrandColors newColors st.

(** [brandColors.filter(color => color.trim() !== '')]: [filter] passes
    over the holes, and [undefined] has no [trim]. *)
Fixpoint filter_colors (a : list slot) : outcome (list jsstring) :=
  match a with
  | [] => Return []
  | Hole :: rest => filter_colors rest
  | Undefined :: _ =>
      Throw (TypeError (lit "Cannot read properties of undefined (reading 'trim')"))
  | Color color :: rest =>
      let keep := negb (jsstring_eqb (trim color) []) in
      let? kept := filter_colors rest in
      Return (if keep then color :: kept else kept)
  end.

(** The document that [JSON.stringify] writes into the body of the
    request. *)
Definition request_body (prompt : jsstring) (selectedStyle : Z)
  (filteredColors : list jsstring) : jsval :=
  JSON_stringify
    (JObj [ (lit "prompt", JStr (trim prompt));
            (lit "style", JNum selectedStyle);
            (lit "brandColors",
             if (0 <? length filteredColors)%nat
             then JArr (map JStr filteredColors)
             else JUndefined) ]).

(** The response of [fetch], as far as the client reads it: [response.ok]
    and what [response.json()] settles with. *)
Record http_response : Type :=
  { ok : bool; json : outcome jsval }.

(** [v.name] on what [response.json()] gave, for a name that no prototype
    defines. *)
Definition property (v : jsval) (name : string) : outcome jsval :=
  match v with
  | JNull =>
      Throw (TypeError (lit "Cannot read properties of null (reading '"
                        ++ lit name ++ lit "')"))
  | JUndefined =>
      Throw (TypeError (lit "Cannot read properties of undefined (reading '"
                        ++ lit name ++ lit "')"))
  | _ => Return (get_field v (lit name))
  end.

(** The [try] block of [generateIcons]: the value given to [setIcons], or
    the exception that reaches the [catch].  [fetch] stands for the POST of
    a document to the API and its settlement. *)
Definition generateIcons_try (fetch : jsval -> outcome http_response)
  (prompt : jsstring) (selectedStyle : Z) (brandColors : list slot)
  : outcome jsval :=
  let? filteredColors := filter_colors brandColors in
  let? response :=
    fetch (request_body prompt selectedStyle filteredColors) in
  if negb (ok response) then
    let? errorData := json response in
    let? e := property errorData "error" in
    let? text :=
      ToString (if truthy e then e
                else JStr (lit "Failed to generate icons")) in
    Throw (Error text)
  else
    let? data := json response in
    property data "icons".

(** [generateIcons()], from the click to the last state update.  Every
    exception of the model is an [Error], so the [catch] shows its
    message. *)
Definition generateIcons (fetch : jsval -> outcome http_response)
  (st : state) : state :=
  if negb (truthy (JStr (trim (st_prompt st)))) then
    setError (lit "Please enter a prompt") st
  else
    let st := setLoading true st in
    let st := setError [] st in
    let st := setIcons (JArr []) st in
    let st :=
      match generateIcons_try fetch (st_prompt st) (st_selectedStyle st)
              (st_brandColors st) with
      | Return icons => setIcons icons st
      | Throw err => setError (message err) st
      end in
    setLoading false st.

(** What the user does with the form. *)
Inductive ui_event : Type :=
| ChangePrompt (value : jsstring)
| ClickStyle (button : nat)
| ChangeColor (input : nat) (value : jsstring)
| ClickGenerate (fetch : jsval -> outcome http_response).

(** The controls as rendered: one button for each entry of [STYLES], one
    input for each index of [brandColors]; the inputs and the style buttons
    are disabled while [loading], the generate button also while the
    trimmed prompt is empty, and a disabled control does nothing. *)
Definition dispatch (ev : ui_event) (st : state) : state :=
  match ev with
  | ChangePrompt value =>
      if st_loading st then st else setPrompt value st
  | ClickStyle button =>
      if st_loading st then st
      else match nth_error STYLES button with
           | Some style => setSelectedStyle (id style) st
           | None => st
           end
  | ChangeColor input value =>
      if st_loading st then st
      else if (input <? length (st_brandColors st))%nat
           then handleColorChange input value st
           else st
  | ClickGenerate fetch =>
      if st_loading st || negb (truthy (JStr (trim (st_prompt st)))) then st
      else generateIcons fetch st
  end.

(** The states that the form can be brought to.  While a request is in
    flight every control of the form is disabled, so [generateIcons] is one
    step here. *)
Inductive reachable : state -> Prop :=
| reachable_initial : reachable initial
| reachable_dispatch ev st : reachable st -> reachable (dispatch ev st).

(** The theme: the state variable, the [data-theme] attribute of the
    document and the [theme] item of [localStorage]. *)
Record theming : Type :=
  { theme : jsstring;
    data_theme : option jsstring;
    stored_theme : option jsstring }.

(** The effect that runs on mount, given whether the system prefers a dark
    scheme. *)
Definition load_theme (prefersDark : bool) (t : theming) : theming :=
  match stored_theme t with
  | Some savedTheme =>
      if truthy (JStr savedTheme) then
        {| theme := savedTheme;
           data_theme := Some savedTheme;
           stored_theme := stored_theme t |}
      else
        let defaultTheme := if prefersDark then lit "dark" else lit "light" in
        {| theme := defaultTheme;
           data_theme := Some defaultTheme;
           stored_theme := stored_theme t |}
  | None =>
      let defaultTheme := if prefersDark then lit "dark" else lit "light" in
      {| theme := defaultTheme;
         data_theme := Some defaultTheme;
         stored_theme := stored_theme t |}
  end.

Definition toggleTheme (t : theming) : theming :=
  let newTheme :=
    if jsstring_eqb (theme t) (lit "light") then lit "dark" else lit "light" in
  {| theme := newTheme;
     data_theme := Some newTheme;
     stored_theme := Some newTheme |}.

End Client.

(* ------------------------------------------------------------------ *)
(** ** Vocabulary of the statements: the seed *)

(** The rolling hash in the words of the specification: [hash*31 + charCode],
    wrapped to a signed 32-bit integer at each step. *)
Definition wrap_signed32 (z : Z) : Z := (z + 2 ^ 31) mod 2 ^ 32 - 2 ^ 31.

Definition rolling_hash (str : jsstring) : Z :=
  fold_left (fun hash c => wrap_signed32 (hash * 31 + c)) str 0.

(* ------------------------------------------------------------------ *)
(** ** Vocabulary: validation *)

Definition msg_prompt_required : jsstring :=
  lit "Prompt is required and must be a non-empty string".
Definition msg_prompt_long : jsstring :=
  lit "Prompt must be less than 200 characters".
Definition msg_style : jsstring := lit "Invalid style selection".
Definition msg_colors_array : jsstring := lit "Brand colors must be an array".
Definition msg_colors_many : jsstring := lit "Maximum 5 brand colors allowed".

(** Which rule an error list reports. *)
Definition prompt_flagged (errors : list jsstring) : Prop :=
  In msg_prompt_required errors \/ In msg_prompt_long errors.
Definition style_flagged (errors : list jsstring) : Prop :=
  In msg_style errors.
Definition colors_flagged (errors : list jsstring) : Prop :=
  In msg_colors_array errors \/ In msg_colors_many errors.

Definition is_object (v : jsval) : bool :=
  match v with JObj _ => true | _ => false end.

(* ------------------------------------------------------------------ *)
(** ** Vocabulary: histories of attempts and batches *)

(** The history that [n] attempts on one operation leave behind, the first
    one numbered [attempt]: a call, then for every further attempt the
    backoff timer and the next call. *)
Fixpoint attempts_trace (prompt : jsstring) (seed : Z) (attempt n : nat)
  : list event :=
  match n with
  | O => []
  | S n' =>
      EvCall prompt seed ::
      match n' with
      | O => []
      | S _ => EvSleep (RETRY_DELAY_MS * 2 ^ Z.of_nat attempt)
               :: attempts_trace prompt seed (S attempt) n'
      end
  end.

Definition is_call (e : event) : bool :=
  match e with EvCall _ _ => true | EvSleep _ => false end.

Definition count_calls (tr : list event) : nat := length (filter is_call tr).

Definition sleeps (tr : list event) : list Z :=
  flat_map (fun e => match e with EvSleep ms => [ms] | EvCall _ _ => [] end) tr.

Definition is_throw {A} (o : outcome A) : Prop :=
  match o with Throw _ => True | Return _ => False end.

Fixpoint indices_from (index : Z) (n : nat) : list Z :=
  match n with
  | O => []
  | S n' => index :: indices_from (index + 1) n'
  end.

(** The text of [fullPrompt] at a string prompt. *)
Definition prompt_text (inherited_text : jsstring -> jsstring)
  (p variation : jsstring) (styleDescription : member)
  (colorInstruction : jsstring) : jsstring :=
  p ++ lit " icon, " ++ variation ++ lit ", "
    ++ member_text inherited_text styleDescription ++ colorInstruction
    ++ prompt_suffix.

(** A generation task: the prompt and the seed sent to the image service. *)
Definition task : Type := (jsstring * Z)%type.

Definition task_trace (t : task) (n : nat) : list event :=
  attempts_trace (fst t) (snd t) 0 n.

(** The history of a batch whose tasks run one after the other, task [i]
    with [ns_i] attempts. *)
Fixpoint batch_trace (tasks : list task) (ns : list nat) : list event :=
  match tasks, ns with
  | t :: tasks', n :: ns' => task_trace t n ++ batch_trace tasks' ns'
  | _, _ => []
  end.

(** The tasks the loop sends out for the variations still to do, entered
    at [index]. *)
Fixpoint plan_from (inherited_text : jsstring -> jsstring)
  (styleDescription : member) (colorInstruction : jsstring) (baseSeed : Z)
  (p : jsstring) (variations : list jsstring) (index : Z) : list task :=
  match variations with
  | [] => []
  | variation :: rest =>
      (prompt_text inherited_text p variation styleDescription
         colorInstruction, baseSeed + index)
      :: plan_from inherited_text styleDescription colorInstruction baseSeed
           p rest (index + 1)
  end.

(** All tasks are launched before any backoff timer runs: a task called
    after a timer was already called before it. *)
Definition launches_before_sleeps (tr : list event) : Prop :=
  forall pre ms post,
    tr = pre ++ EvSleep ms :: post ->
    forall fp seed, In (EvCall fp seed) post ->
    exists fp', In (EvCall fp' seed) pre.

(* ------------------------------------------------------------------ *)
(** ** Vocabulary: the parts of a prompt *)

(** The parts of a full prompt, joined with ", ". *)
Fixpoint comma_join (parts : list jsstring) : jsstring :=
  match parts with
  | [] => []
  | [x] => x
  | x :: rest => x ++ lit ", " ++ comma_join rest
  end.

Definition color_clause (joined : jsstring) : jsstring :=
  lit "using these exact colors: " ++ joined
  ++ lit ", maintain color consistency".

Definition rendering_suffix : jsstring :=
  lit "512x512, icon design, white background, centered, high quality".

(** The four tasks in the words of the specification: task [i] sends the
    parts joined in fixed order, with seed [b + i]. *)
Definition planned_tasks (head style_text : jsstring)
  (clause : list jsstring) (b : Z) : list task :=
  map (fun i : nat =>
         (comma_join ([head ++ lit " icon"; nth i ICON_VARIATIONS [];
                       style_text] ++ clause ++ [rendering_suffix]),
          b + Z.of_nat i))
    [0; 1; 2; 3]%nat.

(* ------------------------------------------------------------------ *)
(** ** Vocabulary: the response *)

Definition by_index (a b : icon_result) : Prop := r_index a <= r_index b.

(** [sub] occurs in [s]. *)
Definition Substring (sub s : jsstring) : Prop :=
  exists pre post, s = pre ++ sub ++ post.

(* ------------------------------------------------------------------ *)
(** ** Sample collaborators, for running the definitions on examples *)

(** A stand-in for the runtime's string-to-number comparison; the examples
    never reach it. *)
Definition sample_gt : jsstring -> Z -> bool := fun _ _ => false.

(** A stand-in for the text of inherited members; the examples never reach
    it. *)
Definition no_text : jsstring -> jsstring := fun _ => [].

(** An operation that fails on its first two invocations. *)
Definition fails_twice : World -> outcome jsstring :=
  fun w => if (count_calls w <? 3)%nat then Throw (Error (lit "busy"))
           else Return (lit "done").

(** An image service that always answers with one file. *)
Definition always_ok : World -> outcome output :=
  fun _ => Return (OutSingle (lit "https://img/x.png")).

(** An image service that fails the very first call only. *)
Definition first_fails : World -> outcome output :=
  fun w => if (length w =? 1)%nat then Throw (Error (lit "boom"))
           else Return (OutSingle (lit "u")).

(** An image service that fails every call for the fourth variation. *)
Definition fails_variation_4 : World -> outcome output :=
  fun w =>
    match last w (EvSleep 0) with
    | EvCall fullPrompt _ =>
        if includes fullPrompt (lit "variation 4")
        then Throw (Error (lit "Prediction failed"))
        else Return (OutArray [lit "https://img/x.png"])
    | EvSleep _ => Return (OutArray [])
    end.

(** An image service that answers the calls for the first variation only. *)
Definition only_variation_1 : World -> outcome output :=
  fun w =>
    match last w (EvSleep 0) with
    | EvCall fullPrompt _ =>
        if includes fullPrompt (lit "variation 1")
        then Return (OutSingle (lit "https://img/x.png"))
        else Throw (Error (lit "rate limit exceeded"))
    | EvSleep _ => Return (OutArray [])
    end.

(** For the basic handlers: the call of the third variation is rejected. *)
Definition third_fails : Z -> jsstring -> Basic.promise output :=
  fun index _ =>
    if index =? 2
    then {| Basic.settles := Throw (Error (lit "quota")); Basic.at_time := 1 |}
    else {| Basic.settles := Return (OutSingle (lit "u")); Basic.at_time := 2 |}.

(* ------------------------------------------------------------------ *)
(** ** Vocabulary: costs of a request *)

(** The sum of a list of delays. *)
Definition total (l : list Z) : Z := fold_right Z.add 0 l.


(** The request fields of an event: [JSON.parse(event.body)], destructured. *)
Definition request_fields (e : lambda_event)
  : outcome (jsval * jsval * jsval) :=
  obind (ev_body e) destructure_request.

(** A POST request with the given fields, for examples. *)
Definition post (prompt style brandColors : jsval) : lambda_event :=
  {| ev_httpMethod := JStr (lit "POST");
     ev_body := Return (JObj [ (lit "prompt", prompt); (lit "style", style);
                               (lit "brandColors", brandColors) ]) |}.

(** The shape of a success: the document of the response against the
    results and errors of the batch, the base seed [b] and the history [tr]
    that the request added. *)
Definition success_of (b : Z) (tr : list event) (results : list icon_result)
  (errors : list icon_error) (doc : jsval) : Prop :=
  doc = JObj ([ (lit "success", JBool true);
                (lit "icons", JArr (map icon_json results));
                (lit "partial", JBool (length results <? 4)%nat) ]
              ++ match errors with
                 | [] => []
                 | _ :: _ => [(lit "errors", JArr (map error_json errors))]
                 end)
  /\ (2 <= length results <= 4)%nat
  /\ (length results + length errors = 4)%nat
  /\ StronglySorted (fun x y => r_index x < r_index y) results
  /\ Forall (fun x => 0 <= r_index x <= 3
                      /\ r_seed x = b + r_index x
                      /\ In (EvCall (r_prompt x) (r_seed x)) tr) results
  /\ 0 <= b <= 2 ^ 31.

(** The polynomial in 31 of the code units of a string, not wrapped. *)
Definition horner (str : jsstring) : Z :=
  fold_left (fun hash c => hash * 31 + c) str 0.

(** A prompt whose hash with style 1 is the least 32-bit integer. *)
Definition extreme_prompt : jsstring := lit "aepzrqet".

(** A call whose seed lies between two bounds; a timer always does. *)
Definition seed_within (lo hi : Z) (ev : event) : Prop :=
  match ev with
  | EvCall _ seed => lo <= seed <= hi
  | EvSleep _ => True
  end.

(** Whether a test passes: its function returns. *)
Definition passes (t : jsstring * (unit -> outcome unit)) : bool :=
  match snd t tt with
  | Return _ => true
  | Throw _ => false
  end.

(** An image service for the basic handlers whose second and fourth calls
    fail, the fourth before the second. *)
Definition two_fail : Z -> jsstring -> Basic.promise output :=
  fun index _ =>
    if index =? 1
    then {| Basic.settles := Throw (Error (lit "slow")); Basic.at_time := 5 |}
    else if index =? 3
    then {| Basic.settles := Throw (Error (lit "fast")); Basic.at_time := 2 |}
    else {| Basic.settles := Return (OutSingle (lit "u")); Basic.at_time := 3 |}.

(* ------------------------------------------------------------------ *)
(** ** Vocabulary: the client against the functions *)

(** The HTTP response that the client's [fetch] gets for a reply of a
    function: [ok] for a status from 200 to 299, and the document of the
    body, which an empty body does not have. *)
Definition http_of (r : reply) : Client.http_response :=
  {| Client.ok := (200 <=? reply_status r) && (reply_status r <=? 299);
     Client.json :=
       match reply_body r with
       | Some doc => Return doc
       | None => Throw (Error (lit "Unexpected end of JSON input"))
       end |}.

(** The event that a function receives for the client's POST of a
    document. *)
Definition posted (doc : jsval) : lambda_event :=
  {| ev_httpMethod := JStr (lit "POST"); ev_body := Return doc |}.

(** [fetch] against the function with retry, at a history [w]. *)
Definition fetch_enhanced (StringToNumber_gt : jsstring -> Z -> bool)
  (inherited_text : jsstring -> jsstring)
  (replicate_run : World -> outcome output) (w : World) (doc : jsval)
  : outcome Client.http_response :=
  match fst (exports_handler StringToNumber_gt inherited_text replicate_run
               (posted doc) w) with
  | Return r => Return (http_of r)
  | Throw error => Throw error
  end.

(** [fetch] against the basic function. *)
Definition fetch_basic (inherited_text : jsstring -> jsstring)
  (replicate_run : Z -> jsstring -> Basic.promise output) (doc : jsval)
  : outcome Client.http_response :=
  Return (http_of (BasicExports.exports_handler inherited_text replicate_run
                     (posted doc))).

Definition is_color (x : Client.slot) : bool :=
  match x with
  | Client.Color _ => true
  | _ => false
  end.

(** What holds of the form whatever the user did: three colour inputs, each
    holding a string; a style of [STYLES]; no request in flight between two
    events; and never an error message beside icons. *)
Definition well_formed (st : Client.state) : Prop :=
  length (Client.st_brandColors st) = 3%nat
  /\ forallb is_color (Client.st_brandColors st) = true
  /\ In (Client.st_selectedStyle st) (map Client.id Client.STYLES)
  /\ Client.st_loading st = false
  /\ (Client.st_error st = [] \/ Client.st_icons st = JArr []).

(** The fields that the client sends for a state and its kept colours. *)
Definition sent_prompt (st : Client.state) : jsval :=
  JStr (trim (Client.st_prompt st)).
Definition sent_style (st : Client.state) : jsval :=
  JNum (Client.st_selectedStyle st).
Definition sent_colors (filteredColors : list jsstring) : jsval :=
  if (0 <? length filteredColors)%nat then JArr (map JStr filteredColors)
  else JUndefined.

(** The messages that the function with retry puts in [error]. *)
Definition enhanced_errors : list jsstring :=
  [ lit "Validation failed";
    lit "Failed to generate icons";
    lit "API configuration error";
    lit "Request timeout - please try again";
    lit "Rate limit exceeded - please wait a moment" ].

(** [n] clicks on the theme toggle. *)
Fixpoint toggles (n : nat) (t : Client.theming) : Client.theming :=
  match n with
  | O => t
  | S n' => Client.toggleTheme (toggles n' t)
  end.


(** A form filled in: a padded prompt, the second style, one colour. *)
Definition sample_form : Client.state :=
  {| Client.st_prompt := lit " toys ";
     Client.st_selectedStyle := 2;
     Client.st_brandColors :=
       [Client.Color (lit " "); Client.Color (lit "#fff"); Client.Color []];
     Client.st_icons := JArr [];
     Client.st_loading := false;
     Client.st_error := [] |}.

(* ------------------------------------------------------------------ *)
(** ** Vocabulary: what reaches the outer [catch] *)




(* ------------------------------------------------------------------ *)
(** ** Facts on the 32-bit operators and the seed *)

Lemma ToInt32_wrap (z : Z) : ToInt32 z = wrap_signed32 z.
Proof.
  unfold ToInt32, wrap_signed32.
  assert (H32 : 0 < 2 ^ 32) by lia.
  pose proof (Z.mod_pos_bound z (2 ^ 32) H32) as Hm.
  destruct (Z.leb_spec (2 ^ 31) (z mod 2 ^ 32)) as [Hge | Hlt].
  - symmetry.
    assert (E : (z + 2 ^ 31) mod 2 ^ 32 = z mod 2 ^ 32 - 2 ^ 31).
    { symmetry. apply Z.mod_unique with (q := z / 2 ^ 32 + 1); [lia|].
      pose proof (Z.div_mod z (2 ^ 32)). lia. }
    lia.
  - symmetry.
    assert (E : (z + 2 ^ 31) mod 2 ^ 32 = z mod 2 ^ 32 + 2 ^ 31).
    { symmetry. apply Z.mod_unique with (q := z / 2 ^ 32); [lia|].
      pose proof (Z.div_mod z (2 ^ 32)). lia. }
    lia.
Qed.

Lemma wrap_signed32_range (z : Z) : - 2 ^ 31 <= wrap_signed32 z < 2 ^ 31.
Proof.
  unfold wrap_signed32.
  pose proof (Z.mod_pos_bound (z + 2 ^ 31) (2 ^ 32)). lia.
Qed.

Lemma wrap_signed32_congr (a b : Z) :
  a mod 2 ^ 32 = b mod 2 ^ 32 -> wrap_signed32 a = wrap_signed32 b.
Proof.
  intros H. unfold wrap_signed32. f_equal.
  rewrite (Z.add_mod a), (Z.add_mod b), H by lia. reflexivity.
Qed.

Lemma wrap_signed32_mod (z : Z) : wrap_signed32 z mod 2 ^ 32 = z mod 2 ^ 32.
Proof.
  unfold wrap_signed32.
  pose proof (Z.div_mod (z + 2 ^ 31) (2 ^ 32)).
  symmetry.
  replace z with ((z + 2 ^ 31) mod 2 ^ 32 - 2 ^ 31
                  + ((z + 2 ^ 31) / 2 ^ 32) * 2 ^ 32) at 1 by lia.
  apply Z.mod_add. lia.
Qed.

Lemma wrap_signed32_small (z : Z) :
  - 2 ^ 31 <= z < 2 ^ 31 -> wrap_signed32 z = z.
Proof.
  intros H. unfold wrap_signed32. rewrite Z.mod_small; lia.
Qed.

(** The shift-and-subtract step of the source is the multiply-by-31 step. *)
Lemma seed_step_rolling (hash char : Z) :
  seed_step hash char = wrap_signed32 (hash * 31 + char).
Proof.
  unfold seed_step, js_and, js_shl.
  rewrite Z.land_diag, !ToInt32_wrap.
  change (5 mod 32) with 5. rewrite Z.shiftl_mul_pow2 by lia.
  rewrite (wrap_signed32_small (wrap_signed32 _)) by apply wrap_signed32_range.
  apply wrap_signed32_congr.
  rewrite Z.add_mod, Zminus_mod, wrap_signed32_mod by lia.
  rewrite (Z.mul_mod (wrap_signed32 hash)), wrap_signed32_mod by lia.
  rewrite <- Z.mul_mod, <- Zminus_mod, <- Z.add_mod by lia.
  f_equal. lia.
Qed.

Lemma seed_loop_rolling_from (str : jsstring) (h : Z) :
  fold_left seed_step str h
  = fold_left (fun hash c => wrap_signed32 (hash * 31 + c)) str h.
Proof.
  revert h. induction str as [| c str IH]; intros h; simpl.
  - reflexivity.
  - rewrite seed_step_rolling. apply IH.
Qed.

Lemma rolling_hash_range_from (str : jsstring) (h : Z) :
  - 2 ^ 31 <= h < 2 ^ 31 ->
  - 2 ^ 31 <= fold_left (fun hash c => wrap_signed32 (hash * 31 + c)) str h
    < 2 ^ 31.
Proof.
  revert h. induction str as [| c str IH]; intros h Hh; simpl.
  - exact Hh.
  - apply IH, wrap_signed32_range.
Qed.

Lemma rolling_hash_range (str : jsstring) :
  - 2 ^ 31 <= rolling_hash str < 2 ^ 31.
Proof. apply rolling_hash_range_from. lia. Qed.

(** Every intermediate number of a step is an integer a double holds
    exactly, so the integer model loses nothing. *)
Lemma seed_step_exact (hash char : Z) :
  - 2 ^ 31 <= hash < 2 ^ 31 -> 0 <= char < 2 ^ 16 ->
  Z.abs (js_shl hash 5 - hash + char) < 2 ^ 53.
Proof.
  intros Hh Hc. unfold js_shl. rewrite ToInt32_wrap.
  pose proof (wrap_signed32_range
                (Z.shiftl (ToInt32 hash) (5 mod 32))). lia.
Qed.

(** C2.  [generateSeed] is a function of the code units of the prompt and
    of the string form of the style alone: equal inputs give equal seeds,
    and inside the handler it neither reads nor extends the history.  Its
    value is the absolute value of the rolling hash [hash*31 + charCode],
    wrapped to a signed 32-bit integer at each step, over the string "p-s";
    it is a non-negative integer, at most 2^31. *)
Theorem generateSeed_rolling_hash (p : jsstring) (s : jsval) :
  generateSeed p s
  = match ToString s with
    | Return t => Return (Z.abs (rolling_hash (p ++ lit "-" ++ t)))
    | Throw e => Throw e
    end
  /\ match generateSeed p s with
     | Return seed => 0 <= seed <= 2 ^ 31
     | Throw _ => True
     end
  /\ forall w : World, lift (generateSeed p s) w = (generateSeed p s, w).
Proof.
  unfold generateSeed.
  assert (E : forall str, seed_loop str = rolling_hash str).
  { intros str. apply seed_loop_rolling_from. }
  split; [| split].
  - destruct (ToString s); cbn [obind]; [rewrite E|]; reflexivity.
  - destruct (ToString s) as [t | e]; cbn [obind]; [|exact I].
    rewrite E. pose proof (rolling_hash_range (p ++ lit "-" ++ t)). lia.
  - reflexivity.
Qed.

(* ------------------------------------------------------------------ *)
(** ** Facts on validateInput *)

Lemma In_push_if (c : bool) (msg : string) (errors : list jsstring) m :
  In m (push_if c msg errors) <-> In m errors \/ (c = true /\ m = lit msg).
Proof.
  unfold push_if. destruct c.
  - rewrite in_app_iff. simpl. intuition congruence.
  - intuition congruence.
Qed.

Lemma jsstring_eqb_eq (a b : jsstring) : jsstring_eqb a b = true <-> a = b.
Proof.
  unfold jsstring_eqb. destruct (list_eq_dec Z.eq_dec a b); intuition congruence.
Qed.


Section ValidateFacts.

Variable StringToNumber_gt : jsstring -> Z -> bool.

Local Abbreviation validate := (validateInput StringToNumber_gt).
Local Abbreviation longer := (truthy_and_longer StringToNumber_gt).

(** The five rules are evaluated one after the other, each on its own
    field, and every one that fires appends its message. *)
Lemma validateInput_inv prompt style brandColors errors :
  validate prompt style brandColors = Return errors ->
  exists too_long bad_style too_many,
    longer prompt 200 = Return too_long
    /\ style_invalid style = Return bad_style
    /\ longer brandColors 5 = Return too_many
    /\ forall m,
         In m errors <->
         (prompt_missing prompt = true /\ m = msg_prompt_required)
         \/ (too_long = true /\ m = msg_prompt_long)
         \/ (bad_style = true /\ m = msg_style)
         \/ (truthy brandColors && negb (isArray brandColors) = true
             /\ m = msg_colors_array)
         \/ (too_many = true /\ m = msg_colors_many).
Proof.
  unfold validateInput. intros H.
  destruct (longer prompt 200) as [c2 | ?]; [| discriminate].
  destruct (style_invalid style) as [c3 | ?]; [| discriminate].
  destruct (longer brandColors 5) as [c5 | ?]; [| discriminate].
  cbn [obind] in H. injection H as <-.
  exists c2, c3, c5. repeat split; try reflexivity.
  - rewrite !In_push_if. simpl In.
    unfold msg_prompt_required, msg_prompt_long, msg_style,
      msg_colors_array, msg_colors_many. tauto.
  - rewrite !In_push_if. simpl In.
    unfold msg_prompt_required, msg_prompt_long, msg_style,
      msg_colors_array, msg_colors_many. tauto.
Qed.

Lemma longer_string s n :
  0 <= n -> longer (JStr s) n = Return (n <? Z.of_nat (length s)).
Proof.
  intros Hn. unfold truthy_and_longer. destruct s as [| c s]; simpl.
  - (* the empty string is falsy: the comparison is not reached *)
    destruct (Z.ltb_spec n 0); [lia | reflexivity].
  - reflexivity.
Qed.

Lemma longer_array l n :
  longer (JArr l) n = Return (n <? Z.of_nat (length l)).
Proof. reflexivity. Qed.

Lemma longer_falsy v n : truthy v = false -> longer v n = Return false.
Proof. intros H. unfold truthy_and_longer. rewrite H. reflexivity. Qed.

End ValidateFacts.

Ltac msg_neq :=
  let H := fresh in
  intro H; vm_compute in H; discriminate H.

Lemma longer_not_object gt v n :
  is_object v = false -> exists b, truthy_and_longer gt v n = Return b.
Proof.
  unfold truthy_and_longer.
  destruct v as [| | b | z | s | l | ps]; simpl; intros H;
    try discriminate H; eauto.
  - destruct b; eauto.
  - destruct (negb (z =? 0)); eauto.
  - destruct s; eauto.
Qed.

Lemma prompt_rule gt prompt too_long :
  truthy_and_longer gt prompt 200 = Return too_long ->
  (prompt_missing prompt = true \/ too_long = true) <->
  match prompt with
  | JStr s => trim s = [] \/ (200 < length s)%nat
  | _ => True
  end.
Proof.
  intros H. destruct prompt as [| | b | z | s | l | ps];
    try (split; [exact (fun _ => I) | intros _; left; unfold prompt_missing;
                                      apply orb_true_r]).
  rewrite longer_string in H by lia. injection H as <-.
  unfold prompt_missing. destruct s as [| c s].
  - simpl. split; [intros _; left; reflexivity | intros _; left; reflexivity].
  - cbn [truthy negb orb]. rewrite Nat.eqb_eq, Z.ltb_lt, length_zero_iff_nil.
    split; (intros [H | H]; [left; exact H | right; lia]).
Qed.

Lemma colors_rule gt brandColors too_many :
  truthy_and_longer gt brandColors 5 = Return too_many ->
  (truthy brandColors && negb (isArray brandColors) = true \/ too_many = true)
  <->
  truthy brandColors = true /\
  match brandColors with
  | JArr l => (5 < length l)%nat
  | _ => True
  end.
Proof.
  intros H. destruct (truthy brandColors) eqn:T.
  - destruct brandColors as [| | b | z | s | l | ps]; try discriminate T;
      try (cbn [isArray negb andb]; tauto).
    rewrite longer_array in H. injection H as <-.
    cbn [isArray negb andb]. rewrite Z.ltb_lt.
    split; [intros [H | H]; [discriminate H | split; [reflexivity | lia]]
           | intros [_ H]; right; lia].
  - rewrite longer_falsy in H by exact T. injection H as <-.
    cbn [andb]. split; [intros [H | H]; discriminate H | intros [H _]; discriminate H].
Qed.

Lemma assoc_In key table :
  assoc key table <> None <-> In key (map fst table).
Proof.
  induction table as [| [k d] table IH]; simpl.
  - tauto.
  - destruct (jsstring_eqb key k) eqn:E.
    + apply jsstring_eqb_eq in E. subst. split; [auto | discriminate].
    + rewrite IH. split; [auto | intros [H | H]; [| exact H]].
      subst. assert (jsstring_eqb key key = true) by (apply jsstring_eqb_eq; reflexivity).
      congruence.
Qed.

Lemma existsb_names key :
  existsb (jsstring_eqb key) Object_prototype_names = true
  <-> In key Object_prototype_names.
Proof.
  rewrite existsb_exists. split.
  - intros [x [Hin E]]. apply jsstring_eqb_eq in E. subst. exact Hin.
  - intros Hin. exists key. split; [exact Hin | apply jsstring_eqb_eq; reflexivity].
Qed.

Lemma style_rule style key bad_style :
  style_invalid style = Return bad_style ->
  ToString style = Return key ->
  ~ In key Object_prototype_names ->
  bad_style = true <->
  truthy style = false \/ ~ In key (map fst STYLE_PROMPTS).
Proof.
  unfold style_invalid, STYLE_PROMPTS_get. intros H K Hproto.
  rewrite K in H. cbn [obind] in H.
  destruct (truthy style); cbn [negb] in H.
  - destruct (assoc key STYLE_PROMPTS) as [d |] eqn:A.
    + assert (Hd : member_truthy (Own d) = true).
      { revert A. unfold STYLE_PROMPTS. cbn [assoc].
        repeat (destruct (jsstring_eqb key _);
                [intros A; injection A as <-; reflexivity |]).
        discriminate. }
      cbn [obind] in H. rewrite Hd in H. injection H as <-.
      assert (In key (map fst STYLE_PROMPTS))
        by (apply assoc_In; congruence).
      split; [discriminate | intros [? | ?]; [discriminate | contradiction]].
    + destruct (existsb (jsstring_eqb key) Object_prototype_names) eqn:E.
      * apply existsb_names in E. contradiction.
      * cbn [obind member_truthy negb] in H. injection H as <-.
        split; [| reflexivity]. intros _. right.
        rewrite <- assoc_In. congruence.
  - injection H as <-. split; [intros _; left; reflexivity | reflexivity].
Qed.

(** C6 (amended).  Among the inputs on which [validateInput] returns: a
    prompt is flagged exactly when it is not a string, or its trimmed form is
    empty, or its length as received, not trimmed, exceeds 200; "Invalid
    style selection" is flagged exactly when the style is falsy or its
    property key, the string form of the style, is none of "1" to "5"
    (stated for keys that are not names inherited from [Object.prototype]);
    brand colours are flagged exactly when the value is truthy and either
    not an array or longer than 5. *)
Theorem validateInput_rules gt prompt style brandColors errors :
  validateInput gt prompt style brandColors = Return errors ->
  (prompt_flagged errors <->
     match prompt with
     | JStr s => trim s = [] \/ (200 < length s)%nat
     | _ => True
     end)
  /\ (forall key,
        ToString style = Return key -> ~ In key Object_prototype_names ->
        (style_flagged errors <->
           truthy style = false \/ ~ In key (map fst STYLE_PROMPTS)))
  /\ map fst STYLE_PROMPTS = [lit "1"; lit "2"; lit "3"; lit "4"; lit "5"]
  /\ (colors_flagged errors <->
        truthy brandColors = true /\
        match brandColors with
        | JArr l => (5 < length l)%nat
        | _ => True
        end).
Proof.
  intros H.
  destruct (validateInput_inv _ _ _ _ _ H)
    as (c2 & c3 & c5 & H2 & H3 & H5 & Hin).
  split; [| split; [| split]].
  - rewrite <- (prompt_rule _ _ _ H2). unfold prompt_flagged.
    rewrite !Hin. split.
    + intros [[[? ?] | [[_ E] | [[_ E] | [[_ E] | [_ E]]]]]
             | [[_ E] | [[? ?] | [[_ E] | [[_ E] | [_ E]]]]]];
        try (exfalso; revert E; msg_neq); tauto.
    + intros [? | ?]; [left; left | right; right; left]; tauto.
  - intros key K Hproto. rewrite <- (style_rule _ _ _ H3 K Hproto).
    unfold style_flagged. rewrite Hin. split.
    + intros [[_ E] | [[_ E] | [[? ?] | [[_ E] | [_ E]]]]];
        try (exfalso; revert E; msg_neq); tauto.
    + intros ?. right; right; left. tauto.
  - reflexivity.
  - rewrite <- (colors_rule _ _ _ H5). unfold colors_flagged.
    rewrite !Hin. split.
    + intros [[[_ E] | [[_ E] | [[_ E] | [[? ?] | [_ E]]]]]
             | [[_ E] | [[_ E] | [[_ E] | [[_ E] | [? ?]]]]]];
        try (exfalso; revert E; msg_neq); tauto.
    + intros [? | ?]; [left; right; right; right; left
                      | right; right; right; right; right]; tauto.
Qed.

(** A style that names a member inherited from [Object.prototype] passes
    the style rule: the lookup finds the inherited member, which is truthy. *)
Lemma validateInput_accepts_inherited_key gt :
  validateInput gt (JStr (lit "coffee")) (JStr (lit "constructor")) JUndefined
  = Return [].
Proof. reflexivity. Qed.

Lemma validateInput_rules_witness :
  let prompt := JStr (lit "coffee") in
  let style := JNum 1 in
  let brandColors := JArr [JStr (lit "#FF5733")] in
  validateInput sample_gt prompt style brandColors = Return []
  /\ ((prompt_flagged [] <->
         trim (lit "coffee") = [] \/ (200 < length (lit "coffee"))%nat)
      /\ (forall key,
            ToString style = Return key -> ~ In key Object_prototype_names ->
            (style_flagged [] <->
               truthy style = false \/ ~ In key (map fst STYLE_PROMPTS)))
      /\ map fst STYLE_PROMPTS = [lit "1"; lit "2"; lit "3"; lit "4"; lit "5"]
      /\ (colors_flagged [] <->
            truthy brandColors = true /\ (5 < 1)%nat)).
Proof.
  split; [reflexivity |].
  apply (validateInput_rules sample_gt (JStr (lit "coffee")) (JNum 1)
           (JArr [JStr (lit "#FF5733")])).
  reflexivity.
Defined.

(** C6 as stated fails: the prompt "a" followed by 200 spaces is non-empty
    and one character long after trimming, yet it is flagged, because the
    length rule reads the prompt as received. *)
Lemma validateInput_flags_padded_prompt :
  ~ (forall gt prompt style brandColors errors,
        validateInput gt prompt style brandColors = Return errors ->
        (prompt_flagged errors <->
           match prompt with
           | JStr s => trim s = [] \/ (200 < length (trim s))%nat
           | _ => True
           end)).
Proof.
  intros claim.
  specialize (claim sample_gt (JStr (lit "a" ++ repeat 32 200)) (JNum 1)
                JUndefined [msg_prompt_long] eq_refl).
  destruct claim as [claim _].
  assert (F : prompt_flagged [msg_prompt_long]) by (right; left; reflexivity).
  specialize (claim F).
  assert (T : trim (lit "a" ++ repeat 32 200) = lit "a") by (vm_compute; reflexivity).
  rewrite T in claim. destruct claim as [E | L].
  - discriminate E.
  - simpl in L. lia.
Qed.

(** C7 at the failing input: with a request whose style is the object
    [{"toString": 1}], the key lookup [STYLE_PROMPTS[style]] throws, and
    [validateInput] throws with it instead of returning a list.  On requests
    whose prompt and brand colours are not objects and whose style has a
    string form, it returns a list. *)
Theorem validateInput_throws_on_object_style gt :
  validateInput gt (JStr (lit "coffee")) (JObj [(lit "toString", JNum 1)])
    JUndefined
  = Throw cannot_convert
  /\ forall prompt style brandColors,
       is_object prompt = false -> is_object brandColors = false ->
       (truthy style = false \/ exists key, ToString style = Return key) ->
       exists errors,
         validateInput gt prompt style brandColors = Return errors.
Proof.
  split; [reflexivity |].
  intros prompt style brandColors Hp Hc Hs. unfold validateInput.
  destruct (longer_not_object gt prompt 200 Hp) as [c2 ->].
  destruct (longer_not_object gt brandColors 5 Hc) as [c5 ->].
  assert (exists c3, style_invalid style = Return c3) as [c3 ->].
  { unfold style_invalid, STYLE_PROMPTS_get.
    destruct (truthy style); cbn [negb]; [| eauto].
    destruct Hs as [Hs | [key ->]]; [discriminate Hs |]. cbn [obind].
    destruct (assoc key STYLE_PROMPTS); [cbn [obind]; eauto |].
    destruct (existsb _ _); cbn [obind]; eauto. }
  cbn [obind]. eauto.
Qed.

Lemma validateInput_throws_on_object_style_witness :
  validateInput sample_gt (JStr (lit "coffee"))
    (JObj [(lit "toString", JNum 1)]) JUndefined
  = Throw cannot_convert
  /\ exists errors,
       validateInput sample_gt JNull (JNum 99) (JStr (lit "red")) = Return errors.
Proof.
  destruct (validateInput_throws_on_object_style sample_gt) as [E T].
  split; [exact E |].
  apply T; [reflexivity | reflexivity |].
  right. exists (lit "99"). reflexivity.
Defined.

(* ------------------------------------------------------------------ *)
(** ** Facts on retryWithBackoff *)

Lemma attempts_trace_next prompt seed attempt n :
  (1 <= n)%nat ->
  attempts_trace prompt seed attempt (S n)
  = EvCall prompt seed :: EvSleep (RETRY_DELAY_MS * 2 ^ Z.of_nat attempt)
    :: attempts_trace prompt seed (S attempt) n.
Proof. destruct n; [lia | reflexivity]. Qed.

Lemma retry_from_invoke {A} (answer : World -> outcome A) prompt seed :
  forall remaining attempt w,
  exists n,
    (1 <= n <= S remaining)%nat
    /\ retry_from (invoke answer prompt seed) remaining attempt w
       = (answer (w ++ attempts_trace prompt seed attempt n),
          w ++ attempts_trace prompt seed attempt n)
    /\ (forall j, (1 <= j < n)%nat ->
                  is_throw (answer (w ++ attempts_trace prompt seed attempt j)))
    /\ (is_throw (answer (w ++ attempts_trace prompt seed attempt n)) ->
        n = S remaining).
Proof.
  induction remaining as [| remaining IH]; intros attempt w.
  - exists 1%nat. cbn [retry_from invoke attempts_trace].
    repeat split; try lia.
    destruct (answer (w ++ [EvCall prompt seed])); reflexivity.
  - cbn [retry_from]. unfold invoke at 1. cbv zeta.
    destruct (answer (w ++ [EvCall prompt seed])) as [a | e] eqn:E.
    + exists 1%nat. cbn [attempts_trace]. rewrite E.
      repeat split; try lia. intros [].
    + unfold sleep.
      destruct (IH (S attempt)
                  ((w ++ [EvCall prompt seed])
                   ++ [EvSleep (RETRY_DELAY_MS * 2 ^ Z.of_nat attempt)]))
        as (n & Hn & Hrun & Hfail & Hlast).
      assert (Happ : forall k, (1 <= k)%nat ->
                ((w ++ [EvCall prompt seed])
                 ++ [EvSleep (RETRY_DELAY_MS * 2 ^ Z.of_nat attempt)])
                ++ attempts_trace prompt seed (S attempt) k
                = w ++ attempts_trace prompt seed attempt (S k)).
      { intros k Hk. rewrite attempts_trace_next by exact Hk.
        rewrite <- !app_assoc. reflexivity. }
      exists (S n). rewrite <- (Happ n) by lia.
      split; [lia |]. split; [exact Hrun |]. split.
      * intros j Hj. destruct j as [| [| j]]; [lia | |].
        -- cbn [attempts_trace]. rewrite E. exact I.
        -- rewrite <- (Happ (S j)) by lia. apply Hfail. lia.
      * intros Ht. f_equal. apply Hlast, Ht.
Qed.

Lemma count_calls_attempts prompt seed n :
  forall attempt, count_calls (attempts_trace prompt seed attempt n) = n.
Proof.
  induction n as [| n IH]; intros attempt; [reflexivity |].
  destruct n as [| n]; [reflexivity |].
  rewrite attempts_trace_next by lia. unfold count_calls in *.
  cbn [filter is_call length]. f_equal. apply IH.
Qed.

(** C4.  With [maxRetries = 2], [retryWithBackoff] invokes the operation
    [n] times, [1 <= n <= 3]; every invocation before the last failed and
    the result is that of the last, so the first success is returned and an
    error is raised again only when the third attempt failed; between
    attempts it waits 1000 ms, then 2000 ms, delays that do not decrease;
    an operation that fails twice and then succeeds is invoked three times
    (retried twice) and its success is returned. *)
Theorem retryWithBackoff_policy {A} (f : World -> outcome A) prompt seed w :
  let T := attempts_trace prompt seed 0 in
  let call := EvCall prompt seed in
  (T 1%nat = [call]
   /\ T 2%nat = [call; EvSleep 1000; call]
   /\ T 3%nat = [call; EvSleep 1000; call; EvSleep 2000; call])
  /\ exists n,
       (1 <= n <= 3)%nat
       /\ retryWithBackoff (invoke f prompt seed) MAX_RETRIES w
          = (f (w ++ T n), w ++ T n)
       /\ count_calls (T n) = n
       /\ sleeps (T n) = firstn (n - 1) [1000; 2000]
       /\ Sorted Z.le (sleeps (T n))
       /\ (forall j, (1 <= j < n)%nat -> is_throw (f (w ++ T j)))
       /\ (is_throw (f (w ++ T n)) -> n = 3%nat)
       /\ (is_throw (f (w ++ T 1%nat)) -> is_throw (f (w ++ T 2%nat)) ->
           forall a, f (w ++ T 3%nat) = Return a ->
           retryWithBackoff (invoke f prompt seed) MAX_RETRIES w
           = (Return a, w ++ T 3%nat)).
Proof.
  intros T call. split; [repeat split |].
  unfold retryWithBackoff, MAX_RETRIES.
  destruct (retry_from_invoke f prompt seed 2 0 w)
    as (n & Hn & Hrun & Hfail & Hlast).
  exists n. fold T in Hrun, Hfail, Hlast.
  split; [exact Hn |]. split; [exact Hrun |].
  split; [apply count_calls_attempts |].
  assert (Hcases : n = 1%nat \/ n = 2%nat \/ n = 3%nat) by lia.
  split; [destruct Hcases as [-> | [-> | ->]]; reflexivity |].
  split.
  { destruct Hcases as [-> | [-> | ->]]; cbn; repeat constructor; lia. }
  split; [exact Hfail |]. split; [exact Hlast |].
  intros H1 H2 a H3.
  destruct Hcases as [-> | [-> | ->]].
  - specialize (Hlast H1). discriminate Hlast.
  - specialize (Hlast H2). discriminate Hlast.
  - rewrite Hrun, H3. reflexivity.
Qed.

Lemma retryWithBackoff_policy_witness :
  retryWithBackoff (invoke fails_twice (lit "p") 7) MAX_RETRIES []
  = (Return (lit "done"),
     [EvCall (lit "p") 7; EvSleep 1000; EvCall (lit "p") 7; EvSleep 2000;
      EvCall (lit "p") 7]).
Proof.
  destruct (retryWithBackoff_policy fails_twice (lit "p") 7 [])
    as (_ & n & _ & _ & _ & _ & _ & _ & _ & Hscenario).
  exact (Hscenario I I (lit "done") eq_refl).
Defined.

(* ------------------------------------------------------------------ *)
(** ** Facts on the generation loop *)

Section LoopFacts.

Variable inherited_text : jsstring -> jsstring.
Variable replicate_run : World -> outcome output.
Variables (prompt : jsval) (styleDescription : member)
  (colorInstruction : jsstring) (baseSeed : Z).

Local Abbreviation icon :=
  (generate_icon inherited_text replicate_run prompt styleDescription
     colorInstruction baseSeed).
Local Abbreviation loop :=
  (generate_icons inherited_text replicate_run prompt styleDescription
     colorInstruction baseSeed).

Lemma generate_icon_result index variation w r w' :
  icon index variation w = (Return r, w') ->
  r_index r = index /\ r_seed r = baseSeed + index
  /\ full_prompt inherited_text prompt variation styleDescription
       colorInstruction = Return (r_prompt r).
Proof.
  unfold generate_icon, bind, lift, ret.
  destruct (full_prompt _ _ _ _ _) as [fp | e]; [| discriminate].
  destruct (retryWithBackoff _ _ w) as [[out | e] w1]; [| discriminate].
  intros H. injection H as <- <-. repeat split.
Qed.

(** One operation, whatever it answers, leaves the loop with a pushed
    entry: the exception of a task never leaves its turn. *)
Lemma generate_icons_outcomes variations :
  forall index results errors w,
  exists new_results new_errors w',
    loop variations index results errors w
    = (Return (results ++ new_results, errors ++ new_errors), w')
    /\ Permutation (map r_index new_results ++ map e_index new_errors)
         (indices_from index (length variations))
    /\ Forall (fun r => exists variation wi wi',
                 In variation variations
                 /\ icon (r_index r) variation wi = (Return r, wi'))
         new_results
    /\ Forall (fun e => exists variation wi wi' error,
                 In variation variations
                 /\ icon (e_index e) variation wi = (Throw error, wi')
                 /\ e_error e = message error)
         new_errors.
Proof.
  induction variations as [| variation rest IH];
    intros index results errors w.
  - exists [], [], w. cbn. rewrite !app_nil_r. repeat split; constructor.
  - cbn [generate_icons]. unfold bind at 1, try_catch. unfold bind at 1.
    destruct (icon index variation w) as [[r | error] w1] eqn:E.
    + unfold ret at 1. cbn [fst snd].
      destruct (IH (index + 1) (results ++ [r]) errors w1)
        as (nr & ne & w' & Hrun & Hperm & Hres & Herr).
      exists (r :: nr), ne, w'. rewrite Hrun, <- app_assoc.
      destruct (generate_icon_result _ _ _ _ _ E) as (Hidx & _ & _).
      split; [reflexivity |]. split; [| split].
      * cbn [map app length indices_from]. rewrite Hidx.
        apply perm_skip, Hperm.
      * constructor.
        -- exists variation, w, w1. rewrite Hidx. split; [left; reflexivity | exact E].
        -- eapply Forall_impl; [| exact Hres].
           intros r' (v & wi & wi' & Hin & Hr'). exists v, wi, wi'.
           split; [right; exact Hin | exact Hr'].
      * eapply Forall_impl; [| exact Herr].
        intros e' (v & wi & wi' & ex & Hin & He'). exists v, wi, wi', ex.
        split; [right; exact Hin | exact He'].
    + unfold ret at 1. cbn [fst snd].
      destruct (IH (index + 1) results
                  (errors ++ [{| e_index := index; e_error := message error |}])
                  w1)
        as (nr & ne & w' & Hrun & Hperm & Hres & Herr).
      exists nr, ({| e_index := index; e_error := message error |} :: ne), w'.
      rewrite Hrun, <- app_assoc.
      split; [reflexivity |]. split; [| split].
      * cbn [map length indices_from e_index].
        apply Permutation_sym, Permutation_cons_app, Permutation_sym, Hperm.
      * eapply Forall_impl; [| exact Hres].
        intros r' (v & wi & wi' & Hin & Hr'). exists v, wi, wi'.
        split; [right; exact Hin | exact Hr'].
      * constructor.
        -- exists variation, w, w1, error. cbn [e_index e_error].
           split; [left; reflexivity | split; [exact E | reflexivity]].
        -- eapply Forall_impl; [| exact Herr].
           intros e' (v & wi & wi' & ex & Hin & He'). exists v, wi, wi', ex.
           split; [right; exact Hin | exact He'].
Qed.

End LoopFacts.

Section TraceFacts.

Variable inherited_text : jsstring -> jsstring.
Variable replicate_run : World -> outcome output.
Variables (styleDescription : member) (colorInstruction : jsstring)
  (baseSeed : Z) (p : jsstring).

Local Abbreviation icon_of :=
  (generate_icon inherited_text replicate_run (JStr p) styleDescription
     colorInstruction baseSeed).
Local Abbreviation loop_of :=
  (generate_icons inherited_text replicate_run (JStr p) styleDescription
     colorInstruction baseSeed).
Local Abbreviation plan :=
  (plan_from inherited_text styleDescription colorInstruction baseSeed p).

Lemma generate_icon_trace index variation w :
  exists n,
    (1 <= n <= 3)%nat
    /\ snd (icon_of index variation w)
       = w ++ task_trace
                (prompt_text inherited_text p variation styleDescription
                   colorInstruction, baseSeed + index) n.
Proof.
  unfold generate_icon, bind, lift, ret, full_prompt. cbn [ToString obind].
  fold (prompt_text inherited_text p variation styleDescription
          colorInstruction).
  unfold retryWithBackoff.
  destruct (retry_from_invoke replicate_run
              (prompt_text inherited_text p variation styleDescription
                 colorInstruction) (baseSeed + index) MAX_RETRIES 0 w)
    as (n & Hn & Hrun & _).
  exists n. split; [exact Hn |]. rewrite Hrun.
  destruct (replicate_run _); reflexivity.
Qed.

(** The turns of the loop follow one another: the history of a batch is the
    history of its first task, attempts and timers, then that of the second,
    and so on. *)
Lemma generate_icons_trace variations :
  forall index results errors w,
  exists ns,
    length ns = length variations
    /\ Forall (fun n => (1 <= n <= 3)%nat) ns
    /\ snd (loop_of variations index results errors w)
       = w ++ batch_trace (plan variations index) ns.
Proof.
  induction variations as [| variation rest IH];
    intros index results errors w.
  - exists []. cbn. rewrite app_nil_r. repeat split. constructor.
  - cbn [generate_icons plan_from]. unfold bind at 1, try_catch.
    unfold bind at 1.
    destruct (generate_icon_trace index variation w) as (n & Hn & Htr).
    destruct (icon_of index variation w) as [[r | error] w1];
      cbn [snd] in Htr; unfold ret at 1; cbn [fst snd];
      match goal with
      | |- context [loop_of rest (index + 1) ?rs ?es w1] =>
          destruct (IH (index + 1) rs es w1) as (ns & Hlen & Hns & Hrest)
      end;
      exists (n :: ns); cbn [length batch_trace];
      (split; [congruence |]); (split; [constructor; assumption |]);
      rewrite Hrest, Htr, <- app_assoc; reflexivity.
Qed.

End TraceFacts.

(** C5.  Whatever the image service answers, the loop over the four
    variations completes normally with one outcome per task: the indices of
    [results] and [errors] together are 0, 1, 2, 3, each once, so the sizes
    add up to 4; every entry of [results] is what the turn of its index
    produced, and every entry of [errors] carries the index of a turn whose
    [try] block threw and the message of that exception. *)
Theorem generate_icons_one_outcome_per_task
  (inherited_text : jsstring -> jsstring)
  (replicate_run : World -> outcome output)
  (prompt : jsval) (styleDescription : member)
  (colorInstruction : jsstring) (baseSeed : Z) (w : World) :
  let icon := generate_icon inherited_text replicate_run prompt
                styleDescription colorInstruction baseSeed in
  exists results errors w',
    generate_icons inherited_text replicate_run prompt styleDescription
      colorInstruction baseSeed ICON_VARIATIONS 0 [] [] w
    = (Return (results, errors), w')
    /\ Permutation (map r_index results ++ map e_index errors) [0; 1; 2; 3]
    /\ (length results + length errors = 4)%nat
    /\ Forall (fun r => exists variation wi wi',
                 In variation ICON_VARIATIONS
                 /\ icon (r_index r) variation wi = (Return r, wi'))
         results
    /\ Forall (fun e => exists variation wi wi' error,
                 In variation ICON_VARIATIONS
                 /\ icon (e_index e) variation wi = (Throw error, wi')
                 /\ e_error e = message error)
         errors.
Proof.
  intros icon.
  destruct (generate_icons_outcomes inherited_text replicate_run prompt
              styleDescription colorInstruction baseSeed ICON_VARIATIONS
              0 [] [] w)
    as (results & errors & w' & Hrun & Hperm & Hres & Herr).
  exists results, errors, w'. cbn [app] in Hrun.
  split; [exact Hrun |]. split; [exact Hperm |].
  split; [| split; assumption].
  apply Permutation_length in Hperm.
  rewrite length_app, !length_map in Hperm. exact Hperm.
Qed.

(** C9 (amended).  The four generation tasks run one after the other in
    index order: the history of the loop is the calls and backoff timers of
    task 0, then those of task 1, of task 2 and of task 3, each task with
    one to three attempts; a task is first called only when the task before
    it has had all its attempts and timers. *)
Theorem generate_icons_sequential
  (inherited_text : jsstring -> jsstring)
  (replicate_run : World -> outcome output)
  (styleDescription : member) (colorInstruction : jsstring)
  (baseSeed : Z) (p : jsstring) (w : World) :
  let t := fun (i : nat) =>
             (prompt_text inherited_text p (nth i ICON_VARIATIONS [])
                styleDescription colorInstruction,
              baseSeed + Z.of_nat i) in
  exists n0 n1 n2 n3,
    Forall (fun n => (1 <= n <= 3)%nat) [n0; n1; n2; n3]
    /\ snd (generate_icons inherited_text replicate_run (JStr p)
              styleDescription colorInstruction baseSeed
              ICON_VARIATIONS 0 [] [] w)
       = w ++ task_trace (t 0%nat) n0 ++ task_trace (t 1%nat) n1
           ++ task_trace (t 2%nat) n2 ++ task_trace (t 3%nat) n3.
Proof.
  intros t.
  destruct (generate_icons_trace inherited_text replicate_run
              styleDescription colorInstruction baseSeed p
              ICON_VARIATIONS 0 [] [] w)
    as (ns & Hlen & Hns & Htr).
  destruct ns as [| n0 [| n1 [| n2 [| n3 [| n4 ns]]]]]; try discriminate Hlen.
  exists n0, n1, n2, n3. split; [exact Hns |].
  rewrite Htr. cbn [plan_from ICON_VARIATIONS batch_trace].
  rewrite app_nil_r. subst t. cbn [nth ICON_VARIATIONS Z.of_nat].
  replace (baseSeed + 0 + 1) with (baseSeed + Z.pos 1) by lia.
  replace (baseSeed + 0 + 1 + 1) with (baseSeed + Z.pos 2) by lia.
  replace (baseSeed + 0 + 1 + 1 + 1) with (baseSeed + Z.pos 3) by lia.
  replace (baseSeed + 0) with (baseSeed + Z0) by lia.
  reflexivity.
Qed.

(** C9 as stated fails: when the first call of task 0 fails, the request
    ("cat", style 1) leaves the history call 0, timer 1000 ms, call 0,
    call 1, call 2, call 3; task 1 is first called after the backoff timer
    of task 0, which delayed it. *)
Lemma backoff_delays_next_task :
  ~ (forall replicate_run p,
        launches_before_sleeps
          (snd (handler sample_gt no_text replicate_run (JStr p) (JNum 1)
                  JUndefined []))).
Proof.
  intros claim. specialize (claim first_fails (lit "cat")).
  remember (snd (handler sample_gt no_text first_fails (JStr (lit "cat"))
                   (JNum 1) JUndefined [])) as tr eqn:E.
  vm_compute in E.
  match type of E with
  | tr = ?c0 :: EvSleep ?ms :: ?c0' :: EvCall ?fp1 ?s1 :: ?rest =>
      destruct (claim [c0] ms (c0' :: EvCall fp1 s1 :: rest) E fp1 s1)
        as [fp' Hin]
  end.
  - right; left; reflexivity.
  - destruct Hin as [Hin | []]. discriminate Hin.
Qed.

(* ------------------------------------------------------------------ *)
(** ** Facts on the tasks of a request *)

Lemma validated_request gt prompt style brandColors :
  validateInput gt prompt style brandColors = Return [] ->
  exists p key m,
    prompt = JStr p
    /\ ToString style = Return key
    /\ STYLE_PROMPTS_get style = Return m
    /\ (truthy brandColors = false \/ exists l, brandColors = JArr l).
Proof.
  intros H.
  destruct (validateInput_inv _ _ _ _ _ H)
    as (c2 & c3 & c5 & _ & H3 & _ & Hin).
  assert (Hp : prompt_missing prompt = false).
  { destruct (prompt_missing prompt) eqn:E; [| reflexivity].
    exfalso. apply (proj2 (Hin msg_prompt_required)). left. split; reflexivity. }
  assert (Hs : c3 = false).
  { destruct c3; [| reflexivity].
    exfalso. apply (proj2 (Hin msg_style)). right; right; left.
    split; reflexivity. }
  assert (Hc : truthy brandColors && negb (isArray brandColors) = false).
  { destruct (truthy brandColors && negb (isArray brandColors)) eqn:E;
      [| reflexivity].
    exfalso. apply (proj2 (Hin msg_colors_array)). right; right; right; left.
    split; reflexivity. }
  subst c3. unfold style_invalid in H3.
  destruct (truthy style); cbn [negb] in H3; [| discriminate H3].
  destruct (STYLE_PROMPTS_get style) as [m |] eqn:G; [| discriminate H3].
  assert (exists key, ToString style = Return key) as [key K].
  { unfold STYLE_PROMPTS_get in G.
    destruct (ToString style) as [key |]; [eauto | discriminate G]. }
  destruct prompt as [| | b | z | p | l | ps];
    try (unfold prompt_missing in Hp; rewrite orb_true_r in Hp; discriminate Hp).
  exists p, key, m. repeat split; try assumption.
  destruct (truthy brandColors); [right | left; reflexivity].
  destruct brandColors; try discriminate Hc. eauto.
Qed.


(** The history of a validated request is that of its generation loop. *)
Lemma handler_trace gt inherited_text replicate_run p style brandColors
  m b colors w :
  validateInput gt (JStr p) style brandColors = Return [] ->
  STYLE_PROMPTS_get style = Return m ->
  generateSeed (trim p) style = Return b ->
  color_instruction gt brandColors = Return colors ->
  snd (handler gt inherited_text replicate_run (JStr p) style brandColors w)
  = snd (generate_icons inherited_text replicate_run (JStr p) m colors b
           ICON_VARIATIONS 0 [] [] w).
Proof.
  intros Hv Hm Hb Hc.
  unfold handler, try_catch, handler_try. unfold bind at 1, lift at 1.
  rewrite Hv. cbn [length Nat.ltb Nat.leb].
  unfold bind at 1, lift at 1. rewrite Hm.
  unfold bind at 1, lift at 1. cbn [String_trim].
  unfold bind at 1, lift at 1. rewrite Hb.
  unfold bind at 1, lift at 1. rewrite Hc.
  unfold bind at 1.
  destruct (generate_icons_outcomes inherited_text replicate_run (JStr p) m
              colors b ICON_VARIATIONS 0 [] [] w)
    as (results & errors & w' & Hrun & _).
  rewrite Hrun. cbn [fst snd app]. unfold lift, ret.
  destruct (batch_response results errors); reflexivity.
Qed.

Lemma prompt_text_parts inherited_text p variation m colors clause :
  (clause = [] /\ colors = []
   \/ exists joined, clause = [color_clause joined]
                     /\ colors = lit ", " ++ color_clause joined) ->
  prompt_text inherited_text p variation m colors
  = comma_join ([p ++ lit " icon"; variation; member_text inherited_text m]
                ++ clause ++ [rendering_suffix]).
Proof.
  unfold prompt_text.
  change (lit " icon, ") with (lit " icon" ++ lit ", ").
  change prompt_suffix with (lit ", " ++ rendering_suffix).
  intros [[-> ->] | (joined & -> & ->)]; cbn [app comma_join];
    rewrite <- !app_assoc; reflexivity.
Qed.

(** C3 (amended).  For a validated request whose colour list has a string
    form, the handler sends exactly four tasks in index order; task [i] has
    seed [b + i], [b] the seed of the trimmed prompt and the style, so the
    four seeds differ; its prompt joins, in this order, the prompt as
    received (not trimmed) followed by " icon", the i-th variation, the
    style descriptor, the colour clause exactly when [brandColors] is a
    non-empty array, and the fixed rendering suffix. *)
Theorem handler_tasks gt inherited_text replicate_run prompt style
  brandColors colors w :
  validateInput gt prompt style brandColors = Return [] ->
  color_instruction gt brandColors = Return colors ->
  exists p m b clause ns,
    prompt = JStr p
    /\ STYLE_PROMPTS_get style = Return m
    /\ generateSeed (trim p) style = Return b
    /\ match brandColors with
       | JArr (c :: cs) =>
           exists joined,
             Array_join (lit ", ") (c :: cs) = Return joined
             /\ clause = [color_clause joined]
       | _ => clause = []
       end
    /\ NoDup (map snd
                (planned_tasks p (member_text inherited_text m) clause b))
    /\ length ns = 4%nat
    /\ Forall (fun n => (1 <= n <= 3)%nat) ns
    /\ snd (handler gt inherited_text replicate_run prompt style
              brandColors w)
       = w ++ batch_trace
                (planned_tasks p (member_text inherited_text m) clause b) ns.
Proof.
  intros Hv Hc.
  destruct (validated_request _ _ _ _ Hv) as (p & key & m & -> & K & G & Hbc).
  assert (Hb : generateSeed (trim p) style
               = Return (Z.abs (seed_loop (trim p ++ lit "-" ++ key)))).
  { unfold generateSeed. rewrite K. reflexivity. }
  assert (Hclause : exists clause,
             match brandColors with
             | JArr (c :: cs) =>
                 exists joined,
                   Array_join (lit ", ") (c :: cs) = Return joined
                   /\ clause = [color_clause joined]
             | _ => clause = []
             end
             /\ (clause = [] /\ colors = []
                 \/ exists joined, clause = [color_clause joined]
                                   /\ colors = lit ", " ++ color_clause joined)).
  { unfold color_instruction in Hc.
    destruct Hbc as [F | [l ->]].
    - rewrite longer_falsy in Hc by exact F. injection Hc as <-.
      exists []. split; [| left; split; reflexivity].
      destruct brandColors as [| | | | | [| c cs] |]; try reflexivity.
      discriminate F.
    - rewrite longer_array in Hc. cbn [obind] in Hc.
      destruct l as [| c cs].
      + injection Hc as <-. exists []. split; [reflexivity | left; split; reflexivity].
      + change (0 <? Z.of_nat (length (c :: cs))) with true in Hc.
        cbv iota in Hc. unfold join_method in Hc.
        destruct (Array_join (lit ", ") (c :: cs)) as [joined |];
          [| discriminate Hc].
        cbn [obind] in Hc. injection Hc as <-.
        exists [color_clause joined]. split; [eauto |].
        right. exists joined. split; reflexivity. }
  destruct Hclause as (clause & Hshape & Hparts).
  destruct (generate_icons_trace inherited_text replicate_run m colors
              (Z.abs (seed_loop (trim p ++ lit "-" ++ key))) p
              ICON_VARIATIONS 0 [] [] w)
    as (ns & Hlen & Hns & Htr).
  exists p, m, (Z.abs (seed_loop (trim p ++ lit "-" ++ key))), clause, ns.
  split; [reflexivity |]. split; [exact G |]. split; [exact Hb |].
  split; [exact Hshape |]. split.
  { unfold planned_tasks. cbn [map snd Z.of_nat].
    repeat constructor; cbn [In]; lia. }
  split; [exact Hlen |]. split; [exact Hns |].
  rewrite (handler_trace gt inherited_text replicate_run p style
             brandColors m _ colors w Hv G Hb Hc), Htr.
  f_equal. f_equal.
  unfold planned_tasks. cbn [plan_from ICON_VARIATIONS map nth Z.of_nat].
  rewrite !(prompt_text_parts inherited_text p _ m colors clause Hparts).
  repeat (f_equal; try lia).
Qed.

Lemma handler_tasks_witness :
  let prompt := JStr (lit "cat") in
  let style := JNum 1 in
  let brandColors := JArr [JStr (lit "#fff")] in
  validateInput sample_gt prompt style brandColors = Return []
  /\ color_instruction sample_gt brandColors
     = Return (lit ", using these exact colors: #fff, maintain color consistency")
  /\ exists p m b clause ns,
       prompt = JStr p
       /\ STYLE_PROMPTS_get style = Return m
       /\ generateSeed (trim p) style = Return b
       /\ (exists joined,
             Array_join (lit ", ") [JStr (lit "#fff")] = Return joined
             /\ clause = [color_clause joined])
       /\ NoDup (map snd (planned_tasks p (member_text no_text m) clause b))
       /\ length ns = 4%nat
       /\ Forall (fun n => (1 <= n <= 3)%nat) ns
       /\ snd (handler sample_gt no_text always_ok prompt style brandColors [])
          = [] ++ batch_trace
                    (planned_tasks p (member_text no_text m) clause b) ns.
Proof.
  split; [reflexivity |]. split; [reflexivity |].
  apply (handler_tasks sample_gt no_text always_ok (JStr (lit "cat"))
           (JNum 1) (JArr [JStr (lit "#fff")])
           (lit ", using these exact colors: #fff, maintain color consistency")
           []);
    reflexivity.
Defined.

(** C3 as stated fails: the request with prompt " cat" (a leading space)
    and style 1 is valid, and the prompt of its first task starts with
    " cat icon", the prompt as received, not with "cat icon". *)
Lemma handler_sends_untrimmed_prompt :
  ~ (forall gt inherited_text replicate_run p style brandColors w,
        validateInput gt (JStr p) style brandColors = Return [] ->
        Forall (fun ev =>
                  match ev with
                  | EvCall fullPrompt _ =>
                      starts_with (trim p ++ lit " icon") fullPrompt = true
                  | EvSleep _ => True
                  end)
          (snd (handler gt inherited_text replicate_run (JStr p) style
                  brandColors w))).
Proof.
  intros claim.
  specialize (claim sample_gt no_text always_ok (lit " cat") (JNum 1)
                JUndefined [] eq_refl).
  remember (snd (handler sample_gt no_text always_ok (JStr (lit " cat"))
                   (JNum 1) JUndefined [])) as tr eqn:E.
  vm_compute in E. subst tr.
  inversion claim as [| ev rest Hhead _]. vm_compute in Hhead.
  discriminate Hhead.
Qed.

(* ------------------------------------------------------------------ *)
(** ** Facts on the response *)

Lemma insert_by_index_perm r l : Permutation (insert_by_index r l) (r :: l).
Proof.
  induction l as [| x l IH]; cbn [insert_by_index].
  - apply Permutation_refl.
  - destruct (r_index r <=? r_index x).
    + apply Permutation_refl.
    + eapply perm_trans; [apply perm_skip, IH | apply perm_swap].
Qed.

Lemma sort_by_index_perm l : Permutation (sort_by_index l) l.
Proof.
  induction l as [| r l IH]; cbn [sort_by_index fold_right].
  - constructor.
  - eapply perm_trans; [apply insert_by_index_perm | apply perm_skip, IH].
Qed.

Lemma insert_by_index_sorted r l :
  StronglySorted by_index l -> StronglySorted by_index (insert_by_index r l).
Proof.
  induction l as [| x l IH]; intros Hs; cbn [insert_by_index].
  - repeat constructor.
  - inversion Hs as [| ? ? Hl Hx]; subst.
    destruct (Z.leb_spec (r_index r) (r_index x)) as [Hle | Hgt].
    + constructor; [exact Hs |]. constructor; [exact Hle |].
      eapply Forall_impl; [| exact Hx]. unfold by_index. intros; lia.
    + constructor; [apply IH, Hl |].
      eapply Permutation_Forall;
        [apply Permutation_sym, insert_by_index_perm |].
      constructor; [unfold by_index; lia | exact Hx].
Qed.

Lemma sort_by_index_sorted l : StronglySorted by_index (sort_by_index l).
Proof.
  induction l as [| r l IH]; cbn [sort_by_index fold_right].
  - constructor.
  - apply insert_by_index_sorted, IH.
Qed.

Lemma JSON_stringify_icons l :
  map (fun x => match x with
                | JUndefined => JNull
                | _ => JSON_stringify x
                end) (map icon_json l)
  = map icon_json l.
Proof. rewrite map_map. apply map_ext. reflexivity. Qed.

Lemma JSON_stringify_errors l :
  map (fun x => match x with
                | JUndefined => JNull
                | _ => JSON_stringify x
                end) (map error_json l)
  = map error_json l.
Proof. rewrite map_map. apply map_ext. reflexivity. Qed.

(** C1.  With fewer than two successes the batch ends in an exception whose
    message carries the count of successes against 4, and the response made
    of it has status 500 and no icons, only [error] and [details].  From two
    successes on the response has status 200 and [success: true]; [icons]
    are all the successful results in ascending order of index, each with
    its url, prompt and seed; [partial] is true exactly when fewer than 4
    succeeded; [errors] lists the failures by index and is present exactly
    when there is one. *)
Theorem batch_response_contract (results : list icon_result)
  (errors : list icon_error) :
  let k := length results in
  if (k <? 2)%nat then
    exists msg,
      msg = lit "Failed to generate sufficient icons. Only "
            ++ Number_toString (Z.of_nat k) ++ lit "/4 succeeded."
      /\ batch_response results errors = Throw (Error msg)
      /\ error_response (Error msg)
         = {| statusCode := 500;
              body := JObj [ (lit "error",
                              JStr (lit "Failed to generate icons"));
                             (lit "details", JStr msg) ] |}
  else
    exists sorted,
      Permutation sorted results
      /\ StronglySorted by_index sorted
      /\ batch_response results errors
         = Return
             {| statusCode := 200;
                body :=
                  JObj ([ (lit "success", JBool true);
                          (lit "icons", JArr (map icon_json sorted));
                          (lit "partial", JBool (k <? 4)%nat) ]
                        ++ match errors with
                           | [] => []
                           | _ :: _ =>
                               [(lit "errors", JArr (map error_json errors))]
                           end) |}.
Proof.
  intros k. subst k. unfold batch_response.
  destruct results as [| r0 [| r1 results]].
  - cbn [length Nat.ltb Nat.leb]. eexists. split; [reflexivity |].
    split; reflexivity.
  - cbn [length Nat.ltb Nat.leb]. eexists. split; [reflexivity |].
    split; reflexivity.
  - change ((length (r0 :: r1 :: results) <? 2)%nat) with false.
    change ((2 <=? length (r0 :: r1 :: results))%nat) with true.
    cbv iota.
    exists (sort_by_index (r0 :: r1 :: results)).
    split; [apply sort_by_index_perm |].
    split; [apply sort_by_index_sorted |].
    cbn [JSON_stringify]. rewrite JSON_stringify_icons.
    destruct errors as [| e errors].
    + reflexivity.
    + change ((0 <? length (e :: errors))%nat) with true. cbv iota.
      cbn [JSON_stringify]. rewrite JSON_stringify_errors. reflexivity.
Qed.

Lemma starts_with_spec sub :
  forall s, starts_with sub s = true <-> exists post, s = sub ++ post.
Proof.
  induction sub as [| a sub IH]; intros s.
  - cbn. split; [intros _; exists s; reflexivity | reflexivity].
  - destruct s as [| b s]; cbn [starts_with].
    + split; [discriminate | intros [post H]; discriminate H].
    + rewrite andb_true_iff, Z.eqb_eq, IH. split.
      * intros [-> [post ->]]. exists post. reflexivity.
      * intros [post H]. injection H as -> ->. split; [reflexivity | eauto].
Qed.

Lemma includes_spec sub :
  forall s, includes s sub = true <-> Substring sub s.
Proof.
  unfold Substring. induction s as [| c s IH].
  - cbn [includes]. rewrite orb_false_r, starts_with_spec. split.
    + intros [post H]. exists [], post. exact H.
    + intros (pre & post & H). destruct pre as [| x pre]; [| discriminate H].
      exists post. exact H.
  - cbn [includes]. rewrite orb_true_iff, starts_with_spec, IH. split.
    + intros [[post H] | (pre & post & H)].
      * exists [], post. exact H.
      * exists (c :: pre), post. rewrite H. reflexivity.
    + intros (pre & post & H). destruct pre as [| x pre].
      * left. exists post. exact H.
      * right. injection H as -> ->. eauto.
Qed.

(** Whatever exception ends the [try] block, the handler answers with the
    error response made of it. *)
Lemma handler_catches gt inherited_text replicate_run prompt style
  brandColors w error w' :
  handler_try gt inherited_text replicate_run prompt style brandColors w
  = (Throw error, w') ->
  handler gt inherited_text replicate_run prompt style brandColors w
  = (Return (error_response error), w').
Proof. intros H. unfold handler, try_catch. rewrite H. reflexivity. Qed.

(** The outer [catch] on the error it is given: the response carries the
    message as [details], and its status and [error] text are chosen by the
    first substring found in the message, tried in this order: "API key"
    gives 503, else "timeout" gives 504, else "rate limit" gives 429, else
    500. *)
Lemma error_response_status (error : exn) :
  let m := message error in
  exists errorMessage,
    body (error_response error)
    = JObj [ (lit "error", JStr errorMessage); (lit "details", JStr m) ]
    /\ (Substring (lit "API key") m ->
        statusCode (error_response error) = 503
        /\ errorMessage = lit "API configuration error")
    /\ (~ Substring (lit "API key") m -> Substring (lit "timeout") m ->
        statusCode (error_response error) = 504
        /\ errorMessage = lit "Request timeout - please try again")
    /\ (~ Substring (lit "API key") m -> ~ Substring (lit "timeout") m ->
        Substring (lit "rate limit") m ->
        statusCode (error_response error) = 429
        /\ errorMessage = lit "Rate limit exceeded - please wait a moment")
    /\ (~ Substring (lit "API key") m -> ~ Substring (lit "timeout") m ->
        ~ Substring (lit "rate limit") m ->
        statusCode (error_response error) = 500
        /\ errorMessage = lit "Failed to generate icons").
Proof.
  intros m. subst m. unfold error_response.
  pose proof (includes_spec (lit "API key") (message error)) as Ha.
  pose proof (includes_spec (lit "timeout") (message error)) as Ht.
  pose proof (includes_spec (lit "rate limit") (message error)) as Hr.
  destruct (includes (message error) (lit "API key")).
  { eexists. split; [reflexivity |]. cbn [statusCode].
    repeat split; intros; try reflexivity;
      exfalso; intuition congruence. }
  destruct (includes (message error) (lit "timeout")).
  { eexists. split; [reflexivity |]. cbn [statusCode].
    repeat split; intros; try reflexivity;
      exfalso; intuition congruence. }
  destruct (includes (message error) (lit "rate limit")).
  { eexists. split; [reflexivity |]. cbn [statusCode].
    repeat split; intros; try reflexivity;
      exfalso; intuition congruence. }
  eexists. split; [reflexivity |]. cbn [statusCode].
  repeat split; intros; try reflexivity; exfalso; intuition congruence.
Qed.

(* ------------------------------------------------------------------ *)
(** ** Facts on the basic handlers *)

Lemma first_rejection_none {A} (ps : list (Basic.promise A)) :
  Basic.first_rejection ps = None ->
  Forall (fun p => exists v, Basic.settles p = Return v) ps
  /\ length (Basic.fulfilled ps) = length ps.
Proof.
  induction ps as [| p ps IH]; cbn [Basic.first_rejection Basic.fulfilled].
  - intros _. split; [constructor | reflexivity].
  - destruct (Basic.settles p) as [v | e] eqn:E.
    + intros H. destruct (IH H) as [Hall Hlen]. split.
      * constructor; [exists v; exact E | exact Hall].
      * cbn [length]. congruence.
    + destruct (Basic.first_rejection ps) as [[t e'] |];
        [destruct (Basic.at_time p <=? t)%nat |]; discriminate.
Qed.

Lemma first_rejection_some {A} (ps : list (Basic.promise A)) :
  Exists (fun p => is_throw (Basic.settles p)) ps ->
  exists t e, Basic.first_rejection ps = Some (t, e)
              /\ In (Throw e) (map Basic.settles ps).
Proof.
  induction ps as [| p ps IH]; intros H; [inversion H |].
  cbn [Basic.first_rejection map In].
  destruct (Basic.settles p) as [v | e] eqn:E.
  - inversion H as [? ? Hp | ? ? Hps]; subst.
    + rewrite E in Hp. destruct Hp.
    + destruct (IH Hps) as (t & e & -> & Hin). eauto.
  - destruct (Basic.first_rejection ps) as [[t e'] |] eqn:F.
    + destruct (Basic.at_time p <=? t)%nat; [eauto |].
      exists t, e'. split; [reflexivity | right].
      assert (Hex : Exists (fun p => is_throw (Basic.settles p)) ps).
      { clear - F. induction ps as [| q ps IH]; [discriminate F |].
        cbn [Basic.first_rejection] in F.
        destruct (Basic.settles q) eqn:Q.
        - right. apply IH, F.
        - left. rewrite Q. exact I. }
      destruct (IH Hex) as (t2 & e2 & F2 & Hin).
      injection F2 as E1 E2. subst t2 e2. exact Hin.
    + eauto.
Qed.

Lemma basic_sort_length l :
  length (Basic.sort_by_index l) = length l.
Proof.
  induction l as [| r l IH]; [reflexivity |].
  cbn [Basic.sort_by_index fold_right length].
  fold (Basic.sort_by_index l). rewrite <- IH.
  generalize (Basic.sort_by_index l). clear. intros s.
  induction s as [| x s IH]; cbn [Basic.insert_by_index]; [reflexivity |].
  destruct (Basic.r_index r <=? Basic.r_index x); cbn [length]; congruence.
Qed.

Lemma basic_stringify_icons l :
  map (fun x => match x with
                | JUndefined => JNull
                | _ => JSON_stringify x
                end) (map Basic.icon_json l)
  = map Basic.icon_json l.
Proof. rewrite map_map. apply map_ext. reflexivity. Qed.

(** C10.  The basic Netlify handler and the Express route answer alike.  A
    response with status 200 carries exactly four icons, each with [url] and
    [prompt] and no [seed], and then every one of the four promises was
    fulfilled.  When the four calls are launched and one of the promises is
    rejected, in particular when the call of some variation fails, the
    response is the failure with status 500, [error] and [details], and no
    icons.  Each variation has one promise with at most one call: there is
    no retry. *)
Theorem basic_handlers_all_or_nothing
  (inherited_text : jsstring -> jsstring)
  (replicate_run : Z -> jsstring -> Basic.promise output)
  (prompt style brandColors : jsval) :
  let r := Basic.netlify_handler inherited_text replicate_run prompt style
             brandColors in
  let promises_of := Basic.promises inherited_text replicate_run prompt in
  Basic.express_route inherited_text replicate_run prompt style brandColors
  = r
  /\ (statusCode r = 200 ->
      exists results m colors,
        length results = 4%nat
        /\ body r = JObj [ (lit "success", JBool true);
                           (lit "icons", JArr (map Basic.icon_json results)) ]
        /\ Forall (fun icon =>
                     match icon with
                     | JObj props => own_property (lit "seed") props = None
                     | _ => False
                     end) (map Basic.icon_json results)
        /\ STYLE_PROMPTS_get style = Return m
        /\ Basic.color_instruction brandColors = Return colors
        /\ Forall (fun p => exists v, Basic.settles p = Return v)
             (promises_of m colors))
  /\ (forall m colors,
        truthy prompt = true -> truthy style = true ->
        STYLE_PROMPTS_get style = Return m -> member_truthy m = true ->
        Basic.color_instruction brandColors = Return colors ->
        length (promises_of m colors) = 4%nat
        /\ (Exists (fun p => is_throw (Basic.settles p)) (promises_of m colors) ->
            exists error,
              In (Throw error) (map Basic.settles (promises_of m colors))
              /\ statusCode r = 500
              /\ body r = JObj [ (lit "error",
                                  JStr (lit "Failed to generate icons"));
                                 (lit "details", JStr (message error)) ])
        /\ (forall i variation fullPrompt,
              nth_error ICON_VARIATIONS i = Some variation ->
              Basic.full_prompt inherited_text prompt variation m colors
              = Return fullPrompt ->
              is_throw (Basic.settles (replicate_run (Z.of_nat i) fullPrompt)) ->
              Exists (fun p => is_throw (Basic.settles p))
                (promises_of m colors))).
Proof.
  intros r promises_of. split; [reflexivity |]. split.
  - subst r. unfold Basic.netlify_handler, Basic.generate_try.
    destruct (negb (truthy prompt) || negb (truthy style));
      [cbn; discriminate |].
    destruct (STYLE_PROMPTS_get style) as [m |]; [| cbn; discriminate].
    cbn [obind].
    destruct (negb (member_truthy m)); [cbn; discriminate |].
    destruct (Basic.color_instruction brandColors) as [colors |];
      [| cbn; discriminate].
    cbn [obind]. unfold Basic.Promise_all.
    destruct (Basic.first_rejection
                (Basic.promises inherited_text replicate_run prompt m colors))
      as [[t e] |] eqn:F; [cbn; discriminate |].
    cbn [obind]. intros _.
    destruct (first_rejection_none _ F) as [Hall Hlen].
    exists (Basic.sort_by_index
              (Basic.fulfilled
                 (Basic.promises inherited_text replicate_run prompt m colors))),
      m, colors.
    split; [rewrite basic_sort_length, Hlen; reflexivity |].
    split.
    { unfold Basic.respond. cbn [body JSON_stringify].
      rewrite basic_stringify_icons. reflexivity. }
    split; [| split; [reflexivity | split; [reflexivity | exact Hall]]].
    apply Forall_forall. intros icon Hin. apply in_map_iff in Hin.
    destruct Hin as (x & <- & _). reflexivity.
  - intros m colors Hp Hs Hm Ht Hc. split; [reflexivity |]. split.
    + intros Hex.
      destruct (first_rejection_some _ Hex) as (t & e & F & Hin).
      exists e. split; [exact Hin |].
      subst r. unfold Basic.netlify_handler, Basic.generate_try.
      rewrite Hp, Hs, Hm. cbn [negb orb obind]. rewrite Ht, Hc.
      cbn [negb obind]. unfold Basic.Promise_all.
      fold (promises_of m colors). rewrite F. cbn [obind].
      split; reflexivity.
    + intros i variation fullPrompt Hnth Hfp Hfail.
      assert (Hgen : is_throw
                (Basic.settles
                   (Basic.generate inherited_text replicate_run prompt m
                      colors variation (Z.of_nat i)))).
      { unfold Basic.generate. rewrite Hfp. cbn [Basic.settles].
        destruct (Basic.settles (replicate_run (Z.of_nat i) fullPrompt));
          [destruct Hfail | exact I]. }
      subst promises_of. unfold Basic.promises.
      cbn [ICON_VARIATIONS Basic.map_indexed].
      destruct i as [| [| [| [| i]]]]; cbn [nth_error ICON_VARIATIONS] in Hnth;
        try (injection Hnth as <-).
      * apply Exists_cons_hd. exact Hgen.
      * apply Exists_cons_tl, Exists_cons_hd. exact Hgen.
      * do 2 apply Exists_cons_tl. apply Exists_cons_hd. exact Hgen.
      * do 3 apply Exists_cons_tl. apply Exists_cons_hd. exact Hgen.
      * destruct i; discriminate Hnth.
Qed.

Lemma basic_handlers_all_or_nothing_witness :
  let r := Basic.netlify_handler no_text third_fails (JStr (lit "cat"))
             (JNum 1) JUndefined in
  exists error,
    statusCode r = 500
    /\ body r = JObj [ (lit "error", JStr (lit "Failed to generate icons"));
                       (lit "details", JStr (message error)) ].
Proof.
  destruct (basic_handlers_all_or_nothing no_text third_fails
              (JStr (lit "cat")) (JNum 1) JUndefined) as (_ & _ & H).
  destruct (H _ _ eq_refl eq_refl eq_refl eq_refl eq_refl)
    as (_ & Hfail & Hcall).
  destruct (Hfail (Hcall 2%nat _ _ eq_refl eq_refl I))
    as (error & _ & Hs & Hb).
  exists error. split; assumption.
Defined.


(* ------------------------------------------------------------------ *)
(** ** The cases of [generate-icons.test.js], and two batches run through *)

Example test_same_seed :
  generateSeed (lit "coffee") (JNum 1) = generateSeed (lit "coffee") (JNum 1).
Proof. reflexivity. Qed.

Example test_different_prompts :
  generateSeed (lit "coffee") (JNum 1) <> generateSeed (lit "tea") (JNum 1).
Proof. vm_compute. discriminate. Qed.

Example test_different_styles :
  generateSeed (lit "coffee") (JNum 1) <> generateSeed (lit "coffee") (JNum 2).
Proof. vm_compute. discriminate. Qed.

Example test_valid_input :
  validateInput sample_gt (JStr (lit "coffee")) (JNum 1)
    (JArr [JStr (lit "#FF5733")])
  = Return [].
Proof. reflexivity. Qed.

Example test_empty_prompt :
  validateInput sample_gt (JStr []) (JNum 1) (JArr [])
  = Return [msg_prompt_required].
Proof. reflexivity. Qed.

Example test_long_prompt :
  validateInput sample_gt (JStr (repeat 97 201)) (JNum 1) (JArr [])
  = Return [msg_prompt_long].
Proof. vm_compute. reflexivity. Qed.

Example test_invalid_style :
  validateInput sample_gt (JStr (lit "coffee")) (JNum 99) (JArr [])
  = Return [msg_style].
Proof. reflexivity. Qed.

Example test_non_array_colors :
  validateInput sample_gt (JStr (lit "coffee")) (JNum 1)
    (JStr (lit "not-an-array"))
  = Return [msg_colors_array; msg_colors_many].
Proof. reflexivity. Qed.

Example test_too_many_colors :
  validateInput sample_gt (JStr (lit "coffee")) (JNum 1)
    (JArr (map (fun c => JStr (lit c))
             ["#FF5733"; "#C70039"; "#900C3F"; "#581845"; "#DAF7A6";
              "#FFC300"]%string))
  = Return [msg_colors_many].
Proof. reflexivity. Qed.

Example test_null_colors :
  validateInput sample_gt (JStr (lit "coffee")) (JNum 1) JNull = Return [].
Proof. reflexivity. Qed.

(** The fourth task fails three times and the others succeed: a partial
    success with three icons and one error, for index 3, after six calls. *)
Example handler_partial_success :
  exists r tr i0 i1 i2,
    handler sample_gt no_text fails_variation_4 (JStr (lit "Toys")) (JNum 1)
      (JArr [JStr (lit "#FF5733")]) []
    = (Return r, tr)
    /\ statusCode r = 200
    /\ body r
       = JObj [ (lit "success", JBool true);
                (lit "icons", JArr [i0; i1; i2]);
                (lit "partial", JBool true);
                (lit "errors",
                 JArr [JObj [ (lit "index", JNum 3);
                              (lit "error", JStr (lit "Prediction failed")) ]]) ]
    /\ count_calls tr = 6%nat
    /\ sleeps tr = [1000; 2000].
Proof. vm_compute. do 5 eexists. repeat split. Qed.

(** Three of the four tasks fail: status 500 and no icons. *)
Example handler_insufficient_results :
  exists tr,
    handler sample_gt no_text only_variation_1 (JStr (lit "Toys")) (JNum 1)
      JUndefined []
    = (Return
         {| statusCode := 500;
            body := JObj [ (lit "error", JStr (lit "Failed to generate icons"));
                           (lit "details",
                            JStr (lit "Failed to generate sufficient icons. Only 1/4 succeeded.")) ] |},
       tr)
    /\ count_calls tr = 10%nat.
Proof. vm_compute. eexists. split; reflexivity. Qed.

(* ------------------------------------------------------------------ *)
(** ** Further facts on retryWithBackoff: any number of retries *)






(* ------------------------------------------------------------------ *)
(** ** Facts on [exports.handler] *)

Section ExportsFacts.

Variable gt : jsstring -> Z -> bool.
Variable inherited_text : jsstring -> jsstring.
Variable replicate_run : World -> outcome output.

Local Abbreviation exports := (exports_handler gt inherited_text replicate_run).
Local Abbreviation handle := (handler gt inherited_text replicate_run).
Local Abbreviation try_block := (handler_try gt inherited_text replicate_run).

(** The handler always completes normally: its [catch] turns every
    exception of the [try] block into a response. *)
Lemma handler_returns prompt style brandColors w :
  exists r w', handle prompt style brandColors w = (Return r, w').
Proof.
  unfold handler, try_catch.
  destruct (try_block prompt style brandColors w) as [[r | error] w'];
    unfold ret; eauto.
Qed.

(** On a POST, [exports.handler] is the handler on the request fields, with
    the headers added. *)
Lemma exports_handler_cases e w :
  exports e w =
  if strict_equals (ev_httpMethod e) (lit "OPTIONS") then (Return preflight, w)
  else if strict_equals (ev_httpMethod e) (lit "POST") then
    match request_fields e with
    | Throw error => (Return (with_headers (error_response error)), w)
    | Return fields =>
        match handle (fst (fst fields)) (snd (fst fields)) (snd fields) w with
        | (Return r, w') => (Return (with_headers r), w')
        | (Throw error, w') => (Throw error, w')
        end
    end
  else (Return method_not_allowed, w).
Proof.
  unfold exports_handler, request_fields.
  destruct (strict_equals (ev_httpMethod e) (lit "OPTIONS")); [reflexivity |].
  destruct (strict_equals (ev_httpMethod e) (lit "POST")); [| reflexivity].
  cbn [negb]. unfold bind at 1, try_catch at 1, bind at 1, lift at 1.
  destruct (obind (ev_body e) destructure_request) as [fields | error].
  - unfold handler, try_catch.
    destruct (try_block _ _ _ w) as [[r | error] w']; reflexivity.
  - reflexivity.
Qed.

Lemma handler_try_status prompt style brandColors w r w' :
  try_block prompt style brandColors w = (Return r, w') ->
  statusCode r = 200 \/ statusCode r = 400.
Proof.
  unfold handler_try. unfold bind at 1, lift at 1.
  destruct (validateInput gt prompt style brandColors) as [errs |];
    [| discriminate].
  destruct (0 <? length errs)%nat.
  { unfold ret. intros H. injection H as <- _. right. reflexivity. }
  unfold bind at 1, lift at 1.
  destruct (STYLE_PROMPTS_get style); [| discriminate].
  unfold bind at 1, lift at 1.
  destruct (String_trim prompt); [| discriminate].
  unfold bind at 1, lift at 1.
  destruct (generateSeed _ style); [| discriminate].
  unfold bind at 1, lift at 1.
  destruct (color_instruction gt brandColors); [| discriminate].
  unfold bind at 1.
  destruct (generate_icons _ _ _ _ _ _ _ _ _ _ w) as [[collected |] w1];
    [| discriminate].
  unfold lift, batch_response.
  destruct (2 <=? length (fst collected))%nat; [| discriminate].
  intros H. injection H as <- _. left. reflexivity.
Qed.

Lemma error_response_statuses error :
  In (statusCode (error_response error)) [429; 500; 503; 504].
Proof.
  unfold error_response.
  destruct (includes (message error) (lit "API key")); [cbn; tauto |].
  destruct (includes (message error) (lit "timeout")); [cbn; tauto |].
  destruct (includes (message error) (lit "rate limit")); cbn; tauto.
Qed.

Lemma handler_status prompt style brandColors w r w' :
  handle prompt style brandColors w = (Return r, w') ->
  In (statusCode r) [200; 400; 429; 500; 503; 504].
Proof.
  unfold handler, try_catch.
  destruct (try_block prompt style brandColors w) as [[r0 | error] w0] eqn:E.
  - intros H. injection H as <- _.
    destruct (handler_try_status _ _ _ _ _ _ E) as [-> | ->]; cbn; tauto.
  - unfold ret. intros H. injection H as <- _.
    pose proof (error_response_statuses error) as Hin. cbn in Hin |- *. tauto.
Qed.

(** X2.  [exports.handler] never rejects: whatever the method, the body and
    the answers of the image service, it returns a response; the response
    carries the three CORS headers; its status is one of 200, 400, 405, 429,
    500, 503 and 504; its body is empty exactly for an OPTIONS request. *)
Theorem exports_handler_always_replies e w :
  exists r w',
    exports e w = (Return r, w')
    /\ reply_headers r = headers
    /\ In (reply_status r) [200; 400; 405; 429; 500; 503; 504]
    /\ (reply_body r = None
        <-> strict_equals (ev_httpMethod e) (lit "OPTIONS") = true).
Proof.
  rewrite exports_handler_cases.
  destruct (strict_equals (ev_httpMethod e) (lit "OPTIONS")).
  { exists preflight, w. cbn. intuition. }
  destruct (strict_equals (ev_httpMethod e) (lit "POST")).
  - destruct (request_fields e) as [fields | error].
    + destruct (handler_returns (fst (fst fields)) (snd (fst fields))
                  (snd fields) w) as (r & w' & H).
      rewrite H. exists (with_headers r), w'.
      pose proof (handler_status _ _ _ _ _ _ H) as Hin.
      cbn in Hin |- *. intuition; discriminate.
    + exists (with_headers (error_response error)), w.
      pose proof (error_response_statuses error) as Hin.
      cbn in Hin |- *. intuition; discriminate.
  - exists method_not_allowed, w. cbn. intuition; discriminate.
Qed.

End ExportsFacts.

(* ------------------------------------------------------------------ *)
(** ** What a request costs, and which requests cost nothing *)

Lemma count_calls_app a b :
  count_calls (a ++ b) = (count_calls a + count_calls b)%nat.
Proof. unfold count_calls. rewrite filter_app, length_app. reflexivity. Qed.

Lemma sleeps_app a b : sleeps (a ++ b) = sleeps a ++ sleeps b.
Proof. unfold sleeps. apply flat_map_app. Qed.

Lemma total_app a b : total (a ++ b) = total a + total b.
Proof.
  induction a as [| x a IH]; [reflexivity |].
  unfold total in *. cbn [app fold_right]. lia.
Qed.

Lemma task_trace_cost t n :
  (1 <= n <= 3)%nat ->
  count_calls (task_trace t n) = n
  /\ 0 <= total (sleeps (task_trace t n)) <= 3000
  /\ Forall (fun ms => ms = 1000 \/ ms = 2000) (sleeps (task_trace t n)).
Proof.
  intros Hn. unfold task_trace.
  assert (Hcases : n = 1%nat \/ n = 2%nat \/ n = 3%nat) by lia.
  destruct Hcases as [-> | [-> | ->]].
  - change (sleeps (attempts_trace (fst t) (snd t) 0 1)) with (@nil Z).
    split; [reflexivity |]. split; [cbn; lia | constructor].
  - change (sleeps (attempts_trace (fst t) (snd t) 0 2)) with [1000].
    split; [reflexivity |].
    split; [cbn; lia | repeat (constructor; [lia |]); constructor].
  - change (sleeps (attempts_trace (fst t) (snd t) 0 3)) with [1000; 2000].
    split; [reflexivity |].
    split; [cbn; lia | repeat (constructor; [lia |]); constructor].
Qed.

Lemma batch_trace_cost tasks :
  forall ns,
  length ns = length tasks ->
  Forall (fun n => (1 <= n <= 3)%nat) ns ->
  (length tasks <= count_calls (batch_trace tasks ns) <= 3 * length tasks)%nat
  /\ 0 <= total (sleeps (batch_trace tasks ns))
     <= 3000 * Z.of_nat (length tasks)
  /\ Forall (fun ms => ms = 1000 \/ ms = 2000) (sleeps (batch_trace tasks ns)).
Proof.
  induction tasks as [| t tasks IH]; intros ns Hlen Hns.
  - destruct ns; cbn; repeat split; try lia; constructor.
  - destruct ns as [| n ns]; [discriminate Hlen |].
    inversion Hns as [| ? ? Hn Hns']; subst.
    cbn [batch_trace length].
    rewrite count_calls_app, sleeps_app, total_app.
    destruct (task_trace_cost t n Hn) as (Hc & Ht & Hf).
    destruct (IH ns ltac:(cbn in Hlen; lia) Hns') as (Hc' & Ht' & Hf').
    rewrite Hc. repeat split; try lia.
    apply Forall_app. split; assumption.
Qed.

Section CostFacts.

Variable gt : jsstring -> Z -> bool.
Variable inherited_text : jsstring -> jsstring.
Variable replicate_run : World -> outcome output.

Local Abbreviation exports := (exports_handler gt inherited_text replicate_run).
Local Abbreviation handle := (handler gt inherited_text replicate_run).
Local Abbreviation try_block := (handler_try gt inherited_text replicate_run).

(** The history of the [try] block: nothing, or after a validation without
    errors the history of a batch of four tasks. *)
Lemma handler_try_trace prompt style brandColors w :
  exists tr,
    snd (try_block prompt style brandColors w) = w ++ tr
    /\ (tr = []
        \/ validateInput gt prompt style brandColors = Return []
           /\ exists p m colors b ns,
                prompt = JStr p
                /\ generateSeed (trim p) style = Return b
                /\ length ns = 4%nat
                /\ Forall (fun n => (1 <= n <= 3)%nat) ns
                /\ tr = batch_trace
                          (plan_from inherited_text m colors b p
                             ICON_VARIATIONS 0) ns).
Proof.
  unfold handler_try. unfold bind at 1, lift at 1.
  destruct (validateInput gt prompt style brandColors) as [errs | e] eqn:V;
    [| exists []; rewrite app_nil_r; auto].
  destruct errs as [| m errs];
    [| exists []; rewrite app_nil_r; auto].
  cbn [length Nat.ltb Nat.leb].
  destruct (validated_request _ _ _ _ V) as (p & key & m & -> & K & G & _).
  unfold bind at 1, lift at 1. rewrite G.
  unfold bind at 1, lift at 1. cbn [String_trim].
  assert (B : generateSeed (trim p) style
               = Return (Z.abs (seed_loop (trim p ++ lit "-" ++ key)))).
  { unfold generateSeed. rewrite K. reflexivity. }
  unfold bind at 1, lift at 1. rewrite B.
  unfold bind at 1, lift at 1.
  destruct (color_instruction gt brandColors) as [colors |];
    [| exists []; rewrite app_nil_r; auto].
  unfold bind at 1.
  destruct (generate_icons_trace inherited_text replicate_run m colors
              (Z.abs (seed_loop (trim p ++ lit "-" ++ key))) p
              ICON_VARIATIONS 0 [] [] w)
    as (ns & Hlen & Hns & Htr).
  destruct (generate_icons_outcomes inherited_text replicate_run (JStr p) m
              colors (Z.abs (seed_loop (trim p ++ lit "-" ++ key)))
              ICON_VARIATIONS 0 [] [] w)
    as (results & errors & w' & Hrun & _).
  rewrite Hrun in Htr |- *. cbn [fst snd app] in Htr |- *.
  eexists. split.
  - unfold lift. cbn [snd]. exact Htr.
  - right. split; [reflexivity |].
    exists p, m, colors, (Z.abs (seed_loop (trim p ++ lit "-" ++ key))), ns.
    split; [reflexivity |]. split; [exact B |]. split; [exact Hlen |].
    split; [exact Hns |]. reflexivity.
Qed.

Lemma handler_trace_same prompt style brandColors w :
  snd (handle prompt style brandColors w)
  = snd (try_block prompt style brandColors w).
Proof.
  unfold handler, try_catch.
  destruct (try_block prompt style brandColors w) as [[r | error] w'];
    reflexivity.
Qed.

(** The history [exports.handler] adds. *)
Lemma exports_handler_trace e w :
  exists tr,
    snd (exports e w) = w ++ tr
    /\ (tr = []
        \/ strict_equals (ev_httpMethod e) (lit "POST") = true
           /\ exists fields p m colors b ns,
                request_fields e = Return fields
                /\ validateInput gt (fst (fst fields)) (snd (fst fields))
                     (snd fields) = Return []
                /\ fst (fst fields) = JStr p
                /\ generateSeed (trim p) (snd (fst fields)) = Return b
                /\ length ns = 4%nat
                /\ Forall (fun n => (1 <= n <= 3)%nat) ns
                /\ tr = batch_trace
                          (plan_from inherited_text m colors b p
                             ICON_VARIATIONS 0) ns).
Proof.
  rewrite exports_handler_cases.
  destruct (strict_equals (ev_httpMethod e) (lit "OPTIONS"));
    [exists []; rewrite app_nil_r; auto |].
  destruct (strict_equals (ev_httpMethod e) (lit "POST"));
    [| exists []; rewrite app_nil_r; auto].
  destruct (request_fields e) as [fields | error];
    [| exists []; rewrite app_nil_r; auto].
  destruct (handler_try_trace (fst (fst fields)) (snd (fst fields))
              (snd fields) w) as (tr & Htr & Hshape).
  rewrite <- handler_trace_same in Htr.
  exists tr. split.
  - destruct (handle _ _ _ w) as [[r | error] w']; exact Htr.
  - destruct Hshape
      as [-> | (V & p & m & colors & b & ns & Hp & Hb & Hn & Hns & ->)];
      [left; reflexivity |].
    right. split; [reflexivity |]. exists fields, p, m, colors, b, ns.
    repeat split; assumption.
Qed.

(** X3.  One request costs at most twelve calls to the image service and at
    most 12 seconds of backoff: the history it adds has no call at all, or
    between 4 and 12 calls; every wait is 1000 or 2000 ms and the waits add
    up to at most 12000 ms. *)
Theorem exports_handler_cost e w :
  exists tr,
    snd (exports e w) = w ++ tr
    /\ (count_calls tr = 0%nat \/ (4 <= count_calls tr <= 12)%nat)
    /\ Forall (fun ms => ms = 1000 \/ ms = 2000) (sleeps tr)
    /\ 0 <= total (sleeps tr) <= 12000.
Proof.
  destruct (exports_handler_trace e w) as (tr & Htr & Hshape).
  exists tr. split; [exact Htr |].
  destruct Hshape
    as [-> | (_ & fields & p & m & colors & b & ns & _ & _ & _ & _ & Hn & Hns
              & ->)].
  - cbn. repeat split; try lia; auto.
  - destruct (batch_trace_cost
                (plan_from inherited_text m colors b p ICON_VARIATIONS 0) ns
                Hn Hns) as (Hc & Hs & Hf).
    change (length (plan_from inherited_text m colors b p ICON_VARIATIONS 0))
      with 4%nat in Hc, Hs.
    split; [right; lia |]. split; [exact Hf | lia].
Qed.

Lemma JSON_stringify_strings (l : list jsstring) :
  map (fun x => match x with
                | JUndefined => JNull
                | _ => JSON_stringify x
                end) (map JStr l)
  = map JStr l.
Proof. rewrite map_map. apply map_ext. reflexivity. Qed.

(** A response with status 400 comes from the validation alone. *)
Lemma handler_try_400 prompt style brandColors w r w' :
  try_block prompt style brandColors w = (Return r, w') ->
  statusCode r = 400 ->
  w' = w
  /\ exists errors,
       validateInput gt prompt style brandColors = Return errors
       /\ errors <> []
       /\ body r = JObj [ (lit "error", JStr (lit "Validation failed"));
                          (lit "details", JArr (map JStr errors)) ].
Proof.
  unfold handler_try. unfold bind at 1, lift at 1.
  destruct (validateInput gt prompt style brandColors) as [errs |];
    [| discriminate].
  destruct errs as [| m errs].
  - cbn [length Nat.ltb Nat.leb].
    unfold bind at 1, lift at 1.
    destruct (STYLE_PROMPTS_get style); [| discriminate].
    unfold bind at 1, lift at 1.
    destruct (String_trim prompt); [| discriminate].
    unfold bind at 1, lift at 1.
    destruct (generateSeed _ style); [| discriminate].
    unfold bind at 1, lift at 1.
    destruct (color_instruction gt brandColors); [| discriminate].
    unfold bind at 1.
    destruct (generate_icons _ _ _ _ _ _ _ _ _ _ w) as [[collected |] w1];
      [| discriminate].
    unfold lift, batch_response.
    destruct (2 <=? length (fst collected))%nat; [| discriminate].
    intros H Hs. injection H as <- _. discriminate Hs.
  - change (0 <? length (m :: errs))%nat with true. cbv iota. unfold ret.
    intros H _. injection H as <- <-. split; [reflexivity |].
    exists (m :: errs). split; [reflexivity |]. split; [discriminate |].
    cbn [body JSON_stringify]. rewrite JSON_stringify_strings. reflexivity.
Qed.

(** X4.  Only a POST whose body parses, destructures and passes
    [validateInput] without an error reaches the image service or waits:
    when the history grows, all of that holds.  A response with status 400
    leaves the history as it was and lists in [details] the errors of
    [validateInput], at least one; so do, for the history, a response with
    status 405 and the response to an OPTIONS request. *)
Theorem exports_handler_gate e w r w' :
  exports e w = (Return r, w') ->
  (w' <> w ->
   strict_equals (ev_httpMethod e) (lit "POST") = true
   /\ exists fields,
        request_fields e = Return fields
        /\ validateInput gt (fst (fst fields)) (snd (fst fields))
             (snd fields) = Return [])
  /\ (reply_status r = 400 ->
      w' = w
      /\ exists fields errors,
           request_fields e = Return fields
           /\ validateInput gt (fst (fst fields)) (snd (fst fields))
                (snd fields) = Return errors
           /\ errors <> []
           /\ reply_body r
              = Some (JObj [ (lit "error", JStr (lit "Validation failed"));
                             (lit "details", JArr (map JStr errors)) ]))
  /\ (reply_status r = 405
      \/ strict_equals (ev_httpMethod e) (lit "OPTIONS") = true ->
      w' = w).
Proof.
  intros H.
  destruct (exports_handler_trace e w) as (tr & Htr & Hshape).
  rewrite H in Htr. cbn [snd] in Htr.
  split; [| split].
  - intros Hneq.
    destruct Hshape as [-> | (Hpost & fields & _ & _ & _ & _ & _ & F & V & _)].
    + rewrite app_nil_r in Htr. contradiction.
    + split; [exact Hpost | eauto].
  - intros Hstatus. rewrite exports_handler_cases in H.
    destruct (strict_equals (ev_httpMethod e) (lit "OPTIONS"));
      [injection H as <- _; discriminate Hstatus |].
    destruct (strict_equals (ev_httpMethod e) (lit "POST"));
      [| injection H as <- _; discriminate Hstatus].
    destruct (request_fields e) as [fields | error].
    + unfold handler, try_catch in H.
      destruct (try_block _ _ _ w) as [[r0 | error] w0] eqn:E.
      * injection H as <- <-. cbn [reply_status with_headers] in Hstatus.
        destruct (handler_try_400 _ _ _ _ _ _ E Hstatus)
          as (-> & errors & V & Hne & Hbody).
        split; [reflexivity |]. exists fields, errors.
        cbn [reply_body with_headers]. rewrite Hbody. auto.
      * unfold ret in H. injection H as <- _.
        cbn [reply_status with_headers] in Hstatus.
        pose proof (error_response_statuses error) as Hin.
        rewrite Hstatus in Hin. cbn in Hin.
        repeat destruct Hin as [Hin | Hin]; discriminate Hin || destruct Hin.
    + injection H as <- _. cbn [reply_status with_headers] in Hstatus.
      pose proof (error_response_statuses error) as Hin.
      rewrite Hstatus in Hin. cbn in Hin.
      repeat destruct Hin as [Hin | Hin]; discriminate Hin || destruct Hin.
  - intros Hstatus. rewrite exports_handler_cases in H.
    destruct (strict_equals (ev_httpMethod e) (lit "OPTIONS"));
      [injection H as _ <-; reflexivity |].
    destruct Hstatus as [Hstatus | Hstatus]; [| discriminate Hstatus].
    destruct (strict_equals (ev_httpMethod e) (lit "POST"));
      [| injection H as _ <-; reflexivity].
    exfalso.
    destruct (request_fields e) as [fields | error].
    + destruct (handle _ _ _ w) as [[r0 | error] w0] eqn:E;
        [| discriminate H].
      injection H as <- _. cbn [reply_status with_headers] in Hstatus.
      pose proof (handler_status _ _ _ _ _ _ _ _ _ E) as Hin.
      rewrite Hstatus in Hin. cbn in Hin.
      repeat destruct Hin as [Hin | Hin]; discriminate Hin || destruct Hin.
    + injection H as <- _. cbn [reply_status with_headers] in Hstatus.
      pose proof (error_response_statuses error) as Hin.
      rewrite Hstatus in Hin. cbn in Hin.
      repeat destruct Hin as [Hin | Hin]; discriminate Hin || destruct Hin.
Qed.

End CostFacts.

(** An empty prompt is answered 400 with the one error, and nothing is
    asked of the image service. *)
Lemma exports_handler_gate_witness :
  let e := post (JStr []) (JNum 1) JUndefined in
  let r := {| reply_status := 400;
              reply_headers := headers;
              reply_body :=
                Some (JObj [ (lit "error", JStr (lit "Validation failed"));
                             (lit "details",
                              JArr [JStr msg_prompt_required]) ]) |} in
  exports_handler sample_gt no_text always_ok e [] = (Return r, [])
  /\ exists fields errors,
       request_fields e = Return fields
       /\ validateInput sample_gt (fst (fst fields)) (snd (fst fields))
            (snd fields) = Return errors
       /\ errors <> []
       /\ reply_body r
          = Some (JObj [ (lit "error", JStr (lit "Validation failed"));
                         (lit "details", JArr (map JStr errors)) ]).
Proof.
  split; [reflexivity |].
  destruct (exports_handler_gate sample_gt no_text always_ok
              (post (JStr []) (JNum 1) JUndefined) [] _ [] eq_refl)
    as (_ & H400 & _).
  exact (proj2 (H400 eq_refl)).
Defined.

(* ------------------------------------------------------------------ *)
(** ** The icons of a success and the calls behind them *)

Lemma attempts_trace_head prompt seed a n :
  (1 <= n)%nat -> In (EvCall prompt seed) (attempts_trace prompt seed a n).
Proof. destruct n; [lia |]. intros _. left. reflexivity. Qed.

Lemma sort_by_index_sorted_id l :
  StronglySorted (fun a b => r_index a < r_index b) l -> sort_by_index l = l.
Proof.
  induction l as [| r l IH]; intros Hs; [reflexivity |].
  inversion Hs as [| ? ? Hl Hr]; subst.
  cbn [sort_by_index fold_right]. fold (sort_by_index l). rewrite (IH Hl).
  destruct l as [| x l]; [reflexivity |].
  cbn [insert_by_index]. inversion Hr as [| ? ? Hx _]; subst.
  destruct (Z.leb_spec (r_index r) (r_index x)); [reflexivity | lia].
Qed.

Section SuccessFacts.

Variable inherited_text : jsstring -> jsstring.
Variable replicate_run : World -> outcome output.
Variables (prompt : jsval) (styleDescription : member)
  (colorInstruction : jsstring) (baseSeed : Z).

Local Abbreviation icon :=
  (generate_icon inherited_text replicate_run prompt styleDescription
     colorInstruction baseSeed).
Local Abbreviation loop :=
  (generate_icons inherited_text replicate_run prompt styleDescription
     colorInstruction baseSeed).

(** A pushed result has its index and seed, and the call with its prompt
    and seed is in the history the turn added. *)
Lemma generate_icon_call index variation w r w' :
  icon index variation w = (Return r, w') ->
  r_index r = index /\ r_seed r = baseSeed + index
  /\ exists tr, w' = w ++ tr /\ In (EvCall (r_prompt r) (r_seed r)) tr.
Proof.
  unfold generate_icon, bind, lift, ret.
  destruct (full_prompt _ _ _ _ _) as [fp | e]; [| discriminate].
  unfold retryWithBackoff.
  destruct (retry_from_invoke replicate_run fp (baseSeed + index)
              MAX_RETRIES 0 w) as (n & Hn & Hrun & _).
  rewrite Hrun. destruct (replicate_run _) as [out | e]; [| discriminate].
  intros H. injection H as <- <-. cbn [r_index r_seed r_prompt].
  split; [reflexivity |]. split; [reflexivity |].
  eexists. split; [reflexivity |]. apply attempts_trace_head. lia.
Qed.

Lemma generate_icon_extends index variation w o w' :
  icon index variation w = (o, w') -> exists tr, w' = w ++ tr.
Proof.
  unfold generate_icon, bind, lift, ret.
  destruct (full_prompt _ _ _ _ _) as [fp | e].
  - unfold retryWithBackoff.
    destruct (retry_from_invoke replicate_run fp (baseSeed + index)
                MAX_RETRIES 0 w) as (n & Hn & Hrun & _).
    rewrite Hrun. destruct (replicate_run _); intros H; injection H as _ <-;
      eauto.
  - intros H. injection H as _ <-. exists []. rewrite app_nil_r. reflexivity.
Qed.

Lemma generate_icons_results variations :
  forall index results errors w rs es w',
  loop variations index results errors w = (Return (rs, es), w') ->
  exists new_rs new_es tr,
    rs = results ++ new_rs /\ es = errors ++ new_es /\ w' = w ++ tr
    /\ Forall (fun x => index <= r_index x < index + Z.of_nat (length variations)
                        /\ r_seed x = baseSeed + r_index x
                        /\ In (EvCall (r_prompt x) (r_seed x)) tr) new_rs
    /\ StronglySorted (fun a b => r_index a < r_index b) new_rs
    /\ (length new_rs + length new_es = length variations)%nat.
Proof.
  induction variations as [| variation rest IH];
    intros index results errors w rs es w'.
  - cbn. unfold ret. intros H. injection H as <- <- <-.
    exists [], [], []. rewrite !app_nil_r. repeat split; constructor.
  - cbn [generate_icons]. unfold bind at 1, try_catch. unfold bind at 1.
    destruct (icon index variation w) as [[r | error] w1] eqn:E;
      unfold ret at 1; cbn [fst snd]; intros H;
      destruct (IH _ _ _ _ _ _ _ H)
        as (nr & ne & tr & -> & -> & -> & Hall & Hsorted & Hlen).
    + destruct (generate_icon_call _ _ _ _ _ E)
        as (Hidx & Hseed & tr1 & -> & Hin).
      exists (r :: nr), ne, (tr1 ++ tr). rewrite <- !app_assoc.
      split; [reflexivity |]. split; [reflexivity |].
      split; [reflexivity |]. split; [| split].
      * constructor.
        -- split; [cbn [length]; lia |]. split; [congruence |].
           apply in_or_app. left. exact Hin.
        -- eapply Forall_impl; [| exact Hall].
           intros x (Hx & Hs & Hc). split; [cbn [length]; lia |].
           split; [exact Hs |].
           apply in_or_app. right. exact Hc.
      * constructor; [exact Hsorted |].
        eapply Forall_impl; [| exact Hall]. intros x (Hx & _). lia.
      * cbn [length]. lia.
    + destruct (generate_icon_extends _ _ _ _ _ E) as (tr1 & ->).
      exists nr, ({| e_index := index; e_error := message error |} :: ne),
        (tr1 ++ tr). rewrite <- !app_assoc.
      split; [reflexivity |]. split; [reflexivity |].
      split; [reflexivity |]. split; [| split].
      * eapply Forall_impl; [| exact Hall].
        intros x (Hx & Hs & Hc). split; [cbn [length]; lia |].
        split; [exact Hs |].
        apply in_or_app. right. exact Hc.
      * exact Hsorted.
      * cbn [length]. lia.
Qed.

End SuccessFacts.

Lemma generateSeed_range p style b :
  generateSeed p style = Return b -> 0 <= b <= 2 ^ 31.
Proof.
  unfold generateSeed. destruct (ToString style) as [t |]; [| discriminate].
  cbn [obind]. cbv zeta. intros H. injection H as <-.
  assert (E : forall str, seed_loop str = rolling_hash str)
    by (intros str; apply seed_loop_rolling_from).
  rewrite E.
  match goal with
  | |- context [rolling_hash ?str] => pose proof (rolling_hash_range str)
  end.
  lia.
Qed.

Section ReplyFacts.

Variable gt : jsstring -> Z -> bool.
Variable inherited_text : jsstring -> jsstring.
Variable replicate_run : World -> outcome output.

Local Abbreviation exports := (exports_handler gt inherited_text replicate_run).
Local Abbreviation try_block := (handler_try gt inherited_text replicate_run).

Lemma handler_try_200 prompt style brandColors w r w' :
  try_block prompt style brandColors w = (Return r, w') ->
  statusCode r = 200 ->
  exists p b results errors tr,
    prompt = JStr p /\ generateSeed (trim p) style = Return b
    /\ w' = w ++ tr /\ success_of b tr results errors (body r).
Proof.
  unfold handler_try. unfold bind at 1, lift at 1.
  destruct (validateInput gt prompt style brandColors) as [errs |] eqn:V;
    [| discriminate].
  destruct errs as [| m errs].
  2:{ change (0 <? length (m :: errs))%nat with true. cbv iota. unfold ret.
      intros H Hs. injection H as <- _. discriminate Hs. }
  cbn [length Nat.ltb Nat.leb].
  destruct (validated_request _ _ _ _ V) as (p & key & m0 & -> & _).
  unfold bind at 1, lift at 1.
  destruct (STYLE_PROMPTS_get style) as [m |]; [| discriminate].
  unfold bind at 1, lift at 1. cbn [String_trim].
  unfold bind at 1, lift at 1.
  destruct (generateSeed (trim p) style) as [b |] eqn:B; [| discriminate].
  unfold bind at 1, lift at 1.
  destruct (color_instruction gt brandColors) as [colors |]; [| discriminate].
  unfold bind at 1.
  destruct (generate_icons _ _ _ _ _ _ _ _ _ _ w) as [[[rs es] |] w1] eqn:L;
    [| discriminate].
  destruct (generate_icons_results _ _ _ _ _ _ _ _ _ _ _ _ _ _ L)
    as (nr & ne & tr & -> & -> & -> & Hall & Hsorted & Hlen).
  cbn [app fst snd length ICON_VARIATIONS] in *.
  unfold lift, batch_response.
  destruct (2 <=? length nr)%nat eqn:H2; [| discriminate].
  intros H _. injection H as <- <-.
  exists p, b, nr, ne, tr. split; [reflexivity |]. split; [exact B |].
  split; [reflexivity |].
  apply Nat.leb_le in H2.
  unfold success_of. split; [| split; [lia | split; [exact Hlen |
    split; [exact Hsorted | split; [| exact (generateSeed_range _ _ _ B)]]]]].
  - cbn [body JSON_stringify]. rewrite JSON_stringify_icons.
    rewrite (sort_by_index_sorted_id _ Hsorted).
    destruct ne as [| e ne]; [reflexivity |].
    change (0 <? length (e :: ne))%nat with true. cbv iota.
    cbn [JSON_stringify]. rewrite JSON_stringify_errors. reflexivity.
  - eapply Forall_impl; [| exact Hall]. intros x (Hx & Hs & Hc).
    split; [lia |]. split; assumption.
Qed.

(** X5.  A POST answered with status 200 carries between two and four
    icons, those of the tasks that succeeded, in ascending order of index,
    and with the failed tasks they are four; [partial] says whether an icon
    is missing and [errors] is there only then.  Each icon gives the prompt
    and the seed of a call that this request made to the image service, and
    its seed is the seed of the trimmed prompt and the style plus its index,
    so what is returned is what was asked for. *)
Theorem exports_handler_success e w r w' :
  exports e w = (Return r, w') ->
  strict_equals (ev_httpMethod e) (lit "POST") = true ->
  reply_status r = 200 ->
  exists fields p b results errors tr doc,
    request_fields e = Return fields
    /\ fst (fst fields) = JStr p
    /\ generateSeed (trim p) (snd (fst fields)) = Return b
    /\ w' = w ++ tr
    /\ reply_body r = Some doc
    /\ success_of b tr results errors doc.
Proof.
  intros H Hpost Hstatus. rewrite exports_handler_cases in H.
  destruct (strict_equals (ev_httpMethod e) (lit "OPTIONS")) eqn:O.
  { destruct (ev_httpMethod e) as [| | | | m | |]; try discriminate O.
    cbn in O, Hpost. apply jsstring_eqb_eq in O, Hpost. subst m.
    discriminate Hpost. }
  rewrite Hpost in H.
  destruct (request_fields e) as [fields | error].
  - unfold handler, try_catch in H.
    destruct (try_block _ _ _ w) as [[r0 | error] w0] eqn:E.
    + injection H as <- <-. cbn [reply_status with_headers] in Hstatus.
      destruct (handler_try_200 _ _ _ _ _ _ E Hstatus)
        as (p & b & results & errors & tr & Hp & Hb & Hw & Hdoc).
      exists fields, p, b, results, errors, tr, (body r0).
      repeat split; assumption || reflexivity || apply Hdoc.
    + unfold ret in H. injection H as <- _.
      cbn [reply_status with_headers] in Hstatus.
      pose proof (error_response_statuses error) as Hin.
      rewrite Hstatus in Hin. cbn in Hin.
      repeat destruct Hin as [Hin | Hin]; discriminate Hin || destruct Hin.
  - injection H as <- _. cbn [reply_status with_headers] in Hstatus.
    pose proof (error_response_statuses error) as Hin.
    rewrite Hstatus in Hin. cbn in Hin.
    repeat destruct Hin as [Hin | Hin]; discriminate Hin || destruct Hin.
Qed.

End ReplyFacts.

Lemma exports_handler_success_witness :
  let e := post (JStr (lit "Toys")) (JNum 1) (JArr [JStr (lit "#FF5733")]) in
  exists r w',
    exports_handler sample_gt no_text fails_variation_4 e [] = (Return r, w')
    /\ strict_equals (ev_httpMethod e) (lit "POST") = true
    /\ reply_status r = 200
    /\ exists fields p b results errors tr doc,
         request_fields e = Return fields
         /\ fst (fst fields) = JStr p
         /\ generateSeed (trim p) (snd (fst fields)) = Return b
         /\ w' = [] ++ tr
         /\ reply_body r = Some doc
         /\ success_of b tr results errors doc.
Proof.
  intros e.
  assert (E : exists r w',
             exports_handler sample_gt no_text fails_variation_4 e []
             = (Return r, w') /\ reply_status r = 200).
  { vm_compute. eexists. eexists. split; reflexivity. }
  destruct E as (r & w' & E & Hs).
  exists r, w'. split; [exact E |]. split; [reflexivity |].
  split; [exact Hs |].
  exact (exports_handler_success sample_gt no_text fails_variation_4 e []
           r w' E eq_refl Hs).
Defined.

(* ------------------------------------------------------------------ *)
(** ** Further facts on the seed *)

Lemma wrapped_fold_horner str :
  forall a b,
  a mod 2 ^ 32 = b mod 2 ^ 32 ->
  wrap_signed32
    (fold_left (fun hash c => wrap_signed32 (hash * 31 + c)) str a)
  = wrap_signed32 (fold_left (fun hash c => hash * 31 + c) str b).
Proof.
  induction str as [| c str IH]; intros a b H; cbn [fold_left].
  - apply wrap_signed32_congr, H.
  - apply IH. rewrite wrap_signed32_mod.
    rewrite (Z.add_mod (a * 31)), (Z.add_mod (b * 31)) by lia.
    rewrite (Z.mul_mod a), (Z.mul_mod b), H by lia. reflexivity.
Qed.

Lemma seed_loop_horner str : seed_loop str = wrap_signed32 (horner str).
Proof.
  unfold seed_loop, horner. rewrite seed_loop_rolling_from.
  rewrite <- (wrapped_fold_horner str 0 0 eq_refl).
  symmetry. apply wrap_signed32_small.
  apply (rolling_hash_range str).
Qed.

Lemma horner_from str :
  forall h,
  fold_left (fun hash c => hash * 31 + c) str h
  = h * 31 ^ Z.of_nat (length str) + horner str.
Proof.
  unfold horner. induction str as [| c str IH]; intros h.
  - cbn. lia.
  - cbn [fold_left length]. rewrite IH, (IH (0 * 31 + c)).
    rewrite Nat2Z.inj_succ, Z.pow_succ_r by lia. lia.
Qed.

Lemma horner_app a b :
  horner (a ++ b) = horner a * 31 ^ Z.of_nat (length b) + horner b.
Proof.
  unfold horner at 1. rewrite fold_left_app.
  fold (horner a). apply horner_from.
Qed.

(** X6.  The loop of [generateSeed] wraps at every character, and yet its
    hash is the polynomial [c0*31^(n-1) + ... + c(n-1)] of the code units
    wrapped once to a signed 32-bit integer, the hash code that Java gives a
    string; the seed is its absolute value at "prompt-style".  So the hash
    of a concatenation comes from the hashes of the parts:
    [hash(a ++ b) = wrap (hash(a) * 31^|b| + hash(b))]. *)
Theorem generateSeed_polynomial (p : jsstring) (s : jsval)
  (a b : jsstring) :
  generateSeed p s
  = match ToString s with
    | Return t => Return (Z.abs (wrap_signed32 (horner (p ++ lit "-" ++ t))))
    | Throw e => Throw e
    end
  /\ seed_loop (a ++ b)
     = wrap_signed32 (seed_loop a * 31 ^ Z.of_nat (length b) + seed_loop b).
Proof.
  split.
  - unfold generateSeed. destruct (ToString s); cbn [obind]; [| reflexivity].
    cbv zeta. rewrite seed_loop_horner. reflexivity.
  - rewrite !seed_loop_horner, horner_app.
    apply wrap_signed32_congr.
    rewrite Z.add_mod, (Z.add_mod (wrap_signed32 _ * _)) by lia.
    rewrite (Z.mul_mod (wrap_signed32 _)), !wrap_signed32_mod by lia.
    rewrite <- Z.mul_mod by lia. reflexivity.
Qed.

Lemma attempts_trace_seeds lo hi prompt seed n :
  lo <= seed <= hi ->
  forall a, Forall (seed_within lo hi) (attempts_trace prompt seed a n).
Proof.
  intros Hs. induction n as [| n IH]; intros a; [constructor |].
  destruct n as [| n].
  - cbn [attempts_trace]. constructor; [exact Hs | constructor].
  - rewrite attempts_trace_next by lia.
    constructor; [exact Hs |]. constructor; [exact I | apply IH].
Qed.

Lemma plan_trace_seeds inherited_text m colors b p variations :
  forall index ns,
  Forall (seed_within (b + index) (b + index + Z.of_nat (length variations) - 1))
    (batch_trace (plan_from inherited_text m colors b p variations index) ns).
Proof.
  induction variations as [| v rest IH]; intros index ns; [constructor |].
  destruct ns as [| n ns]; [constructor |].
  cbn [plan_from batch_trace]. apply Forall_app. split.
  - apply attempts_trace_seeds. cbn [fst snd length]. lia.
  - eapply Forall_impl; [| apply (IH (index + 1) ns)].
    intros [fp seed | ms]; cbn [seed_within length]; [lia | trivial].
Qed.

Lemma batch_trace_last_call t tasks :
  forall ns,
  length ns = length (tasks ++ [t]) ->
  Forall (fun n => (1 <= n <= 3)%nat) ns ->
  In (EvCall (fst t) (snd t)) (batch_trace (tasks ++ [t]) ns).
Proof.
  induction tasks as [| t0 tasks IH]; intros ns Hlen Hns.
  - destruct ns as [| n [| ? ?]]; try discriminate Hlen.
    inversion Hns as [| ? ? Hn _]; subst.
    cbn [app batch_trace]. rewrite app_nil_r.
    apply attempts_trace_head. lia.
  - destruct ns as [| n ns]; [discriminate Hlen |].
    inversion Hns as [| ? ? _ Hns']; subst.
    cbn [app batch_trace]. apply in_or_app. right.
    apply IH; [cbn in Hlen |- *; lia | exact Hns'].
Qed.

(** X7.  The seeds sent to the image service are not confined to 32 signed
    bits: every call of a request carries a seed between 0 and 2^31 + 3,
    and the bound is reached, since for the valid request with prompt
    "aepzrqet" and style 1 the base seed is 2^31, the absolute value of the
    least 32-bit integer, and the call with seed 2^31 + 3 is made whatever
    the image service answers. *)
Theorem exports_handler_seed_range gt inherited_text replicate_run e w :
  (exists tr,
     snd (exports_handler gt inherited_text replicate_run e w) = w ++ tr
     /\ Forall (seed_within 0 (2 ^ 31 + 3)) tr)
  /\ validateInput gt (JStr extreme_prompt) (JNum 1) JUndefined = Return []
  /\ generateSeed (trim extreme_prompt) (JNum 1) = Return (2 ^ 31)
  /\ exists fullPrompt,
       In (EvCall fullPrompt (2 ^ 31 + 3))
         (snd (exports_handler gt inherited_text replicate_run
                 (post (JStr extreme_prompt) (JNum 1) JUndefined) w)).
Proof.
  split; [| split; [reflexivity | split; [reflexivity |]]].
  - destruct (exports_handler_trace gt inherited_text replicate_run e w)
      as (tr & Htr & Hshape).
    exists tr. split; [exact Htr |].
    destruct Hshape
      as [-> | (_ & fields & p & m & colors & b & ns & _ & _ & _ & Hb & _
                & _ & ->)]; [constructor |].
    apply generateSeed_range in Hb.
    eapply Forall_impl;
      [| apply (plan_trace_seeds inherited_text m colors b p
                  ICON_VARIATIONS 0 ns)].
    intros [fp seed | ms]; cbn [seed_within length ICON_VARIATIONS];
      [lia | trivial].
  - rewrite exports_handler_cases.
    change (strict_equals
              (ev_httpMethod (post (JStr extreme_prompt) (JNum 1) JUndefined))
              (lit "OPTIONS")) with false.
    change (strict_equals
              (ev_httpMethod (post (JStr extreme_prompt) (JNum 1) JUndefined))
              (lit "POST")) with true.
    change (request_fields (post (JStr extreme_prompt) (JNum 1) JUndefined))
      with (Return (JStr extreme_prompt, JNum 1, JUndefined)).
    cbv iota. cbn [fst snd].
    pose proof (handler_trace gt inherited_text replicate_run extreme_prompt
                  (JNum 1) JUndefined
                  (Own (lit "simple flat icon design, minimal, clean lines, solid colors, professional icon style"))
                  (2 ^ 31) [] w eq_refl eq_refl eq_refl eq_refl) as Htr.
    destruct (generate_icons_trace inherited_text replicate_run
                (Own (lit "simple flat icon design, minimal, clean lines, solid colors, professional icon style"))
                [] (2 ^ 31) extreme_prompt ICON_VARIATIONS 0 [] [] w)
      as (ns & Hlen & Hns & Hloop).
    rewrite Hloop in Htr.
    destruct (handler gt inherited_text replicate_run (JStr extreme_prompt)
                (JNum 1) JUndefined w) as [[r | error] w'];
      cbn [snd] in Htr |- *; rewrite Htr.
    all: eexists; apply in_or_app; right;
      refine (batch_trace_last_call _ [_; _; _] ns Hlen Hns).
Qed.

(* ------------------------------------------------------------------ *)
(** ** Facts on the test file *)

Lemma run_each_counts tests :
  forall p f,
  Test.run_each tests p f
  = ((p + length (filter passes tests))%nat,
     (f + length (filter (fun t => negb (passes t)) tests))%nat).
Proof.
  induction tests as [| [name fn] tests IH]; intros p f.
  - cbn. f_equal; lia.
  - cbn [Test.run_each filter].
    assert (P : passes (name, fn)
                = match fn tt with Return _ => true | Throw _ => false end)
      by reflexivity.
    rewrite P.
    destruct (fn tt); rewrite IH; cbn [negb length]; f_equal; lia.
Qed.

(** X8.  [runTests] runs every registered test once, whatever the tests
    before it did: the passed tests are those whose function returns, the
    failed ones those whose function throws, the two counters add up to the
    number of tests, and the process exits with code 1 exactly when a test
    failed.  On the eleven tests of the file it counts 11 passed and none
    failed, and does not exit with 1. *)
Theorem runTests_counts (tests : list (jsstring * (unit -> outcome unit)))
  (gt : jsstring -> Z -> bool) (JSON_text : jsval -> jsstring) :
  (let '(passedTests, failedTests, exit) := Test.runTests tests in
   passedTests = length (filter passes tests)
   /\ failedTests = length (filter (fun t => negb (passes t)) tests)
   /\ (passedTests + failedTests = length tests)%nat
   /\ (exit = Some 1 <-> existsb (fun t => negb (passes t)) tests = true)
   /\ (exit = None <-> forallb passes tests = true))
  /\ Test.runTests (Test.tests gt JSON_text) = (11%nat, 0%nat, None).
Proof.
  split.
  - unfold Test.runTests. rewrite run_each_counts. cbn [Nat.add].
    split; [reflexivity |]. split; [reflexivity |].
    assert (Hsum : forall l : list (jsstring * (unit -> outcome unit)),
               (length (filter passes l)
                + length (filter (fun t => negb (passes t)) l))%nat
               = length l).
    { induction l as [| t l IH]; [reflexivity |].
      cbn [filter]. destruct (passes t); cbn [negb length]; lia. }
    split; [apply Hsum |].
    assert (Hf : forall l : list (jsstring * (unit -> outcome unit)),
               (0 <? length (filter (fun t => negb (passes t)) l))%nat
               = existsb (fun t => negb (passes t)) l).
    { induction l as [| t l IH]; [reflexivity |].
      cbn [filter existsb]. destruct (passes t); cbn [negb orb]; [exact IH |].
      reflexivity. }
    assert (Ha : forall l : list (jsstring * (unit -> outcome unit)),
               forallb passes l
               = negb (existsb (fun t => negb (passes t)) l)).
    { induction l as [| t l IH]; [reflexivity |].
      cbn [forallb existsb]. rewrite IH. destruct (passes t); reflexivity. }
    rewrite Hf, Ha.
    destruct (existsb (fun t => negb (passes t)) tests); cbn [negb];
      split; split; congruence.
  - assert (Hpass : forallb passes (Test.tests gt JSON_text) = true).
    { unfold Test.tests. cbn [forallb].
      do 4 (apply andb_true_intro; split; [vm_compute; reflexivity |]).
      apply andb_true_intro; split.
      { unfold passes. cbn [snd].
        change (Test.validateInput gt (JStr (lit "coffee")) (JNum 1)
                  (JArr [JStr (lit "#FF5733")]))
          with (@Return (list jsstring) []).
        cbn [obind map]. unfold Test.assertArrayEquals, Test.stringify.
        cbn [Test.strict_equal].
        rewrite (proj2 (jsstring_eqb_eq _ _) eq_refl). reflexivity. }
      do 6 (apply andb_true_intro; split; [vm_compute; reflexivity |]).
      reflexivity. }
    unfold Test.runTests. rewrite run_each_counts. cbn [Nat.add].
    assert (Hfilter : forall l : list (jsstring * (unit -> outcome unit)),
               forallb passes l = true ->
               filter passes l = l
               /\ filter (fun t => negb (passes t)) l = []).
    { induction l as [| t l IH]; [split; reflexivity |].
      cbn [forallb filter]. intros H. apply andb_true_iff in H.
      destruct H as [Ht Hl]. rewrite Ht. cbn [negb].
      destruct (IH Hl) as [-> ->]. split; reflexivity. }
    destruct (Hfilter _ Hpass) as [-> ->]. reflexivity.
Qed.

Lemma test_style_invalid style : Test.style_invalid style = style_invalid style.
Proof.
  unfold Test.style_invalid, style_invalid, Test.STYLE_PROMPTS_get,
    STYLE_PROMPTS_get.
  destruct (negb (truthy style)); [reflexivity |].
  destruct (ToString style) as [key | e]; [| reflexivity].
  cbn [obind]. unfold Test.STYLE_PROMPTS, STYLE_PROMPTS. cbn [assoc].
  repeat (destruct (jsstring_eqb key _); [reflexivity |]).
  reflexivity.
Qed.

(** X9.  The copies that the test file tests are the helpers of the
    handler: on every input the copy of [validateInput], with its own short
    style table, returns the list that [validateInput] returns, or throws as
    it throws, and the copy of [generateSeed] gives the seed of
    [generateSeed].  A test of the copies is a test of the handler's
    helpers. *)
Theorem test_copies_agree (gt : jsstring -> Z -> bool)
  (prompt style brandColors : jsval) (p : jsstring) :
  Test.validateInput gt prompt style brandColors
  = validateInput gt prompt style brandColors
  /\ Test.generateSeed p style = generateSeed p style.
Proof.
  split; [| reflexivity].
  unfold Test.validateInput, validateInput.
  rewrite test_style_invalid. reflexivity.
Qed.

(* ------------------------------------------------------------------ *)
(** ** Further facts on the basic handlers *)

Lemma first_rejection_earliest {A} (ps : list (Basic.promise A)) t e :
  Basic.first_rejection ps = Some (t, e) ->
  exists p,
    In p ps /\ Basic.settles p = Throw e /\ Basic.at_time p = t
    /\ forall q e', In q ps -> Basic.settles q = Throw e' ->
                    (t <= Basic.at_time q)%nat.
Proof.
  revert t e. induction ps as [| p ps IH]; intros t e; [discriminate |].
  cbn [Basic.first_rejection].
  destruct (Basic.settles p) as [v | ep] eqn:Sp.
  - intros H. destruct (IH _ _ H) as (p0 & Hin & Hs & Ht & Hmin).
    exists p0. split; [right; exact Hin |]. split; [exact Hs |].
    split; [exact Ht |]. intros q e' [<- | Hq] Hq'; [congruence |].
    eapply Hmin; eassumption.
  - destruct (Basic.first_rejection ps) as [[t' e'] |] eqn:F.
    + destruct (IH _ _ eq_refl) as (p0 & Hin & Hs & Ht & Hmin).
      destruct (Nat.leb_spec (Basic.at_time p) t') as [Hle | Hgt];
        intros H; injection H as <- <-.
      * exists p. split; [left; reflexivity |]. split; [exact Sp |].
        split; [reflexivity |]. intros q e'' [<- | Hq] Hq'; [lia |].
        specialize (Hmin q e'' Hq Hq'). lia.
      * exists p0. split; [right; exact Hin |]. split; [exact Hs |].
        split; [exact Ht |]. intros q e'' [<- | Hq] Hq'; [lia |].
        eapply Hmin; eassumption.
    + intros H. injection H as <- <-.
      exists p. split; [left; reflexivity |]. split; [exact Sp |].
      split; [reflexivity |]. intros q e'' [<- | Hq] Hq'; [lia |].
      exfalso. clear - F Hq Hq'.
      induction ps as [| x ps IH]; [destruct Hq |].
      cbn [Basic.first_rejection] in F. destruct Hq as [<- | Hq].
      * rewrite Hq' in F.
        destruct (Basic.first_rejection ps) as [[? ?] |];
          [destruct (_ <=? _)%nat |]; discriminate F.
      * destruct (Basic.settles x);
          [apply IH; assumption |
           destruct (Basic.first_rejection ps) as [[? ?] |];
           [destruct (_ <=? _)%nat |]; discriminate F].
Qed.

Lemma basic_sort_sorted_id l :
  StronglySorted (fun a b => Basic.r_index a < Basic.r_index b) l ->
  Basic.sort_by_index l = l.
Proof.
  induction l as [| r l IH]; intros Hs; [reflexivity |].
  inversion Hs as [| ? ? Hl Hr]; subst.
  cbn [Basic.sort_by_index fold_right]. fold (Basic.sort_by_index l).
  rewrite (IH Hl). destruct l as [| x l]; [reflexivity |].
  cbn [Basic.insert_by_index]. inversion Hr as [| ? ? Hx _]; subst.
  destruct (Z.leb_spec (Basic.r_index r) (Basic.r_index x));
    [reflexivity | lia].
Qed.

Section BasicOrder.

Variable inherited_text : jsstring -> jsstring.
Variable replicate_run : Z -> jsstring -> Basic.promise output.
Variables (prompt : jsval) (m : member) (colors : jsstring).

Local Abbreviation gen :=
  (Basic.generate inherited_text replicate_run prompt m colors).

Lemma basic_generate_result variation index r :
  Basic.settles (gen variation index) = Return r ->
  Basic.r_index r = index
  /\ Basic.full_prompt inherited_text prompt variation m colors
     = Return (Basic.r_prompt r).
Proof.
  unfold Basic.generate.
  destruct (Basic.full_prompt _ _ _ _ _) as [fp | e]; cbn [Basic.settles];
    [| discriminate].
  destruct (Basic.settles (replicate_run index fp)); cbn [obind];
    [| discriminate].
  intros H. injection H as <-. split; reflexivity.
Qed.

Lemma basic_fulfilled_in_order variations :
  forall index,
  Forall (fun p => exists v, Basic.settles p = Return v)
    (Basic.map_indexed gen variations index) ->
  let rs := Basic.fulfilled (Basic.map_indexed gen variations index) in
  StronglySorted (fun a b => Basic.r_index a < Basic.r_index b) rs
  /\ Forall (fun r => index <= Basic.r_index r) rs
  /\ map Basic.r_index rs = indices_from index (length variations)
  /\ Forall2 (fun r variation =>
                Basic.full_prompt inherited_text prompt variation m colors
                = Return (Basic.r_prompt r)) rs variations.
Proof.
  induction variations as [| v rest IH]; intros index Hall.
  - cbn. repeat split; constructor.
  - cbn [Basic.map_indexed Basic.fulfilled] in *.
    inversion Hall as [| ? ? [r Hr] Hrest]; subst.
    rewrite Hr. destruct (IH (index + 1) Hrest) as (Hs & Hlow & Hi & Hp).
    destruct (basic_generate_result _ _ _ Hr) as [Hidx Hfp].
    cbv zeta in *. split; [| split; [| split]]; cycle 2.
    { cbn [map length indices_from]. rewrite Hi, Hidx. reflexivity. }
    all: cycle 1.
    + constructor; [exact Hs |].
      eapply Forall_impl; [| exact Hlow]. intros x Hx. cbn beta in Hx. lia.
    + constructor; [lia |].
      eapply Forall_impl; [| exact Hlow]. intros x Hx. cbn beta in Hx. lia.
    + constructor; assumption.
Qed.

End BasicOrder.

(** X10.  In the basic handlers the order and the times in which the four
    calls settle do not show in a success: the icons are those of the
    variations in the order of [ICON_VARIATIONS], each with the full prompt
    of its variation.  In a failure after the calls were launched, [details]
    is the message of the rejection that came first in time. *)
Theorem basic_handlers_order
  (inherited_text : jsstring -> jsstring)
  (replicate_run : Z -> jsstring -> Basic.promise output)
  (prompt style brandColors : jsval) (m : member) (colors : jsstring) :
  let r := Basic.netlify_handler inherited_text replicate_run prompt style
             brandColors in
  let ps := Basic.promises inherited_text replicate_run prompt m colors in
  truthy prompt = true -> truthy style = true ->
  STYLE_PROMPTS_get style = Return m -> member_truthy m = true ->
  Basic.color_instruction brandColors = Return colors ->
  (statusCode r = 200 ->
   exists icons,
     body r = JObj [ (lit "success", JBool true);
                     (lit "icons", JArr (map Basic.icon_json icons)) ]
     /\ map Basic.r_index icons = [0; 1; 2; 3]
     /\ Forall2 (fun icon variation =>
                   Basic.full_prompt inherited_text prompt variation m colors
                   = Return (Basic.r_prompt icon)) icons ICON_VARIATIONS)
  /\ (statusCode r = 500 ->
      exists p error,
        In p ps /\ Basic.settles p = Throw error
        /\ (forall q error', In q ps -> Basic.settles q = Throw error' ->
                             (Basic.at_time p <= Basic.at_time q)%nat)
        /\ body r = JObj [ (lit "error", JStr (lit "Failed to generate icons"));
                           (lit "details", JStr (message error)) ]).
Proof.
  intros r ps Hp Hs Hm Ht Hc. subst r.
  unfold Basic.netlify_handler, Basic.generate_try.
  rewrite Hp, Hs, Hm. cbn [negb orb obind]. rewrite Ht, Hc.
  cbn [negb obind]. unfold Basic.Promise_all. fold ps.
  destruct (Basic.first_rejection ps) as [[t e] |] eqn:F; cbn [obind].
  - split; [cbn; discriminate |]. intros _.
    destruct (first_rejection_earliest _ _ _ F) as (p & Hin & Hsp & <- & Hmin).
    exists p, e. repeat split; assumption || reflexivity.
  - split; [| cbn; discriminate]. intros _.
    destruct (first_rejection_none _ F) as [Hall Hlen].
    destruct (basic_fulfilled_in_order inherited_text replicate_run prompt m
                colors ICON_VARIATIONS 0 Hall)
      as (Hsorted & Hlow & Hidx & Hprompts).
    cbv zeta in *. fold (Basic.promises inherited_text replicate_run prompt m
                           colors) in *.
    fold ps in Hsorted, Hlow, Hidx, Hprompts.
    exists (Basic.fulfilled ps).
    rewrite (basic_sort_sorted_id _ Hsorted).
    split; [| split; [| exact Hprompts]].
    + unfold Basic.respond. cbn [body JSON_stringify].
      rewrite basic_stringify_icons. reflexivity.
    + exact Hidx.
Qed.

Lemma basic_handlers_order_witness :
  body (Basic.netlify_handler no_text two_fail (JStr (lit "cat")) (JNum 1)
          JUndefined)
  = JObj [ (lit "error", JStr (lit "Failed to generate icons"));
           (lit "details", JStr (lit "fast")) ].
Proof.
  destruct (basic_handlers_order no_text two_fail (JStr (lit "cat")) (JNum 1)
              JUndefined _ _ eq_refl eq_refl eq_refl eq_refl eq_refl)
    as [_ H].
  destruct (H eq_refl) as (p & error & Hin & Hs & Hmin & Hb).
  rewrite Hb.
  match type of Hin with
  | In _ ?ps =>
      specialize (Hmin (nth 3 ps p) (Error (lit "fast"))
                    ltac:(do 3 right; left; reflexivity) eq_refl)
  end.
  destruct Hin as [<- | [<- | [<- | [<- | []]]]].
  - discriminate Hs.
  - exfalso. vm_compute in Hmin. lia.
  - discriminate Hs.
  - injection Hs as <-. reflexivity.
Defined.

Lemma basic_generate_try_status inherited_text replicate_run prompt style
  brandColors r :
  Basic.generate_try inherited_text replicate_run prompt style brandColors
  = Return r ->
  statusCode r = 200 \/ statusCode r = 400.
Proof.
  unfold Basic.generate_try.
  destruct (negb (truthy prompt) || negb (truthy style)).
  { intros H. injection H as <-. right. reflexivity. }
  destruct (STYLE_PROMPTS_get style) as [m | ?]; cbn [obind]; [| discriminate].
  destruct (negb (member_truthy m)).
  { intros H. injection H as <-. right. reflexivity. }
  destruct (Basic.color_instruction brandColors); cbn [obind];
    [| discriminate].
  destruct (Basic.Promise_all _); cbn [obind]; [| discriminate].
  intros H. injection H as <-. left. reflexivity.
Qed.

(** X11.  [exports.handler] of the basic Netlify function answers every
    event: the response carries the three CORS headers, its status is one
    of 200, 400, 405 and 500, and its body is empty exactly for an OPTIONS
    request.  A POST whose body [JSON.parse] refuses, or parses to [null],
    is answered 500 with the message of that exception as [details], not
    400. *)
Theorem basic_exports_handler_replies
  (inherited_text : jsstring -> jsstring)
  (replicate_run : Z -> jsstring -> Basic.promise output) (e : lambda_event) :
  let r := BasicExports.exports_handler inherited_text replicate_run e in
  reply_headers r = headers
  /\ In (reply_status r) [200; 400; 405; 500]
  /\ (reply_body r = None
      <-> strict_equals (ev_httpMethod e) (lit "OPTIONS") = true)
  /\ (forall error,
        strict_equals (ev_httpMethod e) (lit "POST") = true ->
        request_fields e = Throw error ->
        reply_status r = 500
        /\ reply_body r
           = Some (JObj [ (lit "error", JStr (lit "Failed to generate icons"));
                          (lit "details", JStr (message error)) ])).
Proof.
  cbv zeta. unfold BasicExports.exports_handler. fold (request_fields e).
  destruct (strict_equals (ev_httpMethod e) (lit "OPTIONS")) eqn:Ho.
  { split; [reflexivity |]. split; [cbn; tauto |]. split; [cbn; tauto |].
    intros error Hp. exfalso.
    destruct (ev_httpMethod e); try discriminate Ho.
    cbn [strict_equals] in Ho, Hp.
    apply jsstring_eqb_eq in Ho. subst. discriminate Hp. }
  destruct (strict_equals (ev_httpMethod e) (lit "POST")) eqn:Hpost;
    cbn [negb].
  - destruct (request_fields e) as [fields | error0] eqn:F; cbn [obind].
    + split; [reflexivity |]. split; [| split].
      * destruct (Basic.generate_try _ _ _ _ _) as [r | error1] eqn:G;
          [| cbn; tauto].
        destruct (basic_generate_try_status _ _ _ _ _ _ G) as [H | H];
          cbn; rewrite H; tauto.
      * cbn. split; intros H; discriminate H.
      * intros error _ H. discriminate H.
    + split; [reflexivity |]. split; [cbn; tauto |]. split.
      * cbn. split; intros H; discriminate H.
      * intros error _ H. injection H as <-. split; reflexivity.
  - split; [reflexivity |]. split; [cbn; tauto |]. split.
    + cbn. split; intros H; discriminate H.
    + intros error H. discriminate H.
Qed.

Lemma basic_exports_handler_replies_witness :
  reply_status
    (BasicExports.exports_handler no_text two_fail
       {| ev_httpMethod := JStr (lit "POST"); ev_body := Return JNull |})
  = 500.
Proof.
  destruct (basic_exports_handler_replies no_text two_fail
              {| ev_httpMethod := JStr (lit "POST"); ev_body := Return JNull |})
    as (_ & _ & _ & H).
  destruct (H _ eq_refl eq_refl) as [Hs _]. exact Hs.
Defined.

(* ------------------------------------------------------------------ *)
(** ** Facts on [trim] *)

Lemma trimStart_head s :
  trimStart s = []
  \/ exists c rest, trimStart s = c :: rest /\ is_whitespace c = false.
Proof.
  induction s as [| c s IH]; [left; reflexivity |].
  cbn [trimStart]. destruct (is_whitespace c) eqn:E; [exact IH |].
  right. exists c, s. split; [reflexivity | exact E].
Qed.

Lemma trimStart_kept c rest :
  is_whitespace c = false -> trimStart (c :: rest) = c :: rest.
Proof. intros E. cbn [trimStart]. rewrite E. reflexivity. Qed.

Lemma trimStart_idempotent s : trimStart (trimStart s) = trimStart s.
Proof.
  destruct (trimStart_head s) as [-> | (c & rest & -> & E)]; [reflexivity |].
  apply trimStart_kept, E.
Qed.

Lemma trimStart_app_kept a c :
  is_whitespace c = false -> trimStart (a ++ [c]) = trimStart a ++ [c].
Proof.
  intros E. induction a as [| x a IH].
  - cbn [app]. rewrite (trimStart_kept _ _ E). reflexivity.
  - cbn [app trimStart]. destruct (is_whitespace x); [exact IH | reflexivity].
Qed.

Lemma trimEnd_idempotent s : trimEnd (trimEnd s) = trimEnd s.
Proof.
  unfold trimEnd. rewrite rev_involutive, trimStart_idempotent. reflexivity.
Qed.

Lemma trimEnd_kept c rest :
  is_whitespace c = false -> exists rest', trimEnd (c :: rest) = c :: rest'.
Proof.
  intros E. unfold trimEnd. cbn [rev].
  rewrite (trimStart_app_kept _ _ E), rev_app_distr.
  eexists. reflexivity.
Qed.

(** [s.trim().trim()] is [s.trim()]. *)
Lemma trim_idempotent s : trim (trim s) = trim s.
Proof.
  unfold trim.
  destruct (trimStart_head s) as [-> | (c & rest & -> & E)]; [reflexivity |].
  destruct (trimEnd_kept c rest E) as [rest' H].
  rewrite H, (trimStart_kept _ _ E), <- H. apply trimEnd_idempotent.
Qed.

(* ------------------------------------------------------------------ *)
(** ** Facts on the client *)

Lemma spread_colors a : forallb is_color a = true -> Client.spread a = a.
Proof.
  induction a as [| x a IH]; [reflexivity |].
  cbn [forallb Client.spread map]. intros H.
  apply andb_true_iff in H. destruct H as [Hx Ha].
  fold (Client.spread a). rewrite (IH Ha).
  destruct x; try discriminate Hx; reflexivity.
Qed.

Lemma assign_in_range a :
  forall index value,
  (index < length a)%nat ->
  length (Client.assign a index value) = length a
  /\ (forallb is_color a = true ->
      forallb is_color (Client.assign a index value) = true).
Proof.
  induction a as [| x a IH]; intros index value Hlt; [cbn in Hlt; lia |].
  destruct index as [| i]; cbn [Client.assign length forallb].
  - split; [reflexivity |]. intros H.
    apply andb_true_iff in H. destruct H as [_ Ha]. exact Ha.
  - cbn [length] in Hlt. destruct (IH i value ltac:(lia)) as [Hl Hc].
    split; [rewrite Hl; reflexivity |]. intros H.
    apply andb_true_iff in H. destruct H as [Hx Ha].
    rewrite Hx, (Hc Ha). reflexivity.
Qed.

Lemma generateIcons_fields fetch st :
  Client.st_prompt (Client.generateIcons fetch st) = Client.st_prompt st
  /\ Client.st_selectedStyle (Client.generateIcons fetch st)
     = Client.st_selectedStyle st
  /\ Client.st_brandColors (Client.generateIcons fetch st)
     = Client.st_brandColors st.
Proof.
  unfold Client.generateIcons.
  destruct (negb (truthy (JStr (trim (Client.st_prompt st)))));
    [repeat split |].
  cbv zeta.
  destruct (Client.generateIcons_try _ _ _ _); repeat split.
Qed.

Lemma generateIcons_settled fetch st :
  truthy (JStr (trim (Client.st_prompt st))) = true ->
  let st' := Client.generateIcons fetch st in
  Client.st_loading st' = false
  /\ (Client.st_error st' = [] \/ Client.st_icons st' = JArr []).
Proof.
  intros H. unfold Client.generateIcons. rewrite H. cbn [negb]. cbv zeta.
  destruct (Client.generateIcons_try _ _ _ _);
    (split; [reflexivity |]); [left | right]; reflexivity.
Qed.

(** X12.  Whatever the user does with the form, and whatever the API
    answers, the form keeps three colour inputs that each hold a string (no
    hole and no [undefined], so the filter of [generateIcons] never throws),
    a style among the ids of [STYLES], no request in flight between two
    events, and never shows an error message beside icons: the guard
    message of [generateIcons] cannot come up over earlier icons, because
    the button is disabled exactly when the guard would fire. *)
Theorem client_form_invariant (st : Client.state) :
  Client.reachable st -> well_formed st.
Proof.
  induction 1 as [| ev st Hr (Hlen & Hcol & Hsty & Hload & Hshow)].
  - unfold well_formed. cbn. repeat split; tauto.
  - destruct ev as [value | button | input value | fetch];
      cbn [Client.dispatch]; rewrite Hload.
    + unfold well_formed. cbn. tauto.
    + destruct (nth_error Client.STYLES button) as [style |] eqn:N;
        [| unfold well_formed; tauto].
      unfold well_formed. cbn [Client.setSelectedStyle Client.st_brandColors
        Client.st_selectedStyle Client.st_loading Client.st_error
        Client.st_icons].
      repeat split; try assumption.
      apply in_map. eapply nth_error_In. exact N.
    + destruct (Nat.ltb_spec input (length (Client.st_brandColors st)))
        as [Hlt | _]; [| unfold well_formed; tauto].
      unfold well_formed, Client.handleColorChange.
      cbn [Client.setBrandColors Client.st_brandColors
        Client.st_selectedStyle Client.st_loading Client.st_error
        Client.st_icons].
      rewrite (spread_colors _ Hcol).
      destruct (assign_in_range _ input value Hlt) as [Hl Hc].
      rewrite Hl. repeat split; try assumption. exact (Hc Hcol).
    + cbn [orb].
      destruct (truthy (JStr (trim (Client.st_prompt st)))) eqn:T;
        cbn [negb]; [| unfold well_formed; tauto].
      destruct (generateIcons_fields fetch st) as (_ & Hs & Hb).
      destruct (generateIcons_settled fetch st T) as [Hl He].
      unfold well_formed. rewrite Hs, Hb. tauto.
Qed.

Lemma client_form_invariant_witness :
  well_formed
    (Client.dispatch (Client.ChangeColor 1 (lit "#ff0000"))
       (Client.dispatch (Client.ChangePrompt (lit "toys")) Client.initial)).
Proof.
  apply client_form_invariant.
  apply Client.reachable_dispatch, Client.reachable_dispatch,
    Client.reachable_initial.
Defined.

Lemma filter_colors_kept a :
  forallb is_color a = true ->
  exists kept,
    Client.filter_colors a = Return kept
    /\ (length kept <= length a)%nat
    /\ Forall (fun color => trim color <> []) kept.
Proof.
  induction a as [| x a IH]; intros H.
  - exists []. repeat split; constructor.
  - cbn [forallb] in H. apply andb_true_iff in H. destruct H as [Hx Ha].
    destruct (IH Ha) as (kept & Hk & Hl & Hf).
    destruct x as [color | |]; try discriminate Hx.
    cbn [Client.filter_colors length]. rewrite Hk. cbn [obind].
    destruct (jsstring_eqb (trim color) []) eqn:E; cbn [negb].
    + exists kept. split; [reflexivity |]. split; [lia | exact Hf].
    + exists (color :: kept). split; [reflexivity |].
      split; [cbn [length]; lia |]. constructor; [| exact Hf].
      intros T. apply jsstring_eqb_eq in T. congruence.
Qed.

Lemma style_of_STYLES s :
  In s (map Client.id Client.STYLES) ->
  truthy (JNum s) = true
  /\ exists m,
       STYLE_PROMPTS_get (JNum s) = Return m /\ member_truthy m = true.
Proof.
  cbn [map Client.STYLES Client.id In].
  intros [<- | [<- | [<- | [<- | [<- | []]]]]];
    (split; [reflexivity |
             eexists; split; [vm_compute; reflexivity | reflexivity]]).
Qed.

Lemma client_request_fields p s kept :
  request_fields (posted (Client.request_body p s kept))
  = Return (JStr (trim p), JNum s, sent_colors kept).
Proof.
  unfold request_fields, posted, Client.request_body, sent_colors.
  cbn [ev_body obind].
  destruct (0 <? length kept)%nat; cbn [JSON_stringify].
  - rewrite JSON_stringify_strings. reflexivity.
  - reflexivity.
Qed.

Lemma client_request_validates_at gt p s kept :
  trim p <> [] ->
  In s (map Client.id Client.STYLES) ->
  (length kept <= 5)%nat ->
  validateInput gt (JStr (trim p)) (JNum s) (sent_colors kept)
  = Return (if (200 <? length (trim p))%nat then [msg_prompt_long] else []).
Proof.
  intros Hp Hs Hk.
  destruct (style_of_STYLES s Hs) as (Ht & m & Hd & Hm).
  unfold validateInput.
  assert (M : prompt_missing (JStr (trim p)) = false).
  { unfold prompt_missing. rewrite trim_idempotent.
    destruct (trim p); [congruence | reflexivity]. }
  rewrite M.
  assert (L : truthy_and_longer gt (JStr (trim p)) 200
              = Return (200 <? length (trim p))%nat).
  { unfold truthy_and_longer.
    destruct (trim p) as [| c t] eqn:E; [congruence |].
    cbn [truthy get_length obind js_gt]. f_equal.
    destruct (Nat.ltb_spec 200 (length (c :: t)));
      [apply Z.ltb_lt | apply Z.ltb_ge]; lia. }
  rewrite L. cbn [obind].
  assert (S0 : style_invalid (JNum s) = Return false).
  { unfold style_invalid. rewrite Ht, Hd. cbn [negb obind].
    rewrite Hm. reflexivity. }
  rewrite S0. cbn [obind].
  assert (C : truthy (sent_colors kept) && negb (isArray (sent_colors kept))
              = false).
  { unfold sent_colors. destruct (0 <? length kept)%nat; reflexivity. }
  rewrite C.
  assert (N : truthy_and_longer gt (sent_colors kept) 5 = Return false).
  { unfold sent_colors, truthy_and_longer.
    destruct (0 <? length kept)%nat; [| reflexivity].
    cbn [truthy get_length obind js_gt]. rewrite length_map. f_equal.
    apply Z.ltb_ge. lia. }
  rewrite N. cbn [obind].
  destruct (200 <? length (trim p))%nat; reflexivity.
Qed.

(** X13.  The request that [generateIcons] sends for a form in one of its
    reachable shapes and a prompt that is not blank: the filter keeps at
    most three colours, none blank; the function reads from the body the
    trimmed prompt, the style and the kept colours ([undefined] when none is
    kept); [validateInput] flags nothing but a trimmed prompt of more than
    200 code units; and trimming again at the function changes nothing, so
    the seed and the prompts of the calls are made from the same text. *)
Theorem client_request_validates (gt : jsstring -> Z -> bool)
  (st : Client.state) :
  well_formed st ->
  trim (Client.st_prompt st) <> [] ->
  exists filteredColors,
    Client.filter_colors (Client.st_brandColors st) = Return filteredColors
    /\ (length filteredColors <= 3)%nat
    /\ Forall (fun color => trim color <> []) filteredColors
    /\ request_fields
         (posted (Client.request_body (Client.st_prompt st)
                    (Client.st_selectedStyle st) filteredColors))
       = Return (sent_prompt st, sent_style st, sent_colors filteredColors)
    /\ validateInput gt (sent_prompt st) (sent_style st)
         (sent_colors filteredColors)
       = Return (if (200 <? length (trim (Client.st_prompt st)))%nat
                 then [msg_prompt_long] else [])
    /\ String_trim (sent_prompt st) = Return (trim (Client.st_prompt st)).
Proof.
  intros (Hlen & Hcol & Hsty & _ & _) Hp.
  destruct (filter_colors_kept _ Hcol) as (kept & Hk & Hl & Hf).
  exists kept. split; [exact Hk |]. split; [lia |]. split; [exact Hf |].
  split; [apply client_request_fields |].
  split; [apply client_request_validates_at; [exact Hp | exact Hsty | lia] |].
  unfold sent_prompt. cbn [String_trim]. rewrite trim_idempotent. reflexivity.
Qed.

Lemma client_request_validates_witness :
  exists filteredColors,
    Client.filter_colors
      [Client.Color (lit " "); Client.Color (lit "#fff"); Client.Color []]
    = Return filteredColors
    /\ validateInput sample_gt (JStr (lit "toys")) (JNum 2)
         (sent_colors filteredColors)
       = Return [].
Proof.
  destruct (client_request_validates sample_gt sample_form)
    as (kept & Hk & _ & _ & _ & Hv & _).
  - unfold well_formed. cbn. repeat split; tauto.
  - vm_compute. discriminate.
  - exists kept. split; [exact Hk | exact Hv].
Defined.

Lemma error_response_body error :
  exists text,
    In text (tl enhanced_errors)
    /\ body (error_response error)
       = JObj [ (lit "error", JStr text);
                (lit "details", JStr (message error)) ].
Proof.
  unfold error_response.
  destruct (includes (message error) (lit "API key"));
    [eexists; split; [| reflexivity]; cbn; tauto |].
  destruct (includes (message error) (lit "timeout"));
    [eexists; split; [| reflexivity]; cbn; tauto |].
  destruct (includes (message error) (lit "rate limit"));
    eexists; (split; [| reflexivity]); cbn; tauto.
Qed.

Lemma own_property_icons a b rest :
  own_property (lit "icons") ((lit "success", a) :: (lit "icons", b) :: rest)
  = Some b.
Proof. reflexivity. Qed.

Lemma own_property_error a rest :
  own_property (lit "error") ((lit "error", a) :: rest) = Some a.
Proof. reflexivity. Qed.

(** What [generateIcons] makes of a response that is not ok and carries a
    text in [error], and of one that is ok and carries [icons]. *)
Lemma generateIcons_shows_error fetch st kept status text rest :
  truthy (JStr (trim (Client.st_prompt st))) = true ->
  Client.filter_colors (Client.st_brandColors st) = Return kept ->
  fetch (Client.request_body (Client.st_prompt st)
           (Client.st_selectedStyle st) kept)
  = Return {| Client.ok := status;
              Client.json :=
                Return (JObj ((lit "error", JStr text) :: rest)) |} ->
  status = false -> text <> [] ->
  Client.st_error (Client.generateIcons fetch st) = text
  /\ Client.st_icons (Client.generateIcons fetch st) = JArr [].
Proof.
  intros T K F -> N. unfold Client.generateIcons. rewrite T. cbn [negb].
  cbv zeta. unfold Client.generateIcons_try.
  cbn [Client.setIcons Client.setError Client.setLoading Client.st_prompt
       Client.st_selectedStyle Client.st_brandColors].
  rewrite K. cbn [obind]. rewrite F.
  cbn [obind Client.ok Client.json negb Client.property get_field].
  rewrite own_property_error.
  destruct text as [| c text]; [congruence |].
  cbn [truthy ToString obind]. split; reflexivity.
Qed.

Lemma generateIcons_shows_icons fetch st kept status a icons rest :
  truthy (JStr (trim (Client.st_prompt st))) = true ->
  Client.filter_colors (Client.st_brandColors st) = Return kept ->
  fetch (Client.request_body (Client.st_prompt st)
           (Client.st_selectedStyle st) kept)
  = Return {| Client.ok := status;
              Client.json :=
                Return (JObj ((lit "success", a) :: (lit "icons", icons)
                              :: rest)) |} ->
  status = true ->
  Client.st_error (Client.generateIcons fetch st) = []
  /\ Client.st_icons (Client.generateIcons fetch st) = icons.
Proof.
  intros T K F ->. unfold Client.generateIcons. rewrite T. cbn [negb].
  cbv zeta. unfold Client.generateIcons_try.
  cbn [Client.setIcons Client.setError Client.setLoading Client.st_prompt
       Client.st_selectedStyle Client.st_brandColors].
  rewrite K. cbn [obind]. rewrite F.
  cbn [obind Client.ok Client.json negb Client.property get_field].
  rewrite own_property_icons. split; reflexivity.
Qed.

Section ClientEnhanced.

Variable gt : jsstring -> Z -> bool.
Variable inherited_text : jsstring -> jsstring.
Variable replicate_run : World -> outcome output.

Local Abbreviation exports := (exports_handler gt inherited_text replicate_run).
Local Abbreviation handle := (handler gt inherited_text replicate_run).
Local Abbreviation try_block := (handler_try gt inherited_text replicate_run).

Lemma fetch_enhanced_handler w p s kept r w' :
  handle (JStr (trim p)) (JNum s) (sent_colors kept) w = (Return r, w') ->
  fetch_enhanced gt inherited_text replicate_run w
    (Client.request_body p s kept)
  = Return (http_of (with_headers r)).
Proof.
  intros H. unfold fetch_enhanced.
  rewrite exports_handler_cases, client_request_fields.
  change (strict_equals (ev_httpMethod (posted (Client.request_body p s kept)))
            (lit "OPTIONS")) with false.
  change (strict_equals (ev_httpMethod (posted (Client.request_body p s kept)))
            (lit "POST")) with true.
  cbv iota. cbn [fst snd]. rewrite H. reflexivity.
Qed.

Lemma handler_after_validation prompt style brandColors w r w' errors :
  validateInput gt prompt style brandColors = Return errors ->
  handle prompt style brandColors w = (Return r, w') ->
  match errors with
  | _ :: _ =>
      statusCode r = 400
      /\ body r = JObj [ (lit "error", JStr (lit "Validation failed"));
                         (lit "details", JArr (map JStr errors)) ]
  | [] =>
      (statusCode r = 200
       /\ exists a icons rest,
            body r = JObj ((lit "success", a)
                           :: (lit "icons", JArr icons) :: rest)
            /\ (2 <= length icons <= 4)%nat)
      \/ (In (statusCode r) [429; 500; 503; 504]
          /\ exists text details,
               In text (tl enhanced_errors)
               /\ body r = JObj [ (lit "error", JStr text);
                                  (lit "details", details) ])
  end.
Proof.
  intros V. unfold handler, try_catch.
  destruct (try_block prompt style brandColors w) as [[r0 | error] w0] eqn:E.
  - intros H. injection H as <- <-.
    destruct (handler_try_status _ _ _ _ _ _ _ _ _ E) as [S | S].
    + destruct (handler_try_200 _ _ _ _ _ _ _ _ _ E S)
        as (p & b & results & es & tr & -> & _ & _ & Hdoc & Hlen & _).
      assert (errors = []) as ->.
      { destruct errors as [| m errors]; [reflexivity |]. exfalso.
        revert E. unfold handler_try. unfold bind at 1, lift at 1.
        rewrite V. change (0 <? length (m :: errors))%nat with true.
        cbv iota. unfold ret. intros E. injection E as <- _.
        discriminate S. }
      left. split; [exact S |].
      rewrite Hdoc. cbn [app]. do 3 eexists. split; [reflexivity |].
      rewrite length_map. exact Hlen.
    + destruct (handler_try_400 _ _ _ _ _ _ _ _ _ E S)
        as (_ & errs & V' & Hne & Hb).
      rewrite V in V'. injection V' as <-.
      destruct errors as [| m errors]; [congruence |].
      split; assumption.
  - unfold ret. intros H. injection H as <- <-.
    assert (errors = []) as ->.
    { destruct errors as [| m errors]; [reflexivity |]. exfalso.
      revert E. unfold handler_try. unfold bind at 1, lift at 1.
      rewrite V. change (0 <? length (m :: errors))%nat with true.
      cbv iota. unfold ret. discriminate. }
    right. split; [apply error_response_statuses |].
    destruct (error_response_body error) as (text & Hin & Hb).
    exists text, (JStr (message error)). split; [exact Hin | exact Hb].
Qed.

(** X14.  The form against the function with retry.  For a form in a
    reachable shape and a prompt that is not blank, [generateIcons] ends in
    one of two ways.  Either no error is shown and the form holds between
    two and four icons; this needs a trimmed prompt of at most 200 code
    units.  Or no icon is held and the error shown is one of the five
    messages that the function puts in [error], never its [details]; it is
    "Validation failed" exactly when the trimmed prompt is longer than 200
    code units, so no other rule of [validateInput] can turn the form's
    request down. *)
Theorem client_with_enhanced_function (st : Client.state) (w : World) :
  well_formed st ->
  trim (Client.st_prompt st) <> [] ->
  let st' :=
    Client.generateIcons (fetch_enhanced gt inherited_text replicate_run w)
      st in
  (Client.st_error st' = []
   /\ (exists icons,
         Client.st_icons st' = JArr icons /\ (2 <= length icons <= 4)%nat)
   /\ (length (trim (Client.st_prompt st)) <= 200)%nat)
  \/ (Client.st_icons st' = JArr []
      /\ In (Client.st_error st') enhanced_errors
      /\ (Client.st_error st' = lit "Validation failed"
          <-> (200 < length (trim (Client.st_prompt st)))%nat)).
Proof.
  intros (Hlen & Hcol & Hsty & _ & _) Hp. cbv zeta.
  destruct (filter_colors_kept _ Hcol) as (kept & Hk & Hl & _).
  assert (T : truthy (JStr (trim (Client.st_prompt st))) = true).
  { cbn [truthy]. destruct (trim (Client.st_prompt st));
      [congruence | reflexivity]. }
  pose proof (client_request_validates_at gt (Client.st_prompt st)
                (Client.st_selectedStyle st) kept Hp Hsty ltac:(lia)) as V.
  destruct (handler_returns gt inherited_text replicate_run
              (JStr (trim (Client.st_prompt st)))
              (JNum (Client.st_selectedStyle st)) (sent_colors kept) w)
    as (r & w' & H).
  pose proof (fetch_enhanced_handler _ _ _ _ _ _ H) as F.
  pose proof (handler_after_validation _ _ _ _ _ _ _ V H) as R.
  destruct (Nat.ltb_spec 200 (length (trim (Client.st_prompt st))))
    as [Hlong | Hshort].
  - destruct R as [S B]. right.
    destruct (generateIcons_shows_error _ st kept false
                (lit "Validation failed") _ T Hk
                ltac:(rewrite F; unfold http_of, with_headers;
                      cbn [reply_status reply_body]; rewrite S, B;
                      reflexivity) eq_refl ltac:(discriminate))
      as [He Hi].
    rewrite He, Hi. split; [reflexivity |]. split; [cbn; tauto |].
    split; [intros _; exact Hlong | reflexivity].
  - destruct R as [(S & a & icons & rest & B & Hn) | (S & text & details & Hin & B)].
    + left.
      destruct (generateIcons_shows_icons _ st kept true a (JArr icons) rest
                  T Hk
                  ltac:(rewrite F; unfold http_of, with_headers;
                        cbn [reply_status reply_body]; rewrite S, B;
                        reflexivity) eq_refl)
        as [He Hi].
      rewrite He, Hi. split; [reflexivity |].
      split; [exists icons; split; [reflexivity | exact Hn] | exact Hshort].
    + right.
      assert (O : (200 <=? statusCode r) && (statusCode r <=? 299) = false).
      { cbn [In] in S.
        destruct S as [<- | [<- | [<- | [<- | []]]]]; reflexivity. }
      assert (N : text <> [] /\ text <> lit "Validation failed").
      { cbn [enhanced_errors tl In] in Hin.
        destruct Hin as [<- | [<- | [<- | [<- | []]]]];
          split; discriminate. }
      destruct (generateIcons_shows_error _ st kept false text _ T Hk
                  ltac:(rewrite F; unfold http_of, with_headers;
                        cbn [reply_status reply_body]; rewrite O, B;
                        reflexivity) eq_refl (proj1 N))
        as [He Hi].
      rewrite He, Hi. split; [reflexivity |].
      split; [right; exact Hin |].
      split; [intros E; destruct (proj2 N E) | lia].
Qed.

End ClientEnhanced.

Lemma client_with_enhanced_function_witness :
  let st' :=
    Client.generateIcons (fetch_enhanced sample_gt no_text always_ok [])
      sample_form in
  Client.st_error st' = []
  /\ exists icons,
       Client.st_icons st' = JArr icons /\ (2 <= length icons <= 4)%nat.
Proof.
  destruct (client_with_enhanced_function sample_gt no_text always_ok
              sample_form [])
    as [(He & Hi & _) | (Hi & _)].
  - unfold well_formed. cbn. repeat split; tauto.
  - vm_compute. discriminate.
  - split; [exact He | exact Hi].
  - vm_compute in Hi. discriminate Hi.
Defined.

Lemma Array_join_strings sep (l : list jsstring) :
  exists joined, Array_join sep (map JStr l) = Return joined.
Proof.
  induction l as [| s l [joined IH]]; [exists []; reflexivity |].
  cbn [map Array_join join_element ToString obind].
  destruct l as [| s' l]; [exists s; reflexivity |].
  cbn [map] in IH |- *. rewrite IH. cbn [obind]. eexists. reflexivity.
Qed.

(** X15.  The form against the basic function.  For a form in a reachable
    shape and a prompt that is not blank, [generateIcons] ends with four
    icons and no error, or with no icon and the error "Failed to generate
    icons": the two checks of the basic function that answer 400 never turn
    the form's request down. *)
Theorem client_with_basic_function
  (inherited_text : jsstring -> jsstring)
  (replicate_run : Z -> jsstring -> Basic.promise output)
  (st : Client.state) :
  well_formed st ->
  trim (Client.st_prompt st) <> [] ->
  let st' :=
    Client.generateIcons (fetch_basic inherited_text replicate_run) st in
  (Client.st_error st' = []
   /\ exists icons,
        Client.st_icons st' = JArr icons /\ length icons = 4%nat)
  \/ (Client.st_icons st' = JArr []
      /\ Client.st_error st' = lit "Failed to generate icons").
Proof.
  intros (Hlen & Hcol & Hsty & _ & _) Hp. cbv zeta.
  destruct (filter_colors_kept _ Hcol) as (kept & Hk & Hl & _).
  assert (T : truthy (JStr (trim (Client.st_prompt st))) = true).
  { cbn [truthy]. destruct (trim (Client.st_prompt st));
      [congruence | reflexivity]. }
  destruct (style_of_STYLES _ Hsty) as (Ts & m & Hm & Hmt).
  assert (C : exists colors,
             Basic.color_instruction (sent_colors kept) = Return colors).
  { unfold Basic.color_instruction, sent_colors.
    destruct (0 <? length kept)%nat; [| exists []; reflexivity].
    cbn [truthy join_method].
    destruct (Array_join_strings (lit ", ") kept) as [joined ->].
    eexists. reflexivity. }
  destruct C as [colors C].
  set (doc := Client.request_body (Client.st_prompt st)
                (Client.st_selectedStyle st) kept).
  assert (F : fetch_basic inherited_text replicate_run doc
              = Return (http_of (with_headers
                  (Basic.netlify_handler inherited_text replicate_run
                     (JStr (trim (Client.st_prompt st)))
                     (JNum (Client.st_selectedStyle st))
                     (sent_colors kept))))).
  { unfold fetch_basic, BasicExports.exports_handler.
    change (strict_equals (ev_httpMethod (posted doc)) (lit "OPTIONS"))
      with false.
    change (strict_equals (ev_httpMethod (posted doc)) (lit "POST"))
      with true.
    cbv iota. cbn [negb]. fold (request_fields (posted doc)).
    subst doc. rewrite client_request_fields. reflexivity. }
  revert F. unfold Basic.netlify_handler, Basic.generate_try.
  rewrite T, Ts, Hm. cbn [negb orb obind]. rewrite Hmt, C. cbn [negb obind].
  unfold Basic.Promise_all.
  destruct (Basic.first_rejection _) as [[t e] |] eqn:R; cbn [obind];
    intros F.
  - right.
    destruct (generateIcons_shows_error _ st kept false
                (lit "Failed to generate icons") _ T Hk F eq_refl
                ltac:(discriminate)) as [He Hi].
    split; assumption.
  - left.
    destruct (generateIcons_shows_icons _ st kept true _ _ _ T Hk F eq_refl)
      as [He Hi].
    split; [exact He |]. eexists. split; [exact Hi |].
    destruct (first_rejection_none _ R) as [_ Hn].
    rewrite !length_map, basic_sort_length. exact Hn.
Qed.

Lemma client_with_basic_function_witness :
  Client.st_error (Client.generateIcons (fetch_basic no_text two_fail)
                     sample_form)
  = lit "Failed to generate icons".
Proof.
  destruct (client_with_basic_function no_text two_fail sample_form)
    as [(_ & icons & Hi & Hn) | (_ & He)].
  - unfold well_formed. cbn. repeat split; tauto.
  - vm_compute. discriminate.
  - exfalso. vm_compute in Hi. injection Hi as <-. discriminate Hn.
  - exact He.
Defined.

Lemma toggles_theme t n :
  let tn := toggles (S n) t in
  Client.theme tn
  = (if Bool.eqb (jsstring_eqb (Client.theme t) (lit "light")) (Nat.even n)
     then lit "dark" else lit "light")
  /\ Client.data_theme tn = Some (Client.theme tn)
  /\ Client.stored_theme tn = Some (Client.theme tn).
Proof.
  cbv zeta. induction n as [| n (IH & _)].
  - cbn [toggles Client.toggleTheme Client.theme Client.data_theme
         Client.stored_theme Nat.even].
    destruct (jsstring_eqb (Client.theme t) (lit "light"));
      repeat split; reflexivity.
  - change (toggles (S (S n)) t) with (Client.toggleTheme (toggles (S n) t)).
    unfold Client.toggleTheme at 1 2 3 4 5.
    cbn [Client.theme Client.data_theme Client.stored_theme].
    split; [| split; reflexivity].
    rewrite IH, Nat.even_succ, <- Nat.negb_even.
    destruct (jsstring_eqb (Client.theme t) (lit "light")),
      (Nat.even n); reflexivity.
Qed.

(** X16.  The theme.  On mount a saved theme that is not empty is taken as
    it is, whatever it says, and nothing is written to the storage;
    otherwise the system preference decides.  From then on the [data-theme]
    attribute always equals the state.  After the first click on the toggle
    the stored theme equals the state too, and the state is "dark" or
    "light" by the parity of the clicks, a theme that was neither counting
    as dark. *)
Theorem theme_follows_toggles (prefersDark : bool) (t : Client.theming)
  (n : nat) :
  let t0 := Client.load_theme prefersDark t in
  let tn := toggles n t0 in
  Client.data_theme tn = Some (Client.theme tn)
  /\ Client.stored_theme t0 = Client.stored_theme t
  /\ Client.theme t0
     = match Client.stored_theme t with
       | Some (c :: saved) => c :: saved
       | _ => if prefersDark then lit "dark" else lit "light"
       end
  /\ ((0 < n)%nat ->
      Client.stored_theme tn = Some (Client.theme tn)
      /\ Client.theme tn
         = if Bool.eqb (jsstring_eqb (Client.theme t0) (lit "light"))
                (Nat.odd n)
           then lit "dark" else lit "light").
Proof.
  cbv zeta. split; [| split; [| split]].
  - destruct n as [| n]; [| apply (toggles_theme _ n)].
    cbn [toggles]. unfold Client.load_theme.
    destruct (Client.stored_theme t) as [[| c saved] |]; reflexivity.
  - unfold Client.load_theme.
    destruct (Client.stored_theme t) as [[| c saved] |]; reflexivity.
  - unfold Client.load_theme.
    destruct (Client.stored_theme t) as [[| c saved] |]; reflexivity.
  - intros Hn. destruct n as [| n]; [lia |].
    destruct (toggles_theme (Client.load_theme prefersDark t) n)
      as (Ht & _ & Hs).
    split; [exact Hs |]. rewrite Ht, Nat.odd_succ. reflexivity.
Qed.

Lemma theme_follows_toggles_witness :
  Client.theme
    (toggles 1
       (Client.load_theme false
          {| Client.theme := lit "light";
             Client.data_theme := None;
             Client.stored_theme := Some (lit "blue") |}))
  = lit "light".
Proof.
  destruct (theme_follows_toggles false
              {| Client.theme := lit "light";
                 Client.data_theme := None;
                 Client.stored_theme := Some (lit "blue") |} 1)
    as (_ & _ & _ & H).
  destruct (H ltac:(lia)) as [_ Ht]. exact Ht.
Defined.

(** X17.  The two functions on one request: what [validateInput] lets
    through, the basic function does not answer with 400 either; it answers
    200 or 500. *)
Theorem basic_accepts_validated (gt : jsstring -> Z -> bool)
  (inherited_text : jsstring -> jsstring)
  (replicate_run : Z -> jsstring -> Basic.promise output)
  (prompt style brandColors : jsval) :
  validateInput gt prompt style brandColors = Return [] ->
  In (statusCode (Basic.netlify_handler inherited_text replicate_run prompt
                    style brandColors)) [200; 500].
Proof.
  intros V.
  destruct (validateInput_inv gt _ _ _ _ V)
    as (c2 & c3 & c5 & _ & H3 & _ & Hin).
  assert (P : prompt_missing prompt = false).
  { destruct (prompt_missing prompt) eqn:E; [| reflexivity].
    destruct (proj2 (Hin msg_prompt_required)).
    left. split; reflexivity. }
  assert (S3 : c3 = false).
  { destruct c3; [| reflexivity].
    destruct (proj2 (Hin msg_style)).
    right; right; left. split; reflexivity. }
  subst c3. unfold prompt_missing in P. apply orb_false_iff in P.
  destruct P as [P _]. unfold style_invalid in H3.
  unfold Basic.netlify_handler, Basic.generate_try. rewrite P.
  destruct (truthy style); cbn [negb orb] in H3 |- *; [| discriminate H3].
  destruct (STYLE_PROMPTS_get style) as [m |]; cbn [obind] in H3 |- *;
    [| discriminate H3].
  injection H3 as H3. rewrite H3.
  destruct (Basic.color_instruction brandColors); cbn [obind];
    [| cbn; tauto].
  destruct (Basic.Promise_all _); cbn; tauto.
Qed.

Lemma basic_accepts_validated_witness :
  In (statusCode (Basic.netlify_handler no_text two_fail (JStr (lit "cat"))
                    (JNum 1) JUndefined)) [200; 500].
Proof.
  apply (basic_accepts_validated sample_gt). reflexivity.
Defined.

(* ------------------------------------------------------------------ *)
(** ** The outer [catch] and the errors of the image service *)












